(** * LogisticPortal: the tracking-event pipeline

    A shallow embedding of the tracking backbone of the portal:
    - [src/backend/models/Shipment.js] (classes [Shipment] and [TrackingEvent]),
    - [src/backend/services/TrackingService.js],
    - [src/backend/services/RealTimeTrackingService.js],
    - [src/backend/services/IATAOneRecordService.js] (the mapping of
      OneRecord events),
    - the public endpoint of the tracking controller and the AWB input of
      the search form.

    The relational store is a record of tables, each table a list of rows in
    insertion order; every SQL statement of the source is written out as the
    list operation it denotes, and takes effect when it is executed (the
    [commit] and [rollback] of the models do nothing).  Rows are read back
    under the column names the models use.  Instants ([Date], TIMESTAMP) are
    integers counting milliseconds since the epoch.  Fixed-point NUMBER(p,s)
    columns are integers counting units of 10^-s.  Failures of the store
    other than a violated NOT NULL are not modelled, except where a
    definition names the key, UNIQUE or CHECK constraint it observes.  The
    socket hub keeps its rooms in finite maps of finite sets. *)

From Stdlib Require Import ZArith Lia.
From stdpp Require Import gmap strings list fin_maps sorting pretty.

Open Scope Z_scope.

(** ** Enumerations *)

(** CHECK constraint of [shipments.current_status]. *)
Inductive Status :=
  | CREATED | BOOKED | MANIFESTED | DEPARTED | IN_TRANSIT | ARRIVED
  | CUSTOMS_CLEARANCE | OUT_FOR_DELIVERY | DELIVERED | CANCELLED
  | ON_HOLD | EXCEPTION.

#[global] Instance Status_eq_dec : EqDecision Status.
Proof. solve_decision. Defined.

(** CHECK constraint of [tracking_events.event_category]. *)
Inductive Category :=
  | STATUS_UPDATE | LOCATION_UPDATE | MILESTONE | EXCEPTION_EVENT | NOTIFICATION.

#[global] Instance Category_eq_dec : EqDecision Category.
Proof. solve_decision. Defined.

(** ** JavaScript values that the model needs *)

(** Truthiness of a string that may be [undefined]/[null]: the empty string
    is falsy. *)
Definition truthy_str (o : option string) : bool :=
  match o with
  | Some s => negb (String.eqb s "")
  | None => false
  end.

(** Truthiness of a number that may be [undefined]/[null]: zero is falsy. *)
Definition truthy_num (o : option Z) : bool :=
  match o with
  | Some n => negb (n =? 0)
  | None => false
  end.

(** Template-literal rendering [`${x}`] of a string that may be [undefined]. *)
Definition template (o : option string) : string :=
  match o with
  | Some s => s
  | None => "undefined"
  end.

(** JSON-like values produced by the [toJSON] methods. *)
#[warnings="-register-all"] Inductive JValue :=
  | JNull
  | JBool (b : bool)
  | JNum (n : Z)
  | JStr (s : string)
  | JObj (fields : list (string * JValue)).

Definition jstr (o : option string) : JValue :=
  match o with Some s => JStr s | None => JNull end.

Definition jnum (o : option Z) : JValue :=
  match o with Some n => JNum n | None => JNull end.

(** Property lookup on an object literal: the first binding of the key. *)
Fixpoint jget (k : string) (fields : list (string * JValue)) : option JValue :=
  match fields with
  | [] => None
  | (k', v) :: rest => if String.eqb k k' then Some v else jget k rest
  end.

Definition has_key (k : string) (fields : list (string * JValue)) : bool :=
  match jget k fields with Some _ => true | None => false end.

(** ** Rows *)

(** A row of [shipments] (the columns the tracking pipeline reads or
    writes).  [current_status] is nullable in the schema, and the pipeline
    can write NULL into it, hence the option. *)
Record shipment := mkShipment {
  shipment_id : string;
  awb_number : string;
  customer_id : string;
  origin_airport : string;
  current_status : option Status;
  current_location : option string;
  delivery_date : option Z;
  estimated_delivery_date : option Z;
  tracking_enabled : bool;
  last_tracked_at : option Z;
  tracking_frequency_minutes : Z
}.

(** A [TrackingEvent] object, also a row of [tracking_events].  Coordinates
    are NUMBER(10,7), temperature and humidity NUMBER(5,2). *)
Record tracking_event := mkEvent {
  event_id : string;
  te_shipment_id : string;
  event_code : string;
  event_description : string;
  event_category : Category;
  event_location : option string;
  event_country : option string;
  event_city : option string;
  airport_code : option string;
  event_datetime : Z;
  event_timezone : string;
  milestone_id : option string;
  is_milestone : bool;
  is_exception : bool;
  is_critical : bool;
  severity_level : string;
  source_id : option string;
  external_event_id : option string;
  source_reference : option string;
  additional_info : option string;
  longitude : option Z;
  latitude : option Z;
  temperature_celsius : option Z;
  humidity_percent : option Z;
  processed : bool;
  notification_sent : bool;
  customer_visible : bool;
  created_at : option Z;
  milestone_name : option string;
  milestone_category : option string;
  source_name : option string
}.

(** A row of [tracking_subscriptions]. *)
Record subscription := mkSubscription {
  subscription_id : string;
  ts_shipment_id : string;
  ts_customer_id : string;
  notification_method : string;
  notification_endpoint : string;
  milestone_notifications : bool;
  exception_notifications : bool;
  location_updates : bool;
  all_events : bool;
  is_active : bool
}.

(** The store: three tables, and the log of the calls made to the
    notification service (the subscription row and the [event_id] of the
    event passed to [sendTrackingNotification]). *)
Record DB := mkDB {
  shipments : list shipment;
  tracking_events : list tracking_event;
  tracking_subscriptions : list subscription;
  notifications : list (subscription * string)
}.

(** The payload handed to the ingestion entry points ([eventData],
    [externalData]); absent properties are [None], and [additional_info] is
    held as the text that [JSON.stringify] makes of it. *)
Record event_data := mkEventData {
  d_event_code : string;
  d_event_description : string;
  d_event_category : option Category;
  d_event_location : option string;
  d_event_country : option string;
  d_event_city : option string;
  d_airport_code : option string;
  d_event_datetime : option Z;
  d_event_timezone : option string;
  d_milestone_id : option string;
  d_is_milestone : bool;
  d_is_exception : bool;
  d_is_critical : bool;
  d_severity_level : option string;
  d_external_event_id : option string;
  d_source_reference : option string;
  d_additional_info : option string;
  d_longitude : option Z;
  d_latitude : option Z;
  d_temperature_celsius : option Z;
  d_humidity_percent : option Z;
  d_customer_visible : option bool
}.

(** What a call draws from its environment: the [uuidv4()] generator (its
    n-th value is handed to the n-th inserted event), the clock
    ([new Date()], CURRENT_TIMESTAMP, SYSDATE) and [JSON.parse], which
    throws ([None]) on malformed text. *)
Record env := mkEnv {
  uuidv4 : nat -> string;
  now : Z;
  json_parse : string -> option JValue
}.

(** Outcome of an ingestion call; the source signals the last three by
    throwing. *)
Inductive outcome :=
  | Created (e : tracking_event)
  | Duplicate
  | ShipmentNotFound
  | StoreError.

(** ** Row updates *)

Definition set_status_location_tracked
    (st : option Status) (loc : option string) (t : Z) (s : shipment) : shipment :=
  {| shipment_id := shipment_id s; awb_number := awb_number s;
     customer_id := customer_id s; origin_airport := origin_airport s;
     current_status := st; current_location := loc;
     delivery_date := delivery_date s;
     estimated_delivery_date := estimated_delivery_date s;
     tracking_enabled := tracking_enabled s;
     last_tracked_at := Some t;
     tracking_frequency_minutes := tracking_frequency_minutes s |}.

Definition set_delivery_date (t : Z) (s : shipment) : shipment :=
  {| shipment_id := shipment_id s; awb_number := awb_number s;
     customer_id := customer_id s; origin_airport := origin_airport s;
     current_status := current_status s; current_location := current_location s;
     delivery_date := Some t;
     estimated_delivery_date := estimated_delivery_date s;
     tracking_enabled := tracking_enabled s;
     last_tracked_at := last_tracked_at s;
     tracking_frequency_minutes := tracking_frequency_minutes s |}.

Definition set_status (st : option Status) (s : shipment) : shipment :=
  {| shipment_id := shipment_id s; awb_number := awb_number s;
     customer_id := customer_id s; origin_airport := origin_airport s;
     current_status := st; current_location := current_location s;
     delivery_date := delivery_date s;
     estimated_delivery_date := estimated_delivery_date s;
     tracking_enabled := tracking_enabled s;
     last_tracked_at := last_tracked_at s;
     tracking_frequency_minutes := tracking_frequency_minutes s |}.

Definition set_tracking_config (en : bool) (freq : Z) (s : shipment) : shipment :=
  {| shipment_id := shipment_id s; awb_number := awb_number s;
     customer_id := customer_id s; origin_airport := origin_airport s;
     current_status := current_status s; current_location := current_location s;
     delivery_date := delivery_date s;
     estimated_delivery_date := estimated_delivery_date s;
     tracking_enabled := en;
     last_tracked_at := last_tracked_at s;
     tracking_frequency_minutes := freq |}.

(** [UPDATE shipments SET ... WHERE shipment_id = :id]. *)
Definition update_shipments (id : string) (f : shipment -> shipment) (db : DB) : DB :=
  {| shipments :=
       List.map (fun s => if String.eqb (shipment_id s) id then f s else s)
                (shipments db);
     tracking_events := tracking_events db;
     tracking_subscriptions := tracking_subscriptions db;
     notifications := notifications db |}.

(** [INSERT INTO tracking_events]: [created_at] defaults to the clock. *)
Definition stored_row (t : Z) (e : tracking_event) : tracking_event :=
  {| event_id := event_id e; te_shipment_id := te_shipment_id e;
     event_code := event_code e; event_description := event_description e;
     event_category := event_category e; event_location := event_location e;
     event_country := event_country e; event_city := event_city e;
     airport_code := airport_code e; event_datetime := event_datetime e;
     event_timezone := event_timezone e; milestone_id := milestone_id e;
     is_milestone := is_milestone e; is_exception := is_exception e;
     is_critical := is_critical e; severity_level := severity_level e;
     source_id := source_id e; external_event_id := external_event_id e;
     source_reference := source_reference e;
     additional_info := additional_info e;
     longitude := longitude e; latitude := latitude e;
     temperature_celsius := temperature_celsius e;
     humidity_percent := humidity_percent e;
     processed := processed e; notification_sent := notification_sent e;
     customer_visible := customer_visible e;
     created_at := Some t;
     milestone_name := milestone_name e;
     milestone_category := milestone_category e;
     source_name := source_name e |}.

Definition insert_event (t : Z) (e : tracking_event) (db : DB) : DB :=
  {| shipments := shipments db;
     tracking_events := tracking_events db ++ [stored_row t e];
     tracking_subscriptions := tracking_subscriptions db;
     notifications := notifications db |}.

Definition mark_sent (e : tracking_event) : tracking_event :=
  {| event_id := event_id e; te_shipment_id := te_shipment_id e;
     event_code := event_code e; event_description := event_description e;
     event_category := event_category e; event_location := event_location e;
     event_country := event_country e; event_city := event_city e;
     airport_code := airport_code e; event_datetime := event_datetime e;
     event_timezone := event_timezone e; milestone_id := milestone_id e;
     is_milestone := is_milestone e; is_exception := is_exception e;
     is_critical := is_critical e; severity_level := severity_level e;
     source_id := source_id e; external_event_id := external_event_id e;
     source_reference := source_reference e;
     additional_info := additional_info e;
     longitude := longitude e; latitude := latitude e;
     temperature_celsius := temperature_celsius e;
     humidity_percent := humidity_percent e;
     processed := processed e; notification_sent := true;
     customer_visible := customer_visible e;
     created_at := created_at e;
     milestone_name := milestone_name e;
     milestone_category := milestone_category e;
     source_name := source_name e |}.

(** ** [Shipment] (models/Shipment.js) *)

Module Shipment.

(** The constructor, applied to a fetched row: [data.current_status ||
    'CREATED'] and [data.tracking_frequency_minutes || 30]. *)
Definition new (row : shipment) : shipment :=
  {| shipment_id := shipment_id row; awb_number := awb_number row;
     customer_id := customer_id row; origin_airport := origin_airport row;
     current_status :=
       match current_status row with Some st => Some st | None => Some CREATED end;
     current_location := current_location row;
     delivery_date := delivery_date row;
     estimated_delivery_date := estimated_delivery_date row;
     tracking_enabled := tracking_enabled row;
     last_tracked_at := last_tracked_at row;
     tracking_frequency_minutes :=
       if tracking_frequency_minutes row =? 0 then 30
       else tracking_frequency_minutes row |}.

(** [SELECT ... WHERE s.shipment_id = :shipmentId], first row. *)
Definition findById (db : DB) (shipmentId : string) : option shipment :=
  match List.filter (fun s => String.eqb (shipment_id s) shipmentId) (shipments db) with
  | [] => None
  | row :: _ => Some (new row)
  end.

(** [SELECT ... WHERE s.awb_number = :awbNumber], first row. *)
Definition findByAwb (db : DB) (awbNumber : string) : option shipment :=
  match List.filter (fun s => String.eqb (awb_number s) awbNumber) (shipments db) with
  | [] => None
  | row :: _ => Some (new row)
  end.

(** [updateTrackingConfig(config)]: only [tracking_enabled] and
    [tracking_frequency_minutes] are taken from [config] and written. *)
Definition updateTrackingConfig (db : DB) (this : shipment)
    (cfg_enabled : bool) (cfg_frequency : Z) : DB :=
  update_shipments (shipment_id this)
    (set_tracking_config cfg_enabled cfg_frequency) db.

(** [delete()]: the soft delete. *)
Definition delete (db : DB) (this : shipment) : DB :=
  update_shipments (shipment_id this) (set_status (Some CANCELLED)) db.

(** ORDER BY te.event_datetime DESC. *)
Definition newest_first (a b : tracking_event) : Prop :=
  event_datetime b <= event_datetime a.

#[global] Instance newest_first_dec : RelDecision newest_first.
Proof. intros a b. unfold newest_first. apply _. Defined.

(** The WHERE clause of [getTrackingHistory]; an empty [eventTypes] puts no
    condition on the category. *)
Definition in_history (this : shipment) (includeInternal : bool)
    (eventTypes : list Category) (te : tracking_event) : bool :=
  String.eqb (te_shipment_id te) (shipment_id this)
  && (includeInternal || customer_visible te)
  && match eventTypes with
     | [] => true
     | _ => existsb (fun c => bool_decide (event_category te = c)) eventTypes
     end.

(** [getTrackingHistory({ limit, includeInternal, eventTypes })]; the
    joined catalogue columns keep the values of the row. *)
Definition getTrackingHistory (db : DB) (this : shipment) (limit : nat)
    (includeInternal : bool) (eventTypes : list Category) : list tracking_event :=
  take limit
    (merge_sort newest_first
       (List.filter (in_history this includeInternal eventTypes) (tracking_events db))).

(** [getLatestTrackingEvent()]. *)
Definition getLatestTrackingEvent (db : DB) (this : shipment) : option tracking_event :=
  head (getTrackingHistory db this 1 false []).

(** [isDelivered()] and [isInTransit()]. *)
Definition isDelivered (this : shipment) : bool :=
  bool_decide (current_status this = Some DELIVERED).

Definition isInTransit (this : shipment) : bool :=
  bool_decide (current_status this = Some DEPARTED)
  || bool_decide (current_status this = Some IN_TRANSIT)
  || bool_decide (current_status this = Some ARRIVED).

(** [hasExceptions()]. *)
Definition hasExceptions (db : DB) (this : shipment) : bool :=
  (0 <? length (List.filter
                  (fun te => String.eqb (te_shipment_id te) (shipment_id this)
                             && is_exception te)
                  (tracking_events db)))%nat.

(** MAX and MIN over a column; NULL over no row. *)
Definition max_of (l : list Z) : option Z :=
  fold_right (fun x acc => Some match acc with Some y => Z.max x y | None => x end)
    None l.

Definition min_of (l : list Z) : option Z :=
  fold_right (fun x acc => Some match acc with Some y => Z.min x y | None => x end)
    None l.

(** The object of [getTrackingSummary()]: the columns copied from the
    shipment and the aggregates over its customer-visible events. *)
Record summary := mkSummary {
  sum_shipment : shipment;
  total_events : nat;
  milestones_completed : nat;
  exceptions_count : nat;
  last_update : option Z;
  first_update : option Z
}.

Definition getTrackingSummary (db : DB) (this : shipment) : summary :=
  let rows :=
    List.filter
      (fun te => String.eqb (te_shipment_id te) (shipment_id this) && customer_visible te)
      (tracking_events db) in
  {| sum_shipment := this;
     total_events := length rows;
     milestones_completed := length (List.filter is_milestone rows);
     exceptions_count := length (List.filter is_exception rows);
     last_update := max_of (List.map event_datetime rows);
     first_update := min_of (List.map event_datetime rows) |}.

(** [updateStatus(status, location)]: the location is written even when
    none is given. *)
Definition updateStatus (db : DB) (this : shipment) (status : Status)
    (location : option string) : DB :=
  update_shipments (shipment_id this)
    (fun s =>
       {| shipment_id := shipment_id s; awb_number := awb_number s;
          customer_id := customer_id s; origin_airport := origin_airport s;
          current_status := Some status; current_location := location;
          delivery_date := delivery_date s;
          estimated_delivery_date := estimated_delivery_date s;
          tracking_enabled := tracking_enabled s;
          last_tracked_at := last_tracked_at s;
          tracking_frequency_minutes := tracking_frequency_minutes s |}) db.

End Shipment.

(** ** [TrackingEvent] (models/TrackingEvent.js) *)

Module TrackingEvent.

(** The object literal of [updateShipmentStatus]. *)
Definition statusMapping : list (string * Status) :=
  [ ("SHIPMENT_CREATED", CREATED);
    ("CARGO_COLLECTED", BOOKED);
    ("MANIFESTED", MANIFESTED);
    ("FLIGHT_DEPARTED", DEPARTED);
    ("IN_TRANSIT", IN_TRANSIT);
    ("FLIGHT_ARRIVED", ARRIVED);
    ("CUSTOMS_CLEARANCE", CUSTOMS_CLEARANCE);
    ("CUSTOMS_CLEARED", CUSTOMS_CLEARANCE);
    ("OUT_FOR_DELIVERY", OUT_FOR_DELIVERY);
    ("DELIVERED", DELIVERED) ].

Fixpoint lookup_status (code : string) (table : list (string * Status)) : option Status :=
  match table with
  | [] => None
  | (k, st) :: rest => if String.eqb code k then Some st else lookup_status code rest
  end.

(** [statusMapping[this.event_code] || this.current_status]: a
    [TrackingEvent] has no [current_status] property, so the right operand
    is [undefined], which binds as NULL. *)
Definition newStatus (this : tracking_event) : option Status :=
  match lookup_status (event_code this) statusMapping with
  | Some st => Some st
  | None => None
  end.

(** The guard of [updateShipmentStatus]. *)
Definition updates_shipment (this : tracking_event) : bool :=
  is_milestone this || bool_decide (event_category this = STATUS_UPDATE).

Definition updateShipmentStatus (db : DB) (this : tracking_event) : DB :=
  if updates_shipment this then
    let db1 :=
      update_shipments (te_shipment_id this)
        (set_status_location_tracked (newStatus this) (event_location this)
           (event_datetime this)) db in
    if String.eqb (event_code this) "DELIVERED" then
      update_shipments (te_shipment_id this)
        (set_delivery_date (event_datetime this)) db1
    else db1
  else db.

(** [create()]: insert, then update the shipment. *)
Definition create (en : env) (db : DB) (this : tracking_event) : DB :=
  updateShipmentStatus (insert_event (now en) this db) this.

(** The WHERE clause of [checkDuplicate], on one stored row.  A NULL
    operand makes a comparison unknown, and the row is not counted. *)
Definition duplicate_row (shipmentId eventCode : string) (eventDatetime : option Z)
    (externalEventId : option string) (row : tracking_event) : bool :=
  String.eqb (te_shipment_id row) shipmentId
  && String.eqb (event_code row) eventCode
  && match eventDatetime with
     | Some t => Z.abs (event_datetime row - t) <? 300 * 1000
     | None => false
     end
  && (if truthy_str externalEventId
      then bool_decide (external_event_id row = externalEventId)
      else true).

Definition checkDuplicate (db : DB) (shipmentId eventCode : string)
    (eventDatetime : option Z) (externalEventId : option string) : bool :=
  (0 <? length (List.filter
                  (duplicate_row shipmentId eventCode eventDatetime externalEventId)
                  (tracking_events db)))%nat.

(** [createFromExternal(externalData, sourceId, shipmentId)].  A missing
    [event_datetime] violates NOT NULL on insert. *)
Definition createFromExternal (en : env) (db : DB) (externalData : event_data)
    (sourceId : option string) (shipmentId : string) : DB * outcome :=
  if checkDuplicate db shipmentId (d_event_code externalData)
       (d_event_datetime externalData) (d_external_event_id externalData)
  then (db, Duplicate)
  else
    match d_event_datetime externalData with
    | None => (db, StoreError)
    | Some t =>
      let event :=
        {| event_id := uuidv4 en (length (tracking_events db));
           te_shipment_id := shipmentId;
           event_code := d_event_code externalData;
           event_description := d_event_description externalData;
           event_category := default STATUS_UPDATE (d_event_category externalData);
           event_location := d_event_location externalData;
           event_country := d_event_country externalData;
           event_city := d_event_city externalData;
           airport_code := d_airport_code externalData;
           event_datetime := t;
           event_timezone :=
             if truthy_str (d_event_timezone externalData)
             then template (d_event_timezone externalData) else "UTC";
           milestone_id := None;
           is_milestone := d_is_milestone externalData;
           is_exception := d_is_exception externalData;
           is_critical := false;
           severity_level :=
             if truthy_str (d_severity_level externalData)
             then template (d_severity_level externalData) else "INFO";
           source_id := sourceId;
           external_event_id := d_external_event_id externalData;
           source_reference := d_source_reference externalData;
           additional_info := d_additional_info externalData;
           longitude := d_longitude externalData;
           latitude := d_latitude externalData;
           temperature_celsius := d_temperature_celsius externalData;
           humidity_percent := d_humidity_percent externalData;
           processed := false; notification_sent := false;
           customer_visible := default true (d_customer_visible externalData);
           created_at := None;
           milestone_name := None; milestone_category := None;
           source_name := None |} in
      (create en db event, Created event)
    end.

(** ORDER BY te.event_datetime DESC. *)
Definition later_first (a b : tracking_event) : Prop :=
  event_datetime b <= event_datetime a.

#[global] Instance later_first_dec : RelDecision later_first.
Proof. intros a b. unfold later_first. apply _. Defined.

(** [findByShipment(shipmentId, { limit })] with the other options at
    their defaults: customer-visible rows, latest first.  The milestone
    and source catalogues are not part of the model, so the joined
    columns keep the values of the row. *)
Definition findByShipment (db : DB) (shipmentId : string) (limit : nat)
    : list tracking_event :=
  take limit
    (merge_sort later_first
       (List.filter
          (fun e => String.eqb (te_shipment_id e) shipmentId && customer_visible e)
          (tracking_events db))).

(** [toJSON()]. *)
Definition toJSON (en : env) (this : tracking_event) : list (string * JValue) :=
  [ ("event_id", JStr (event_id this));
    ("shipment_id", JStr (te_shipment_id this));
    ("event_code", JStr (event_code this));
    ("event_description", JStr (event_description this));
    ("event_category",
       JStr match event_category this with
            | STATUS_UPDATE => "STATUS_UPDATE"
            | LOCATION_UPDATE => "LOCATION_UPDATE"
            | MILESTONE => "MILESTONE"
            | EXCEPTION_EVENT => "EXCEPTION"
            | NOTIFICATION => "NOTIFICATION"
            end);
    ("event_location", jstr (event_location this));
    ("event_country", jstr (event_country this));
    ("event_city", jstr (event_city this));
    ("airport_code", jstr (airport_code this));
    ("event_datetime", JNum (event_datetime this));
    ("event_timezone", JStr (event_timezone this));
    ("is_milestone", JBool (is_milestone this));
    ("is_exception", JBool (is_exception this));
    ("is_critical", JBool (is_critical this));
    ("severity_level", JStr (severity_level this));
    ("created_at", jnum (created_at this)) ]
  ++ (if truthy_str (milestone_name this)
      then [ ("milestone",
              JObj [ ("milestone_id", jstr (milestone_id this));
                     ("milestone_name", jstr (milestone_name this));
                     ("milestone_category", jstr (milestone_category this)) ]) ]
      else [])
  ++ (if truthy_str (source_name this)
      then [ ("source",
              JObj [ ("source_id", jstr (source_id this));
                     ("source_name", jstr (source_name this)) ]) ]
      else [])
  ++ (if truthy_num (longitude this) && truthy_num (latitude this)
      then [ ("coordinates",
              JObj [ ("longitude", jnum (longitude this));
                     ("latitude", jnum (latitude this)) ]) ]
      else [])
  ++ (if truthy_num (temperature_celsius this) || truthy_num (humidity_percent this)
      then [ ("environmental_data",
              JObj [ ("temperature_celsius", jnum (temperature_celsius this));
                     ("humidity_percent", jnum (humidity_percent this)) ]) ]
      else [])
  ++ (if truthy_str (additional_info this)
      then [ ("additional_info",
              match json_parse en (template (additional_info this)) with
              | Some v => v
              | None => JStr (template (additional_info this))
              end) ]
      else []).

(** [markNotificationSent()]. *)
Definition markNotificationSent (db : DB) (this : tracking_event) : DB :=
  {| shipments := shipments db;
     tracking_events :=
       List.map (fun e => if String.eqb (event_id e) (event_id this)
                          then mark_sent e else e)
                (tracking_events db);
     tracking_subscriptions := tracking_subscriptions db;
     notifications := notifications db |}.



(** ORDER BY te.created_at ASC, NULLs last. *)
Definition created_le (a b : tracking_event * shipment) : Prop :=
  match created_at a.1, created_at b.1 with
  | Some x, Some y => x <= y
  | _, None => True
  | None, Some _ => False
  end.

#[global] Instance created_le_dec : RelDecision created_le.
Proof.
  intros a b. unfold created_le.
  destruct (created_at a.1), (created_at b.1); apply _.
Defined.


(** [findUnprocessed(limit)]: ORDER BY te.created_at ASC. *)
Definition created_first (a b : tracking_event) : Prop :=
  match created_at a, created_at b with
  | Some x, Some y => x <= y
  | _, None => True
  | None, Some _ => False
  end.

#[global] Instance created_first_dec : RelDecision created_first.
Proof.
  intros a b. unfold created_first.
  destruct (created_at a), (created_at b); apply _.
Defined.

Definition findUnprocessed (db : DB) (limit : nat) : list tracking_event :=
  take limit
    (merge_sort created_first
       (List.filter (fun te => negb (processed te)) (tracking_events db))).

End TrackingEvent.

(** ** [TrackingService] (services/TrackingService.js) *)

(** The upstream feed: the configuration switch
    [config.externalApis.iataOneRecord.enabled] and
    [iataService.getTrackingData], which answers with a list of payloads or
    throws ([None]). *)
Record upstream := mkUpstream {
  iata_enabled : bool;
  getTrackingData : string -> option (list event_data)
}.

Inductive source_type :=
  | IATA_ONERECORD | AIRLINE | CUSTOMS | OTHER_SOURCE (name : string).

Module TrackingService.

Definition getSourceId (sourceType : source_type) : string :=
  match sourceType with
  | IATA_ONERECORD => "src-iata"
  | AIRLINE => "src-airline"
  | CUSTOMS => "src-customs"
  | OTHER_SOURCE _ => "src-manual"
  end.

(** The WHERE clause of [sendTrackingNotifications], on one row. *)
Definition subscription_selected (shipmentId : string) (is_m is_e : bool)
    (sub : subscription) : bool :=
  String.eqb (ts_shipment_id sub) shipmentId
  && is_active sub
  && ((milestone_notifications sub && is_m)
      || (exception_notifications sub && is_e)
      || all_events sub).

(** [sendTrackingNotifications(trackingEvent, shipment)]: one call of the
    notification service per selected row, then the event is marked. *)
Definition sendTrackingNotifications (db : DB) (trackingEvent : tracking_event)
    (shipment_ : shipment) : DB :=
  let rows :=
    List.filter
      (subscription_selected (shipment_id shipment_)
         (is_milestone trackingEvent) (is_exception trackingEvent))
      (tracking_subscriptions db) in
  let db1 :=
    {| shipments := shipments db;
       tracking_events := tracking_events db;
       tracking_subscriptions := tracking_subscriptions db;
       notifications :=
         notifications db
         ++ List.map (fun sub => (sub, event_id trackingEvent)) rows |} in
  TrackingEvent.markNotificationSent db1 trackingEvent.

(** The guard in front of [sendTrackingNotifications]. *)
Definition notifiable (e : tracking_event) : bool :=
  is_milestone e || is_exception e || is_critical e.

(** [createTrackingEvent(shipmentId, eventData, sourceId)]. *)
Definition createTrackingEvent (en : env) (db : DB) (shipmentId : string)
    (eventData : event_data) (sourceId : option string) : DB * outcome :=
  match Shipment.findById db shipmentId with
  | None => (db, ShipmentNotFound)
  | Some shipment_ =>
    if TrackingEvent.checkDuplicate db shipmentId (d_event_code eventData)
         (d_event_datetime eventData) (d_external_event_id eventData)
    then (db, Duplicate)
    else
      let trackingEvent :=
        {| event_id := uuidv4 en (length (tracking_events db));
           te_shipment_id := shipmentId;
           event_code := d_event_code eventData;
           event_description := d_event_description eventData;
           event_category := default STATUS_UPDATE (d_event_category eventData);
           event_location := d_event_location eventData;
           event_country := d_event_country eventData;
           event_city := d_event_city eventData;
           airport_code := d_airport_code eventData;
           event_datetime := default (now en) (d_event_datetime eventData);
           event_timezone :=
             if truthy_str (d_event_timezone eventData)
             then template (d_event_timezone eventData) else "UTC";
           milestone_id := d_milestone_id eventData;
           is_milestone := d_is_milestone eventData;
           is_exception := d_is_exception eventData;
           is_critical := d_is_critical eventData;
           severity_level :=
             if truthy_str (d_severity_level eventData)
             then template (d_severity_level eventData) else "INFO";
           source_id := sourceId;
           external_event_id := d_external_event_id eventData;
           source_reference := d_source_reference eventData;
           additional_info := d_additional_info eventData;
           longitude := d_longitude eventData;
           latitude := d_latitude eventData;
           temperature_celsius := d_temperature_celsius eventData;
           humidity_percent := d_humidity_percent eventData;
           processed := false; notification_sent := false;
           customer_visible := default true (d_customer_visible eventData);
           created_at := None;
           milestone_name := None; milestone_category := None;
           source_name := None |} in
      let db1 := TrackingEvent.create en db trackingEvent in
      if notifiable trackingEvent
      then (sendTrackingNotifications db1 trackingEvent shipment_,
            Created (mark_sent trackingEvent))
      else (db1, Created trackingEvent)
  end.

(** The loop of [updateTrackingFromExternal]: a failing payload is logged
    and skipped. *)
Fixpoint create_all (en : env) (db : DB) (sourceId shipmentId : string)
    (trackingData : list event_data) : DB * list tracking_event :=
  match trackingData with
  | [] => (db, [])
  | eventData :: rest =>
    match TrackingEvent.createFromExternal en db eventData (Some sourceId) shipmentId with
    | (db1, Created e) =>
      let '(db2, es) := create_all en db1 sourceId shipmentId rest in
      (db2, e :: es)
    | (db1, _) => create_all en db1 sourceId shipmentId rest
    end
  end.

(** [updateTrackingFromExternal(awbNumber, sourceType)]; [None] when it
    throws.  The carrier and customs fetchers are placeholders that
    answer with an empty list. *)
Definition updateTrackingFromExternal (up : upstream) (en : env) (db : DB)
    (awbNumber : string) (sourceType : source_type)
    : DB * option (list tracking_event) :=
  match Shipment.findByAwb db awbNumber with
  | None => (db, None)
  | Some shipment_ =>
    if negb (tracking_enabled shipment_) then (db, None)
    else
      let fetched :=
        match sourceType with
        | IATA_ONERECORD =>
          if iata_enabled up then getTrackingData up awbNumber else Some []
        | AIRLINE => Some []
        | CUSTOMS => Some []
        | OTHER_SOURCE _ => None
        end in
      match fetched with
      | None => (db, None)
      | Some trackingData =>
        let '(db1, createdEvents) :=
          create_all en db (getSourceId sourceType) (shipment_id shipment_)
            trackingData in
        (Shipment.updateTrackingConfig db1 shipment_
           (tracking_enabled shipment_) (tracking_frequency_minutes shipment_),
         Some createdEvents)
      end
  end.

(** [current_status NOT IN ('DELIVERED', 'CANCELLED')]; unknown on NULL. *)
Definition status_not_terminal (st : option Status) : bool :=
  match st with
  | Some DELIVERED | Some CANCELLED | None => false
  | Some _ => true
  end.

(** The WHERE clause of [getShipmentsForUpdate], with [sysdate] the value
    of SYSDATE; [tracking_frequency_minutes / 1440] days are that many
    minutes. *)
Definition due (sysdate : Z) (s : shipment) : bool :=
  tracking_enabled s
  && status_not_terminal (current_status s)
  && match last_tracked_at s with
     | None => true
     | Some t => t <? sysdate - tracking_frequency_minutes s * 60 * 1000
     end.

(** ORDER BY last_tracked_at ASC NULLS FIRST. *)
Definition tracked_le (a b : shipment) : Prop :=
  match last_tracked_at a, last_tracked_at b with
  | None, _ => True
  | Some _, None => False
  | Some x, Some y => x <= y
  end.

#[global] Instance tracked_le_dec : RelDecision tracked_le.
Proof.
  intros a b. unfold tracked_le.
  destruct (last_tracked_at a), (last_tracked_at b); apply _.
Defined.

(** [getShipmentsForUpdate()]: the rows of the result set (the source
    projects four columns of each and adds [update_due: true]). *)
Definition getShipmentsForUpdate (db : DB) (sysdate : Z) : list shipment :=
  take 100 (merge_sort tracked_le (List.filter (due sysdate) (shipments db))).

(** The loop of [processAutomaticUpdates]. *)
Fixpoint update_each (up : upstream) (en : env) (db : DB) (rows : list shipment)
    : DB * list (string * option nat) :=
  match rows with
  | [] => (db, [])
  | row :: rest =>
    let '(db1, r) := updateTrackingFromExternal up en db (awb_number row) IATA_ONERECORD in
    let '(db2, rs) := update_each up en db1 rest in
    (db2, (shipment_id row, option_map (@length tracking_event) r) :: rs)
  end.

(** [processAutomaticUpdates()]: one scheduler tick. *)
Definition processAutomaticUpdates (up : upstream) (en : env) (db : DB)
    : DB * list (string * option nat) :=
  update_each up en db (getShipmentsForUpdate db (now en)).

(** [getTrackingById(shipmentId, customerId)]: the shipment when the
    caller may read it, [None] when the call throws. *)
Definition getTrackingById (db : DB) (shipmentId : string)
    (customerId : option string) : option shipment :=
  match Shipment.findById db shipmentId with
  | None => None
  | Some shipment_ =>
    if truthy_str customerId
       && negb (bool_decide (Some (customer_id shipment_) = customerId))
    then None
    else Some shipment_
  end.

(** The object of [getTrackingByAwb]; [tracking_events] and [latest_event]
    are set together, when the history is asked for. *)
Record tracking_info := mkTrackingInfo {
  ti_shipment : shipment;
  ti_current_status : option Status;
  ti_current_location : option string;
  ti_estimated_delivery : option Z;
  tracking_summary : Shipment.summary;
  ti_history : option (list tracking_event * option tracking_event);
  has_exceptions : bool
}.

(** [getTrackingByAwb(awbNumber, { includeHistory, includeInternal,
    customerId })]: [None] when the call throws. *)
Definition getTrackingByAwb (db : DB) (awbNumber : string)
    (includeHistory includeInternal : bool) (customerId : option string)
    : option tracking_info :=
  match Shipment.findByAwb db awbNumber with
  | None => None
  | Some shipment_ =>
    if truthy_str customerId
       && negb (bool_decide (Some (customer_id shipment_) = customerId))
    then None
    else
      Some {| ti_shipment := shipment_;
              ti_current_status := current_status shipment_;
              ti_current_location := current_location shipment_;
              ti_estimated_delivery := estimated_delivery_date shipment_;
              tracking_summary := Shipment.getTrackingSummary db shipment_;
              ti_history :=
                if includeHistory
                then Some (Shipment.getTrackingHistory db shipment_ 100
                             includeInternal [],
                           Shipment.getLatestTrackingEvent db shipment_)
                else None;
              has_exceptions := Shipment.hasExceptions db shipment_ |}
  end.

(** The [notificationSettings] of [subscribeToTracking]; an absent
    property is [None].  The route requires the endpoint. *)
Record notification_settings := mkSettings {
  n_notification_method : option string;
  n_notification_endpoint : string;
  n_milestone_notifications : option bool;
  n_exception_notifications : option bool;
  n_location_updates : option bool;
  n_all_events : option bool
}.

(** [subscribeToTracking(shipmentId, customerId, notificationSettings)],
    with [subscriptionId] the value that [uuidv4()] returns; [None] when
    the call throws.  The INSERT fails on a method that the CHECK
    constraint does not admit, when the id is taken (PRIMARY KEY), and when
    the shipment, the customer and the method are those of a stored row
    (UNIQUE). *)
Definition subscribeToTracking (db : DB) (shipmentId customerId : string)
    (notificationSettings : notification_settings) (subscriptionId : string)
    : DB * option string :=
  match Shipment.findById db shipmentId with
  | None => (db, None)
  | Some shipment_ =>
    if negb (String.eqb (customer_id shipment_) customerId) then (db, None)
    else
      let method := default "EMAIL" (n_notification_method notificationSettings) in
      if negb (existsb (String.eqb method) ["EMAIL"; "SMS"; "PUSH"; "WEBHOOK"])
         || existsb
              (fun row =>
                 String.eqb (subscription_id row) subscriptionId
                 || (String.eqb (ts_shipment_id row) shipmentId
                     && String.eqb (ts_customer_id row) customerId
                     && String.eqb (notification_method row) method))
              (tracking_subscriptions db)
      then (db, None)
      else
        ({| shipments := shipments db;
            tracking_events := tracking_events db;
            tracking_subscriptions :=
              tracking_subscriptions db
              ++ [ {| subscription_id := subscriptionId;
                      ts_shipment_id := shipmentId;
                      ts_customer_id := customerId;
                      notification_method := method;
                      notification_endpoint :=
                        n_notification_endpoint notificationSettings;
                      milestone_notifications :=
                        default true (n_milestone_notifications notificationSettings);
                      exception_notifications :=
                        default true (n_exception_notifications notificationSettings);
                      location_updates :=
                        default false (n_location_updates notificationSettings);
                      all_events :=
                        default false (n_all_events notificationSettings);
                      is_active := true |} ];
            notifications := notifications db |},
         Some subscriptionId)
  end.

(** The loop of [bulkUpdateTracking]: per shipment refreshed, the events
    created; and the ids of the shipments for which the refresh failed. *)
Fixpoint bulk_each (up : upstream) (en : env) (db : DB) (sourceType : source_type)
    (shipmentIds : list string) : DB * list (list tracking_event) * list string :=
  match shipmentIds with
  | [] => (db, [], [])
  | shipmentId :: rest =>
    match Shipment.findById db shipmentId with
    | None =>
      let '(db', results, errors) := bulk_each up en db sourceType rest in
      (db', results, shipmentId :: errors)
    | Some shipment_ =>
      match updateTrackingFromExternal up en db (awb_number shipment_) sourceType with
      | (db1, Some created) =>
        let '(db', results, errors) := bulk_each up en db1 sourceType rest in
        (db', created :: results, errors)
      | (db1, None) =>
        let '(db', results, errors) := bulk_each up en db1 sourceType rest in
        (db', results, shipmentId :: errors)
      end
    end
  end.

(** The object that [bulkUpdateTracking] returns. *)
Record bulk_result := mkBulkResult {
  successful : nat;
  failed : nat;
  results : list (list tracking_event);
  errors : list string
}.

(** [bulkUpdateTracking(shipmentIds, sourceType)]. *)
Definition bulkUpdateTracking (up : upstream) (en : env) (db : DB)
    (shipmentIds : list string) (sourceType : source_type) : DB * bulk_result :=
  let '(db', results_, errors_) := bulk_each up en db sourceType shipmentIds in
  (db', {| successful := length results_; failed := length errors_;
           results := results_; errors := errors_ |}).

End TrackingService.

(** ** [RealTimeTrackingService] (services/RealTimeTrackingService.js) *)

(** An emitted message: the event name and the payload.  Of the payloads
    the capability flags of the welcome message and the history inside the
    snapshot are left out. *)
Record message := mkMessage {
  m_event : string;
  m_payload : JValue
}.

(** What the hub hands to socket.io: [socket.emit] addresses one socket,
    [io.to(room).emit] every socket joined to the room at that moment. *)
Inductive emission :=
  | ToSocket (socket : string) (m : message)
  | ToRoom (members : gset string) (m : message).

(** An entry of [connectedClients]. *)
Record client_info := mkClient {
  subscriptions : gset (option string);
  userId : option string;
  customerId : option string;
  authenticated : bool
}.

(** The hub: its two maps, the rooms kept by socket.io, and everything
    emitted so far, oldest first. *)
Record hub := mkHub {
  connectedClients : gmap string client_info;
  roomSubscriptions : gmap string (gset string);
  rooms : gmap string (gset string);
  emitted : list emission
}.

Definition status_name (st : Status) : string :=
  match st with
  | CREATED => "CREATED" | BOOKED => "BOOKED" | MANIFESTED => "MANIFESTED"
  | DEPARTED => "DEPARTED" | IN_TRANSIT => "IN_TRANSIT" | ARRIVED => "ARRIVED"
  | CUSTOMS_CLEARANCE => "CUSTOMS_CLEARANCE"
  | OUT_FOR_DELIVERY => "OUT_FOR_DELIVERY" | DELIVERED => "DELIVERED"
  | CANCELLED => "CANCELLED" | ON_HOLD => "ON_HOLD" | EXCEPTION => "EXCEPTION"
  end.

(** The message a socket receives from one emission, if any. *)
Definition delivered (socket : string) (e : emission) : option message :=
  match e with
  | ToSocket s m => if bool_decide (s = socket) then Some m else None
  | ToRoom members m => if bool_decide (socket ∈ members) then Some m else None
  end.

(** Everything a socket has received, oldest first. *)
Definition inbox (h : hub) (socket : string) : list message :=
  omap (delivered socket) (emitted h).

(** The messages of one type among those received. *)
Definition of_type (ty : string) (ms : list message) : list message :=
  List.filter (fun m => String.eqb (m_event m) ty) ms.

Module RealTimeTrackingService.

Definition members (h : hub) (roomName : string) : gset string :=
  default ∅ (rooms h !! roomName).

Definition emit (e : emission) (h : hub) : hub :=
  {| connectedClients := connectedClients h;
     roomSubscriptions := roomSubscriptions h;
     rooms := rooms h;
     emitted := emitted h ++ [e] |}.

(** [socket.join(roomName)]. *)
Definition join (socket roomName : string) (h : hub) : hub :=
  {| connectedClients := connectedClients h;
     roomSubscriptions := roomSubscriptions h;
     rooms := <[roomName := {[socket]} ∪ members h roomName]> (rooms h);
     emitted := emitted h |}.

(** The ['connection'] handler. *)
Definition connection (en : env) (h : hub) (socket : string) : hub :=
  emit (ToSocket socket
          {| m_event := "connected";
             m_payload := JObj [ ("clientId", JStr socket);
                                 ("timestamp", JNum (now en)) ] |})
    {| connectedClients :=
         <[socket := {| subscriptions := ∅; userId := None;
                       customerId := None; authenticated := false |}]>
           (connectedClients h);
       roomSubscriptions := roomSubscriptions h;
       rooms := rooms h;
       emitted := emitted h |}.

(** [handleAuthentication(socket, { token, userId, customerId })]: the
    token is not verified. *)
Definition handleAuthentication (en : env) (h : hub) (socket : string)
    (userId_ customerId_ : option string) : hub :=
  emit (ToSocket socket
          {| m_event := "authenticated";
             m_payload := JObj [ ("userId", jstr userId_);
                                 ("customerId", jstr customerId_);
                                 ("timestamp", JNum (now en)) ] |})
    {| connectedClients :=
         match connectedClients h !! socket with
         | Some c =>
           <[socket := {| subscriptions := subscriptions c; userId := userId_;
                         customerId := customerId_; authenticated := true |}]>
             (connectedClients h)
         | None => connectedClients h
         end;
       roomSubscriptions := roomSubscriptions h;
       rooms := rooms h;
       emitted := emitted h |}.

(** The first part of [handleShipmentSubscription]: the shipment id the
    client ends up subscribed to, or the message of the error thrown. *)
Definition resolve_shipment (db : DB) (clientInfo : client_info)
    (shipmentId awbNumber : option string) : option string + string :=
  if truthy_str awbNumber && negb (truthy_str shipmentId) then
    match Shipment.findByAwb db (template awbNumber) with
    | None => inr "Shipment not found"
    | Some shipment_ =>
      if truthy_str (customerId clientInfo)
         && negb (bool_decide (Some (customer_id shipment_) = customerId clientInfo))
      then inr "Access denied"
      else inl (Some (shipment_id shipment_))
    end
  else inl shipmentId.

(** [handleShipmentSubscription(socket, { shipmentId, awbNumber })]. *)
Definition handleShipmentSubscription (en : env) (db : DB) (h : hub)
    (socket : string) (shipmentId awbNumber : option string) : hub + string :=
  match connectedClients h !! socket with
  | None => inr "Authentication required"
  | Some clientInfo =>
    if negb (authenticated clientInfo) then inr "Authentication required"
    else
      match resolve_shipment db clientInfo shipmentId awbNumber with
      | inr err => inr err
      | inl actualShipmentId =>
        let roomName := "shipment:" +:+ template actualShipmentId in
        let h1 := join socket roomName h in
        let h2 :=
          {| connectedClients :=
               <[socket := {| subscriptions :=
                               {[actualShipmentId]} ∪ subscriptions clientInfo;
                             userId := userId clientInfo;
                             customerId := customerId clientInfo;
                             authenticated := authenticated clientInfo |}]>
                 (connectedClients h1);
             roomSubscriptions :=
               <[roomName :=
                   {[socket]} ∪ default ∅ (roomSubscriptions h1 !! roomName)]>
                 (roomSubscriptions h1);
             rooms := rooms h1;
             emitted := emitted h1 |} in
        let h3 :=
          match actualShipmentId ≫= (fun id =>
                  TrackingService.getTrackingById db id (customerId clientInfo)) with
          | Some shipment_ =>
            emit (ToSocket socket
                    {| m_event := "tracking_update";
                       m_payload :=
                         JObj [ ("shipmentId", jstr actualShipmentId);
                                ("current_status",
                                 jstr (status_name <$> current_status shipment_));
                                ("current_location",
                                 jstr (current_location shipment_));
                                ("estimated_delivery",
                                 jnum (estimated_delivery_date shipment_)) ] |}) h2
          | None => h2
          end in
        inl (emit (ToSocket socket
                     {| m_event := "subscribed";
                        m_payload := JObj [ ("shipmentId", jstr actualShipmentId);
                                            ("awbNumber", jstr awbNumber);
                                            ("room", JStr roomName);
                                            ("timestamp", JNum (now en)) ] |}) h3)
      end
  end.

(** [handleCustomerSubscription(socket, { customerId })]. *)
Definition handleCustomerSubscription (en : env) (h : hub) (socket : string)
    (customerId_ : option string) : hub + string :=
  match connectedClients h !! socket with
  | None => inr "Authentication required"
  | Some clientInfo =>
    if negb (authenticated clientInfo) then inr "Authentication required"
    else if negb (bool_decide (customerId clientInfo = customerId_))
    then inr "Access denied"
    else
      let roomName := "customer:" +:+ template customerId_ in
      inl (emit (ToSocket socket
                   {| m_event := "customer_subscribed";
                      m_payload := JObj [ ("customerId", jstr customerId_);
                                          ("room", JStr roomName);
                                          ("timestamp", JNum (now en)) ] |})
             (join socket roomName h))
  end.

(** The ['subscribe_shipment'] and ['subscribe_customer'] listeners: a
    thrown error is reported to the socket. *)
Definition on_error (socket : string) (h : hub) (r : hub + string) : hub :=
  match r with
  | inl h' => h'
  | inr err =>
    emit (ToSocket socket
            {| m_event := "subscription_error";
               m_payload := JObj [ ("error", JStr err) ] |}) h
  end.

Definition on_subscribe_shipment (en : env) (db : DB) (h : hub) (socket : string)
    (shipmentId awbNumber : option string) : hub :=
  on_error socket h (handleShipmentSubscription en db h socket shipmentId awbNumber).

Definition on_subscribe_customer (en : env) (h : hub) (socket : string)
    (customerId_ : option string) : hub :=
  on_error socket h (handleCustomerSubscription en h socket customerId_).

(** The [eventData] object of [broadcastTrackingEvent]. *)
Definition eventData (en : env) (trackingEvent : tracking_event)
    (shipment_ : shipment) : list (string * JValue) :=
       [ ("shipmentId", JStr (te_shipment_id trackingEvent));
         ("awbNumber", JStr (awb_number shipment_));
         ("event", JObj (TrackingEvent.toJSON en trackingEvent));
         ("shipment",
          JObj [ ("current_status", jstr (status_name <$> current_status shipment_));
                 ("current_location", jstr (current_location shipment_));
                 ("estimated_delivery_date",
                  jnum (estimated_delivery_date shipment_)) ]);
         ("timestamp", JNum (now en)) ].

(** The guard of the ['critical_update'] emission. *)
Definition flagged (e : tracking_event) : bool :=
  is_critical e || is_exception e || is_milestone e.

(** [broadcastTrackingEvent(trackingEvent, shipment)]. *)
Definition broadcastTrackingEvent (en : env) (h : hub)
    (trackingEvent : tracking_event) (shipment_ : shipment) : hub :=
  let roomName := "shipment:" +:+ te_shipment_id trackingEvent in
  let customerRoom := "customer:" +:+ customer_id shipment_ in
  let data := eventData en trackingEvent shipment_ in
  let h1 := emit (ToRoom (members h roomName)
                    {| m_event := "tracking_event"; m_payload := JObj data |}) h in
  let h2 := emit (ToRoom (members h customerRoom)
                    {| m_event := "customer_tracking_update";
                       m_payload :=
                         JObj [ ("customerId", JStr (customer_id shipment_));
                                ("shipmentUpdate", JObj data) ] |}) h1 in
  if flagged trackingEvent then
    emit (ToRoom (members h roomName)
            {| m_event := "critical_update";
               m_payload :=
                 JObj (data ++
                       [ ("notification",
                          JObj [ ("title",
                                  JStr (awb_number shipment_ +:+ " - "
                                        +:+ event_description trackingEvent));
                                 ("body",
                                  JStr (if truthy_str (event_location trackingEvent)
                                        then "Location: "
                                             +:+ template (event_location trackingEvent)
                                        else ""));
                                 ("type",
                                  JStr (if is_exception trackingEvent
                                        then "exception" else "milestone")) ]) ]) |}) h2
  else h2.

(** The shipments with at least one subscribed socket, read off the keys
    of [roomSubscriptions]. *)
Definition activeShipments (h : hub) : list string :=
  omap (fun '(roomName, clients) =>
          if String.prefix "shipment:" roomName && (0 <? size clients)%nat
          then Some (String.substring 9 (String.length roomName - 9) roomName)
          else None)
       (map_to_list (roomSubscriptions h)).

(** The guard of [processPeriodicUpdates]: the shipment is refreshed
    unless this holds. *)
Definition skipped (found : option shipment) : bool :=
  match found with
  | None => true
  | Some shipment_ =>
    negb (tracking_enabled shipment_)
    || bool_decide (current_status shipment_ = Some DELIVERED)
  end.

(** The callback of [processPeriodicUpdates] for one shipment id; with no
    event created the list of latest events is empty and nothing is
    broadcast. *)
Definition refresh_one (up : upstream) (en : env) (st : DB * hub)
    (shipmentId : string) : DB * hub :=
  let '(db, h) := st in
  let found := Shipment.findById db shipmentId in
  if skipped found then st
  else
    match found with
    | None => st
    | Some shipment_ =>
      match TrackingService.updateTrackingFromExternal up en db
              (awb_number shipment_) IATA_ONERECORD with
      | (db1, Some created) =>
        (db1,
         fold_left (fun h' e => broadcastTrackingEvent en h' e shipment_)
           (TrackingEvent.findByShipment db1 shipmentId (length created)) h)
      | (db1, None) => (db1, h)
      end
    end.

(** [processPeriodicUpdates()]; the callbacks, which the source starts
    together, are run one after the other, in the order in which the map
    lists its keys. *)
Definition processPeriodicUpdates (up : upstream) (en : env) (db : DB) (h : hub)
    : DB * hub :=
  fold_left (refresh_one up en) (activeShipments h) (db, h).

(** The shipments a run of [processPeriodicUpdates] refreshes from the
    upstream feed when started in [db]. *)
Definition refreshed (db : DB) (h : hub) : list string :=
  List.filter (fun id => negb (skipped (Shipment.findById db id)))
    (activeShipments h).

(** [socket.leave(roomName)]. *)
Definition leave (socket roomName : string) (h : hub) : hub :=
  {| connectedClients := connectedClients h;
     roomSubscriptions := roomSubscriptions h;
     rooms := <[roomName := members h roomName ∖ {[socket]}]> (rooms h);
     emitted := emitted h |}.

(** The bookkeeping of one room when a socket goes: the socket is deleted
    from the set of the room, and a set left empty is dropped. *)
Definition drop_subscription (socket roomName : string)
    (subs : gmap string (gset string)) : gmap string (gset string) :=
  match subs !! roomName with
  | Some clients =>
    if (size (clients ∖ {[socket]}) =? 0)%nat
    then delete roomName subs
    else <[roomName := clients ∖ {[socket]}]> subs
  | None => subs
  end.

(** [handleShipmentUnsubscription(socket, { shipmentId })]. *)
Definition handleShipmentUnsubscription (en : env) (h : hub) (socket : string)
    (shipmentId : option string) : hub :=
  match connectedClients h !! socket with
  | None => h
  | Some clientInfo =>
    let roomName := "shipment:" +:+ template shipmentId in
    let h1 := leave socket roomName h in
    emit (ToSocket socket
            {| m_event := "unsubscribed";
               m_payload := JObj [ ("shipmentId", jstr shipmentId);
                                   ("timestamp", JNum (now en)) ] |})
      {| connectedClients :=
           <[socket := {| subscriptions := subscriptions clientInfo ∖ {[shipmentId]};
                         userId := userId clientInfo;
                         customerId := customerId clientInfo;
                         authenticated := authenticated clientInfo |}]>
             (connectedClients h1);
         roomSubscriptions := drop_subscription socket roomName (roomSubscriptions h1);
         rooms := rooms h1;
         emitted := emitted h1 |}
  end.

(** [handleDisconnection(socket, reason)]; the outcome does not depend on
    the order in which the subscriptions are visited. *)
Definition handleDisconnection (h : hub) (socket : string) : hub :=
  match connectedClients h !! socket with
  | None => h
  | Some clientInfo =>
    {| connectedClients := delete socket (connectedClients h);
       roomSubscriptions :=
         fold_left
           (fun subs shipmentId =>
              drop_subscription socket ("shipment:" +:+ template shipmentId) subs)
           (elements (subscriptions clientInfo)) (roomSubscriptions h);
       rooms := rooms h;
       emitted := emitted h |}
  end.

(** The ['disconnect'] listener: socket.io has taken the socket out of
    every room when it runs. *)
Definition on_disconnect (h : hub) (socket : string) : hub :=
  handleDisconnection
    {| connectedClients := connectedClients h;
       roomSubscriptions := roomSubscriptions h;
       rooms := (fun clients => clients ∖ {[socket]}) <$> rooms h;
       emitted := emitted h |}
    socket.

(** The ['ping'] listener. *)
Definition on_ping (en : env) (h : hub) (socket : string) : hub :=
  emit (ToSocket socket
          {| m_event := "pong";
             m_payload := JObj [ ("timestamp", JNum (now en)) ] |}) h.

End RealTimeTrackingService.

(** ** Runs of the ingestion pipeline *)

(** One Apply: the arguments of [createTrackingEvent] and what the call
    draws from its environment. *)
Record request := mkRequest {
  r_env : env;
  r_shipment : string;
  r_data : event_data;
  r_source : option string
}.

Definition Apply (db : DB) (r : request) : DB * outcome :=
  TrackingService.createTrackingEvent (r_env r) db (r_shipment r) (r_data r) (r_source r).

(** A sequence of Applies, with the outcome of each. *)
Fixpoint ApplyAll (db : DB) (reqs : list request) : DB * list outcome :=
  match reqs with
  | [] => (db, [])
  | r :: rest =>
    let '(db1, o) := Apply db r in
    let '(db2, os) := ApplyAll db1 rest in
    (db2, o :: os)
  end.

(** The row that [findById] reads. *)
Definition row_of (db : DB) (shipmentId : string) : option shipment :=
  head (List.filter (fun s => String.eqb (shipment_id s) shipmentId) (shipments db)).

Definition events_of (db : DB) (shipmentId : string) : list tracking_event :=
  List.filter (fun e => String.eqb (te_shipment_id e) shipmentId) (tracking_events db).

(** The two UPDATE statements of [updateShipmentStatus], on one row. *)
Definition shipment_after (e : tracking_event) (s : shipment) : shipment :=
  let s1 := set_status_location_tracked (TrackingEvent.newStatus e)
              (event_location e) (event_datetime e) s in
  if String.eqb (event_code e) "DELIVERED"
  then set_delivery_date (event_datetime e) s1 else s1.

(** The writes of a list of events, applied to one row in order. *)
Definition replay (es : list tracking_event) (s : shipment) : shipment :=
  fold_left (fun s' e => shipment_after e s') es s.

(** The created events of a run that write to the row of a shipment, in
    the order of their creation. *)
Definition writes (shipmentId : string) (outs : list outcome) : list tracking_event :=
  omap (fun o =>
          match o with
          | Created e =>
            if String.eqb (te_shipment_id e) shipmentId
               && TrackingEvent.updates_shipment e
            then Some e else None
          | _ => None
          end) outs.

Definition is_delivered (e : tracking_event) : bool :=
  String.eqb (event_code e) "DELIVERED".

(** ** The rules as the specification words them *)

Definition mapped (e : tracking_event) : bool :=
  match TrackingEvent.lookup_status (event_code e) TrackingEvent.statusMapping with
  | Some _ => true
  | None => false
  end.

(** [a] is not after [b] in the order by (event_datetime, created_at). *)
Definition spec_not_after (a b : tracking_event) : bool :=
  (event_datetime a <? event_datetime b)
  || ((event_datetime a =? event_datetime b)
      && (default 0 (created_at a) <=? default 0 (created_at b))).

(** The winning event: the greatest by (event_datetime, created_at) among
    those whose code maps to a status. *)
Fixpoint spec_winner (evs : list tracking_event) : option tracking_event :=
  match evs with
  | [] => None
  | e :: rest =>
    if mapped e then
      match spec_winner rest with
      | Some w => if spec_not_after w e then Some e else Some w
      | None => Some e
      end
    else spec_winner rest
  end.

Definition spec_current_status (db : DB) (shipmentId : string) : option Status :=
  spec_winner (events_of db shipmentId) ≫= fun e =>
    TrackingEvent.lookup_status (event_code e) TrackingEvent.statusMapping.

(** [delivery_date] is set iff the winning event maps to DELIVERED, and is
    then its event time. *)
Definition spec_delivery_date (db : DB) (shipmentId : string) : option Z :=
  spec_winner (events_of db shipmentId) ≫= fun e =>
    if bool_decide (TrackingEvent.lookup_status (event_code e)
                      TrackingEvent.statusMapping = Some DELIVERED)
    then Some (event_datetime e) else None.

(** The duplicate rule: same shipment, same code, less than 300 s apart,
    and either the same external id on both sides or none on either. *)
Definition spec_duplicate_row (shipmentId eventCode : string) (eventDatetime : Z)
    (externalEventId : option string) (row : tracking_event) : bool :=
  String.eqb (te_shipment_id row) shipmentId
  && String.eqb (event_code row) eventCode
  && (Z.abs (event_datetime row - eventDatetime) <? 300 * 1000)
  && match externalEventId, external_event_id row with
     | Some a, Some b => String.eqb a b
     | None, None => true
     | _, _ => false
     end.

Definition spec_duplicate (db : DB) (shipmentId eventCode : string)
    (eventDatetime : Z) (externalEventId : option string) : bool :=
  existsb (spec_duplicate_row shipmentId eventCode eventDatetime externalEventId)
    (tracking_events db).

(** The matching rule between an event and a subscription. *)
Definition spec_matches (sub : subscription) (e : tracking_event) : bool :=
  all_events sub
  || (milestone_notifications sub && is_milestone e)
  || (exception_notifications sub && is_exception e)
  || (location_updates sub && bool_decide (event_category e = LOCATION_UPDATE)).

(** The due rule of the poll scheduler: enabled, not terminal, and never
    tracked or tracked at least the frequency ago. *)
Definition spec_due (sysdate : Z) (s : shipment) : bool :=
  tracking_enabled s
  && negb (bool_decide (current_status s = Some DELIVERED))
  && negb (bool_decide (current_status s = Some CANCELLED))
  && match last_tracked_at s with
     | None => true
     | Some t => tracking_frequency_minutes s * 60 * 1000 <=? sysdate - t
     end.

(** ** The seed scenarios *)

Module Seed.

Definition t_0805_1000 : Z := 1754388000000.
Definition t_0805_1004_59 : Z := 1754388299000.
Definition t_0805_1400 : Z := 1754402400000.
Definition t_0806_0800 : Z := 1754467200000.
Definition t_0807_1200 : Z := 1754568000000.

Definition en (t : Z) : env :=
  {| uuidv4 := fun n => "evt-" +:+ pretty n; now := t;
     json_parse := fun _ => None |}.

Definition S1 : shipment :=
  {| shipment_id := "S1"; awb_number := "125-12345678"; customer_id := "c-1";
     origin_airport := "SIN"; current_status := Some CREATED;
     current_location := None; delivery_date := None;
     estimated_delivery_date := None; tracking_enabled := true;
     last_tracked_at := None; tracking_frequency_minutes := 30 |}.

Definition db0 : DB :=
  {| shipments := [S1]; tracking_events := [];
     tracking_subscriptions := []; notifications := [] |}.

(** A payload with a code, a category, an instant and a location. *)
Definition payload (code : string) (cat : Category) (milestone : bool)
    (t : Z) (loc : string) (ext : option string) : event_data :=
  {| d_event_code := code; d_event_description := code;
     d_event_category := Some cat; d_event_location := Some loc;
     d_event_country := None; d_event_city := None; d_airport_code := Some loc;
     d_event_datetime := Some t; d_event_timezone := None;
     d_milestone_id := None; d_is_milestone := milestone;
     d_is_exception := false; d_is_critical := false;
     d_severity_level := None; d_external_event_id := ext;
     d_source_reference := None; d_additional_info := None;
     d_longitude := None; d_latitude := None;
     d_temperature_celsius := None; d_humidity_percent := None;
     d_customer_visible := None |}.

Definition manual (t : Z) (d : event_data) : request :=
  {| r_env := en t; r_shipment := "S1"; r_data := d;
     r_source := Some "src-manual" |}.

Definition collected : request :=
  manual t_0805_1000 (payload "CARGO_COLLECTED" MILESTONE true t_0805_1000 "SIN" None).

Definition collected_again : request :=
  manual t_0805_1004_59
    (payload "CARGO_COLLECTED" MILESTONE true t_0805_1004_59 "SIN" None).

Definition delivered_hkg : request :=
  manual t_0807_1200 (payload "DELIVERED" MILESTONE true t_0807_1200 "HKG" None).


Definition arrived_hkg : request :=
  manual t_0806_0800 (payload "FLIGHT_ARRIVED" MILESTONE true t_0806_0800 "HKG" None).

(** The store after scenario S1. *)
Definition db1 : DB := (ApplyAll db0 [collected]).1.

End Seed.

(** ** Further stores *)

(** A store whose only event carries an external id. *)
Definition db_with_external_id : DB :=
  (ApplyAll Seed.db0
     [Seed.manual Seed.t_0805_1000
        (Seed.payload "CARGO_COLLECTED" MILESTONE true Seed.t_0805_1000 "SIN"
           (Some "X-1"))]).1.

(** A subscription of customer c-1 to shipment S1 with only
    [location_updates] set. *)
Definition sub_location_only : subscription :=
  {| subscription_id := "sub-1"; ts_shipment_id := "S1"; ts_customer_id := "c-1";
     notification_method := "EMAIL"; notification_endpoint := "ops@example.org";
     milestone_notifications := false; exception_notifications := false;
     location_updates := true; all_events := false; is_active := true |}.

(** A subscription of customer c-1 to shipment S1 with only [all_events]
    set. *)
Definition sub_all_events : subscription :=
  {| subscription_id := "sub-2"; ts_shipment_id := "S1"; ts_customer_id := "c-1";
     notification_method := "SMS"; notification_endpoint := "+6500000000";
     milestone_notifications := false; exception_notifications := false;
     location_updates := false; all_events := true; is_active := true |}.

Definition db_subscribed : DB :=
  {| shipments := shipments Seed.db1;
     tracking_events := tracking_events Seed.db1;
     tracking_subscriptions := [sub_location_only; sub_all_events];
     notifications := [] |}.

(** A store whose shipment was last tracked at 10:00, with a frequency of
    30 minutes. *)
Definition db_tracked_at_1000 : DB :=
  {| shipments :=
       [ {| shipment_id := "S1"; awb_number := "125-12345678"; customer_id := "c-1";
            origin_airport := "SIN"; current_status := Some BOOKED;
            current_location := Some "SIN"; delivery_date := None;
            estimated_delivery_date := None; tracking_enabled := true;
            last_tracked_at := Some Seed.t_0805_1000;
            tracking_frequency_minutes := 30 |} ];
     tracking_events := []; tracking_subscriptions := []; notifications := [] |}.

(** ** Hub scenarios *)

Module Scene.

Import RealTimeTrackingService.

Definition empty_hub : hub :=
  {| connectedClients := ∅; roomSubscriptions := ∅; rooms := ∅; emitted := [] |}.

(** A socket connects and authenticates for a customer. *)
Definition signed_in (h : hub) (socket customer : string) : hub :=
  handleAuthentication (Seed.en Seed.t_0805_1000)
    (connection (Seed.en Seed.t_0805_1000) h socket)
    socket (Some ("user-of-" +:+ customer)) (Some customer).

(** Scenario S4: client A on the topic of shipment S1, client B on the
    topic of customer c-1. *)
Definition hub_S4 : hub :=
  let en := Seed.en Seed.t_0805_1400 in
  let h1 := signed_in (signed_in empty_hub "sock-A" "c-1") "sock-B" "c-1" in
  let h2 := on_subscribe_shipment en Seed.db1 h1 "sock-A" (Some "S1") None in
  on_subscribe_customer en h2 "sock-B" (Some "c-1").

(** The FLIGHT_ARRIVED event of scenario S4 once applied, and the
    shipment read back. *)
Definition db_S4 : DB := (Apply Seed.db1 Seed.arrived_hkg).1.

Definition arrived_event : option tracking_event :=
  head (TrackingEvent.findByShipment db_S4 "S1" 1).

(** A client of customer c-2 asks for shipment S1, which c-1 owns, by
    shipment id and by AWB. *)
Definition hub_c2 : hub := signed_in empty_hub "sock-X" "c-2".

Definition hub_c2_by_id : hub :=
  on_subscribe_shipment (Seed.en Seed.t_0805_1400) Seed.db1 hub_c2 "sock-X"
    (Some "S1") None.

Definition hub_c2_by_awb : hub :=
  on_subscribe_shipment (Seed.en Seed.t_0805_1400) Seed.db1 hub_c2 "sock-X"
    None (Some "125-12345678").



(** An upstream feed that reports the arrival at HKG for every AWB. *)
Definition feed : upstream :=
  {| iata_enabled := true;
     getTrackingData := fun _ =>
       Some [ Seed.payload "FLIGHT_ARRIVED" MILESTONE true Seed.t_0806_0800
                "HKG" (Some "1R-77") ] |}.

End Scene.

(** * Further observations *)

(** The row that [findByAwb] reads. *)
Definition row_by_awb (db : DB) (awbNumber : string) : option shipment :=
  head (List.filter (fun s => String.eqb (awb_number s) awbNumber) (shipments db)).

(** The store [db'] holds the events of [db] and, for every shipment id,
    a row with the derived columns of the row in [db]. *)
Definition same_tracking (db db' : DB) : Prop :=
  tracking_events db' = tracking_events db
  /\ forall sid,
       current_status <$> row_of db' sid = current_status <$> row_of db sid
       /\ current_location <$> row_of db' sid = current_location <$> row_of db sid
       /\ delivery_date <$> row_of db' sid = delivery_date <$> row_of db sid
       /\ last_tracked_at <$> row_of db' sid = last_tracked_at <$> row_of db sid.

(** An upstream feed that is switched off. *)
Definition feed_off : upstream :=
  {| iata_enabled := false; getTrackingData := fun _ => None |}.

(** The sockets that the hub itself has on record for a room. *)
Definition subscribers (h : hub) (roomName : string) : gset string :=
  default ∅ (roomSubscriptions h !! roomName).

(** The states of the hub: it starts empty, socket.io hands every new
    connection an id that no connected socket has, and the listeners,
    the broadcasts and the ticks run in any order and with any arguments,
    each of them to its end before the next one starts (a listener that
    is suspended at an [await] while another one runs is not among the
    steps). *)
Inductive reachable : hub -> Prop :=
  | reach_start : reachable Scene.empty_hub
  | reach_connection en h socket :
      reachable h ->
      connectedClients h !! socket = None ->
      reachable (RealTimeTrackingService.connection en h socket)
  | reach_authenticate en h socket userId_ customerId_ :
      reachable h ->
      reachable (RealTimeTrackingService.handleAuthentication en h socket
                   userId_ customerId_)
  | reach_subscribe_shipment en db h socket shipmentId awbNumber :
      reachable h ->
      reachable (RealTimeTrackingService.on_subscribe_shipment en db h socket
                   shipmentId awbNumber)
  | reach_unsubscribe_shipment en h socket shipmentId :
      reachable h ->
      reachable (RealTimeTrackingService.handleShipmentUnsubscription en h socket
                   shipmentId)
  | reach_subscribe_customer en h socket customerId_ :
      reachable h ->
      reachable (RealTimeTrackingService.on_subscribe_customer en h socket customerId_)
  | reach_ping en h socket :
      reachable h ->
      reachable (RealTimeTrackingService.on_ping en h socket)
  | reach_disconnect h socket :
      reachable h ->
      reachable (RealTimeTrackingService.on_disconnect h socket)
  | reach_broadcast en h trackingEvent shipment_ :
      reachable h ->
      reachable (RealTimeTrackingService.broadcastTrackingEvent en h
                   trackingEvent shipment_)
  | reach_tick up en db h :
      reachable h ->
      reachable (RealTimeTrackingService.processPeriodicUpdates up en db h).2.

(** What the maps of a reachable hub satisfy. *)
Definition hub_inv (h : hub) : Prop :=
  (forall roomName clients,
     roomSubscriptions h !! roomName = Some clients -> clients <> ∅)
  /\ (forall roomName socket,
        socket ∈ subscribers h roomName ->
        exists c sid,
          connectedClients h !! socket = Some c
          /\ sid ∈ subscriptions c
          /\ roomName = "shipment:" +:+ template sid)
  /\ (forall x socket,
        socket ∈ RealTimeTrackingService.members h ("shipment:" +:+ x)
        <-> socket ∈ subscribers h ("shipment:" +:+ x))
  /\ (forall roomName socket,
        socket ∈ RealTimeTrackingService.members h roomName ->
        exists c, connectedClients h !! socket = Some c /\ authenticated c = true).

(** The hub [h'] has the maps and the rooms of [h]. *)
Definition same_maps (h h' : hub) : Prop :=
  connectedClients h' = connectedClients h
  /\ roomSubscriptions h' = roomSubscriptions h
  /\ rooms h' = rooms h.

(** ** [IATAOneRecordService] (services/IATAOneRecordService.js) *)

Module IATAOneRecordService.

(** What [extractLocation] returns. *)
Record location := mkLocation {
  loc_name : option string;
  loc_country : option string;
  loc_city : option string;
  loc_airportCode : option string;
  loc_longitude : option Z;
  loc_latitude : option Z
}.

(** A OneRecord logistics event, as far as the mapping reads it.  The
    fields [or_location], [or_dateTime], [or_timezone] and
    [or_additional_info] hold what [extractLocation], [extractDateTime],
    [extractTimezone] and [extractAdditionalInfo] make of the event;
    [or_description] is [description || eventDescription], [or_id] is
    [id || '@id'], [or_reference] is [reference || eventReference];
    [or_isException] tells whether one of [isException], [exception] and
    [problem] is truthy, [or_critical] whether [critical] or [urgent] is. *)
Record one_record_event := mkOneRecordEvent {
  eventType : option string;
  or_type : option string;
  or_description : option string;
  or_location : location;
  or_dateTime : option Z;
  or_timezone : string;
  or_isException : bool;
  or_status : option string;
  or_severity : option string;
  or_critical : bool;
  or_id : option string;
  or_reference : option string;
  or_additional_info : option string
}.

(** The object that [mapOneRecordEventToTracking] builds. *)
Record mapped_event := mkMappedEvent {
  x_event_code : string;
  x_event_description : string;
  x_event_category : string;
  x_event_location : option string;
  x_event_country : option string;
  x_event_city : option string;
  x_airport_code : option string;
  x_event_datetime : Z;
  x_event_timezone : string;
  x_is_milestone : bool;
  x_is_exception : bool;
  x_severity_level : string;
  x_external_event_id : option string;
  x_source_reference : option string;
  x_longitude : option Z;
  x_latitude : option Z;
  x_additional_info : option string
}.

(** [table[key]] on an object literal with string values; a name that the
    literal does not define is looked up as absent (a name inherited from
    [Object.prototype] would give a value that is no string and cannot be
    stored as a code or a category). *)
Fixpoint own (key : string) (table : list (string * string)) : option string :=
  match table with
  | [] => None
  | (k, v) :: rest => if String.eqb k key then Some v else own key rest
  end.

Definition eventMapping : list (string * string) :=
  [ ("Acceptance", "CARGO_COLLECTED");
    ("Departure", "FLIGHT_DEPARTED");
    ("Arrival", "FLIGHT_ARRIVED");
    ("Delivery", "DELIVERED");
    ("CustomsDeclaration", "CUSTOMS_CLEARANCE");
    ("CustomsRelease", "CUSTOMS_CLEARED");
    ("Loading", "MANIFESTED");
    ("Unloading", "ARRIVED");
    ("Transfer", "IN_TRANSIT");
    ("Storage", "ARRIVED_WAREHOUSE");
    ("Discrepancy", "EXCEPTION");
    ("Damage", "EXCEPTION");
    ("Delay", "EXCEPTION");
    ("Pickup", "PICKUP_SCHEDULED");
    ("Collection", "CARGO_COLLECTED");
    ("Screening", "SECURITY_SCREENING");
    ("WeighingAndMeasuring", "CARGO_PROCESSED");
    ("Consolidation", "CONSOLIDATED");
    ("Deconsolidation", "DECONSOLIDATED");
    ("DocumentaryCompliance", "DOCUMENTS_VERIFIED");
    ("RegulatoryCompliance", "COMPLIANCE_CHECK");
    ("LogisticsEvent", "STATUS_UPDATE") ].

(** [mapEventTypeToCode(eventType)]. *)
Definition mapEventTypeToCode (eventType_ : option string) : option string :=
  match eventType_ with
  | Some ty => own ty eventMapping
  | None => None
  end.

Definition descriptions : list (string * string) :=
  [ ("CARGO_COLLECTED", "Cargo collected from shipper");
    ("FLIGHT_DEPARTED", "Flight departed from origin airport");
    ("FLIGHT_ARRIVED", "Flight arrived at destination airport");
    ("DELIVERED", "Shipment delivered to consignee");
    ("CUSTOMS_CLEARANCE", "Shipment in customs clearance");
    ("CUSTOMS_CLEARED", "Shipment cleared customs");
    ("MANIFESTED", "Shipment manifested on flight");
    ("ARRIVED", "Shipment arrived at facility");
    ("IN_TRANSIT", "Shipment in transit");
    ("EXCEPTION", "Exception occurred during processing") ].

(** [generateEventDescription(event, eventCode)]. *)
Definition generateEventDescription (event : one_record_event) (eventCode : string)
    : string :=
  if truthy_str (or_description event) then template (or_description event)
  else default "Shipment status updated" (own eventCode descriptions).

Definition categoryMapping : list (string * string) :=
  [ ("CARGO_COLLECTED", "PICKUP");
    ("PICKUP_SCHEDULED", "PICKUP");
    ("FLIGHT_DEPARTED", "DEPARTURE");
    ("MANIFESTED", "DEPARTURE");
    ("IN_TRANSIT", "TRANSIT");
    ("FLIGHT_ARRIVED", "ARRIVAL");
    ("ARRIVED", "ARRIVAL");
    ("CUSTOMS_CLEARANCE", "CUSTOMS");
    ("CUSTOMS_CLEARED", "CUSTOMS");
    ("DELIVERED", "DELIVERY");
    ("EXCEPTION", "EXCEPTION") ].

(** [mapEventCategory(eventCode)]. *)
Definition mapEventCategory (eventCode : string) : string :=
  default "STATUS_UPDATE" (own eventCode categoryMapping).

Definition milestoneEvents : list string :=
  [ "CARGO_COLLECTED"; "MANIFESTED"; "FLIGHT_DEPARTED"; "FLIGHT_ARRIVED";
    "CUSTOMS_CLEARED"; "DELIVERED" ].

(** [isMilestoneEvent(eventCode)]. *)
Definition isMilestoneEvent (eventCode : string) : bool :=
  existsb (String.eqb eventCode) milestoneEvents.

(** [isExceptionEvent(event)]. *)
Definition isExceptionEvent (event : one_record_event) : bool :=
  bool_decide (eventType event = Some "Discrepancy")
  || bool_decide (eventType event = Some "Damage")
  || bool_decide (eventType event = Some "Delay")
  || or_isException event
  || bool_decide (or_status event = Some "EXCEPTION")
  || bool_decide (or_status event = Some "ERROR").

(** [toUpperCase()], on the letters a to z. *)
Definition upper (a : Ascii.ascii) : Ascii.ascii :=
  let n := Ascii.nat_of_ascii a in
  if (97 <=? n)%nat && (n <=? 122)%nat then Ascii.ascii_of_nat (n - 32) else a.

Fixpoint toUpperCase (s : string) : string :=
  match s with
  | EmptyString => EmptyString
  | String a rest => String (upper a) (toUpperCase rest)
  end.

(** [determineSeverityLevel(event)]. *)
Definition determineSeverityLevel (event : one_record_event) : string :=
  if truthy_str (or_severity event) then toUpperCase (template (or_severity event))
  else if isExceptionEvent event then "WARNING"
  else if or_critical event then "CRITICAL"
  else "INFO".

(** [mapOneRecordEventToTracking(oneRecordEvent, piece)]; [None] is the
    [null] that it returns for an unknown type or a missing date. *)
Definition mapOneRecordEventToTracking (oneRecordEvent : one_record_event)
    : option mapped_event :=
  let eventType_ :=
    if truthy_str (eventType oneRecordEvent) then eventType oneRecordEvent
    else or_type oneRecordEvent in
  match mapEventTypeToCode eventType_ with
  | None => None
  | Some eventCode =>
    if negb (truthy_str (Some eventCode)) then None
    else
      match or_dateTime oneRecordEvent with
      | None => None
      | Some dateTime =>
        let location_ := or_location oneRecordEvent in
        Some {| x_event_code := eventCode;
                x_event_description :=
                  generateEventDescription oneRecordEvent eventCode;
                x_event_category := mapEventCategory eventCode;
                x_event_location := loc_name location_;
                x_event_country := loc_country location_;
                x_event_city := loc_city location_;
                x_airport_code := loc_airportCode location_;
                x_event_datetime := dateTime;
                x_event_timezone := or_timezone oneRecordEvent;
                x_is_milestone := isMilestoneEvent eventCode;
                x_is_exception := isExceptionEvent oneRecordEvent;
                x_severity_level := determineSeverityLevel oneRecordEvent;
                x_external_event_id := or_id oneRecordEvent;
                x_source_reference := or_reference oneRecordEvent;
                x_longitude := loc_longitude location_;
                x_latitude := loc_latitude location_;
                x_additional_info := or_additional_info oneRecordEvent |}
      end
  end.

(** The order of [events.sort] in [extractTrackingEvents]. *)
Definition earlier_first (a b : mapped_event) : Prop :=
  x_event_datetime a <= x_event_datetime b.

#[global] Instance earlier_first_dec : RelDecision earlier_first.
Proof. intros a b. unfold earlier_first. apply _. Defined.

(** [extractTrackingEvents(shipmentData)], from the events of the shipment
    and the events of each of its pieces. *)
Definition extractTrackingEvents (logisticsEvents : list one_record_event)
    (pieces : list (list one_record_event)) : list mapped_event :=
  merge_sort earlier_first
    (omap mapOneRecordEventToTracking logisticsEvents
     ++ omap mapOneRecordEventToTracking (concat pieces)).

(** The name of a category that the CHECK constraint of
    [tracking_events.event_category] admits. *)
Definition admitted_category (name : string) : option Category :=
  if String.eqb name "STATUS_UPDATE" then Some STATUS_UPDATE
  else if String.eqb name "LOCATION_UPDATE" then Some LOCATION_UPDATE
  else if String.eqb name "MILESTONE" then Some MILESTONE
  else if String.eqb name "EXCEPTION" then Some EXCEPTION_EVENT
  else if String.eqb name "NOTIFICATION" then Some NOTIFICATION
  else None.

(** A mapped event as the payload of [createFromExternal]; there is none
    when the category is not admitted, since the INSERT then fails and the
    loop of [updateTrackingFromExternal] skips the event.  The other
    constraints of the table, such as the one on [severity_level], are not
    looked at. *)
Definition externalData (x : mapped_event) : option event_data :=
  match admitted_category (x_event_category x) with
  | None => None
  | Some category =>
    Some {| d_event_code := x_event_code x;
            d_event_description := x_event_description x;
            d_event_category := Some category;
            d_event_location := x_event_location x;
            d_event_country := x_event_country x;
            d_event_city := x_event_city x;
            d_airport_code := x_airport_code x;
            d_event_datetime := Some (x_event_datetime x);
            d_event_timezone := Some (x_event_timezone x);
            d_milestone_id := None;
            d_is_milestone := x_is_milestone x;
            d_is_exception := x_is_exception x;
            d_is_critical := false;
            d_severity_level := Some (x_severity_level x);
            d_external_event_id := x_external_event_id x;
            d_source_reference := x_source_reference x;
            d_additional_info := x_additional_info x;
            d_longitude := x_longitude x;
            d_latitude := x_latitude x;
            d_temperature_celsius := None;
            d_humidity_percent := None;
            d_customer_visible := None |}
  end.

End IATAOneRecordService.

(** A OneRecord event of a type, at an instant, with nothing else set. *)
Definition one_record (ty : string) (t : Z) : IATAOneRecordService.one_record_event :=
  {| IATAOneRecordService.eventType := Some ty;
     IATAOneRecordService.or_type := None;
     IATAOneRecordService.or_description := None;
     IATAOneRecordService.or_location :=
       IATAOneRecordService.mkLocation None None None None None None;
     IATAOneRecordService.or_dateTime := Some t;
     IATAOneRecordService.or_timezone := "UTC";
     IATAOneRecordService.or_isException := false;
     IATAOneRecordService.or_status := None;
     IATAOneRecordService.or_severity := None;
     IATAOneRecordService.or_critical := false;
     IATAOneRecordService.or_id := None;
     IATAOneRecordService.or_reference := None;
     IATAOneRecordService.or_additional_info := None |}.

(** ** Creating a shipment (models/Shipment.js)

    The methods of [Shipment] that use [TrackingEvent]. *)

Module NewShipment.

(** [createInitialTrackingEvent()]. *)
Definition createInitialTrackingEvent (en : env) (db : DB) (this : shipment)
    : DB * tracking_event :=
  let initialEvent :=
    {| event_id := uuidv4 en (length (tracking_events db));
       te_shipment_id := shipment_id this;
       event_code := "SHIPMENT_CREATED";
       event_description := "Shipment record created in system";
       event_category := STATUS_UPDATE;
       event_location := Some (origin_airport this);
       event_country := None; event_city := None; airport_code := None;
       event_datetime := now en;
       event_timezone := "UTC";
       milestone_id := None;
       is_milestone := true; is_exception := false; is_critical := false;
       severity_level := "INFO";
       source_id := None; external_event_id := None; source_reference := None;
       additional_info := None;
       longitude := None; latitude := None;
       temperature_celsius := None; humidity_percent := None;
       processed := false; notification_sent := false; customer_visible := true;
       created_at := None;
       milestone_name := None; milestone_category := None; source_name := None |} in
  (TrackingEvent.create en db initialEvent, initialEvent).

(** The row that the INSERT of [create()] writes: [last_tracked_at] is not
    among its columns. *)
Definition inserted_row (this : shipment) : shipment :=
  {| shipment_id := shipment_id this; awb_number := awb_number this;
     customer_id := customer_id this; origin_airport := origin_airport this;
     current_status := current_status this;
     current_location := current_location this;
     delivery_date := delivery_date this;
     estimated_delivery_date := estimated_delivery_date this;
     tracking_enabled := tracking_enabled this;
     last_tracked_at := None;
     tracking_frequency_minutes := tracking_frequency_minutes this |}.

(** [create()]: [None] when the INSERT fails because the shipment id
    (PRIMARY KEY) or the AWB (UNIQUE) is taken; the columns that the model
    leaves out have constraints of their own. *)
Definition create (en : env) (db : DB) (this : shipment) : option DB :=
  if existsb (fun s => String.eqb (shipment_id s) (shipment_id this)
                       || String.eqb (awb_number s) (awb_number this))
       (shipments db)
  then None
  else
    let db1 :=
      {| shipments := shipments db ++ [inserted_row this];
         tracking_events := tracking_events db;
         tracking_subscriptions := tracking_subscriptions db;
         notifications := notifications db |} in
    Some (createInitialTrackingEvent en db1 this).1.

End NewShipment.

(** A second shipment of customer c-1, booked at HKG. *)
Definition S2 : shipment :=
  {| shipment_id := "S2"; awb_number := "125-87654321"; customer_id := "c-1";
     origin_airport := "HKG"; current_status := Some BOOKED;
     current_location := Some "Kowloon"; delivery_date := None;
     estimated_delivery_date := None; tracking_enabled := true;
     last_tracked_at := None; tracking_frequency_minutes := 30 |}.

(** ** The stores that the services build *)

(** The subscription is held by the customer of the shipment it names. *)
Definition owned (db : DB) (sub : subscription) : Prop :=
  customer_id <$> row_of db (ts_shipment_id sub) = Some (ts_customer_id sub).

(** The stores reached from the empty one by creating and updating
    shipments, subscribing, entering events and refreshing from the
    feed, one call after the other. *)
Inductive store_reachable : DB -> Prop :=
  | store_empty :
      store_reachable
        {| shipments := []; tracking_events := [];
           tracking_subscriptions := []; notifications := [] |}
  | store_create_shipment en db this db' :
      store_reachable db ->
      NewShipment.create en db this = Some db' ->
      store_reachable db'
  | store_updateStatus db this status location :
      store_reachable db ->
      store_reachable (Shipment.updateStatus db this status location)
  | store_updateTrackingConfig db this enabled frequency :
      store_reachable db ->
      store_reachable (Shipment.updateTrackingConfig db this enabled frequency)
  | store_delete db this :
      store_reachable db ->
      store_reachable (Shipment.delete db this)
  | store_subscribe db shipmentId customerId settings subscriptionId :
      store_reachable db ->
      store_reachable
        (TrackingService.subscribeToTracking db shipmentId customerId settings
           subscriptionId).1
  | store_createTrackingEvent en db shipmentId eventData sourceId :
      store_reachable db ->
      store_reachable
        (TrackingService.createTrackingEvent en db shipmentId eventData sourceId).1
  | store_refresh up en db awbNumber sourceType :
      store_reachable db ->
      store_reachable
        (TrackingService.updateTrackingFromExternal up en db awbNumber sourceType).1
  | store_tick up en db :
      store_reachable db ->
      store_reachable (TrackingService.processAutomaticUpdates up en db).1.

(** Every shipment that has a customer in [db] has the same one in
    [db']. *)
Definition owner_kept (db db' : DB) : Prop :=
  forall sid c,
    customer_id <$> row_of db sid = Some c ->
    customer_id <$> row_of db' sid = Some c.

(** Every event of [db] is in [db'] under its id and for its shipment. *)
Definition events_kept (db db' : DB) : Prop :=
  forall e,
    In e (tracking_events db) ->
    exists e',
      In e' (tracking_events db')
      /\ event_id e' = event_id e
      /\ te_shipment_id e' = te_shipment_id e.

(** There is an event with this id for the shipment of the subscription. *)
Definition about (db : DB) (sub : subscription) (eventId : string) : Prop :=
  exists e,
    In e (tracking_events db)
    /\ event_id e = eventId
    /\ te_shipment_id e = ts_shipment_id sub.

(** From [db] to [db'] shipments keep their customers, events and
    subscriptions stay, a new subscription is held by the owner of its
    shipment, and a new call of the notification service is for a stored
    subscription and about an event of its shipment. *)
Definition grows (db db' : DB) : Prop :=
  owner_kept db db'
  /\ events_kept db db'
  /\ (forall sub,
        In sub (tracking_subscriptions db) -> In sub (tracking_subscriptions db'))
  /\ (forall sub,
        In sub (tracking_subscriptions db') ->
        In sub (tracking_subscriptions db) \/ owned db' sub)
  /\ (forall sub eventId,
        In (sub, eventId) (notifications db') ->
        In (sub, eventId) (notifications db)
        \/ (In sub (tracking_subscriptions db') /\ about db' sub eventId)).

(** A store built from nothing: S1 is created, its customer subscribes
    by e-mail, and the collection of the cargo is entered. *)
Definition empty_store : DB :=
  {| shipments := []; tracking_events := [];
     tracking_subscriptions := []; notifications := [] |}.

Definition db_created : DB :=
  default empty_store (NewShipment.create (Seed.en Seed.t_0805_1000) empty_store Seed.S1).

Definition db_built : DB :=
  (TrackingService.createTrackingEvent (Seed.en Seed.t_0805_1400)
     (TrackingService.subscribeToTracking db_created "S1" "c-1"
        (TrackingService.mkSettings None "ops@c-1.example" None None None None)
        "sub-1").1
     "S1" (r_data Seed.collected) (Some "src-manual")).1.

(** ** AWB numbers and the public endpoint
    (controllers/TrackingController.js, the routes, TrackingSearch.jsx) *)

(** [\d]. *)
Definition is_digit (a : Ascii.ascii) : bool :=
  (48 <=? Ascii.nat_of_ascii a)%nat && (Ascii.nat_of_ascii a <=? 57)%nat.

(** The character [-]. *)
Definition dash : Ascii.ascii := Ascii.ascii_of_nat 45.

(** [/^\d{3}-\d{8}$/.test(awb)]: the pattern of the route, of the
    controller and of [validateAwbFormat]. *)
Definition awbPattern (awb : string) : bool :=
  let l := String.list_ascii_of_string awb in
  (length l =? 12)%nat
  && forallb is_digit (take 3 l)
  && bool_decide (l !! 3%nat = Some dash)
  && forallb is_digit (drop 4 l).

Module TrackingSearch.

(** [validateAwbFormat(awb)]. *)
Definition validateAwbFormat (awb : string) : bool := awbPattern awb.

(** [value.replace(/\D/g, '')]. *)
Definition digits (value : string) : list Ascii.ascii :=
  List.filter is_digit (String.list_ascii_of_string value).

(** [formatAwbInput(value)]. *)
Definition formatAwbInput (value : string) : string :=
  if (length (digits value) <=? 3)%nat
  then String.string_of_list_ascii (digits value)
  else String.string_of_list_ascii
         (take 3 (digits value) ++ dash :: take 8 (drop 3 (digits value))).

End TrackingSearch.

Module TrackingController.

(** What the public endpoint shows of an event; [latest_event] comes
    without [is_exception]. *)
Record public_event := mkPublicEvent {
  pe_event_description : string;
  pe_event_location : option string;
  pe_event_datetime : Z;
  pe_is_milestone : bool;
  pe_is_exception : option bool
}.

Record public_tracking_info := mkPublicInfo {
  p_awb_number : string;
  p_current_status : option Status;
  p_current_location : option string;
  p_origin_airport : string;
  p_estimated_delivery : option Z;
  p_has_exceptions : bool;
  p_latest_event : option public_event;
  p_tracking_events : option (list public_event)
}.

(** The answer of a handler: the data, or the status of the error. *)
Inductive response (A : Type) :=
  | Ok (data : A)
  | Failed (status : nat).

Arguments Ok {A} data.
Arguments Failed {A} status.

Definition shown_latest (e : tracking_event) : public_event :=
  {| pe_event_description := event_description e;
     pe_event_location := event_location e;
     pe_event_datetime := event_datetime e;
     pe_is_milestone := is_milestone e;
     pe_is_exception := None |}.

Definition shown (e : tracking_event) : public_event :=
  {| pe_event_description := event_description e;
     pe_event_location := event_location e;
     pe_event_datetime := event_datetime e;
     pe_is_milestone := is_milestone e;
     pe_is_exception := Some (is_exception e) |}.

(** [getTrackingByAwb(req, res)], from the AWB of the path and the query
    parameters [include_history] and [include_internal]. *)
Definition getTrackingByAwb (db : DB) (awbNumber : string)
    (include_history include_internal : option string)
    : response public_tracking_info :=
  let include_history := default "true" include_history in
  let include_internal := default "false" include_internal in
  if negb (truthy_str (Some awbNumber)) || negb (awbPattern awbNumber)
  then Failed 400
  else
    match TrackingService.getTrackingByAwb db awbNumber
            (String.eqb include_history "true")
            (String.eqb include_internal "true") None with
    | None => Failed 404
    | Some trackingInfo =>
      Ok {| p_awb_number := awb_number (TrackingService.ti_shipment trackingInfo);
            p_current_status := TrackingService.ti_current_status trackingInfo;
            p_current_location := TrackingService.ti_current_location trackingInfo;
            p_origin_airport :=
              origin_airport (TrackingService.ti_shipment trackingInfo);
            p_estimated_delivery :=
              TrackingService.ti_estimated_delivery trackingInfo;
            p_has_exceptions := TrackingService.has_exceptions trackingInfo;
            p_latest_event :=
              match TrackingService.ti_history trackingInfo with
              | Some (_, Some latest) => Some (shown_latest latest)
              | _ => None
              end;
            p_tracking_events :=
              if String.eqb include_history "true" then
                match TrackingService.ti_history trackingInfo with
                | Some (events, _) =>
                  Some (List.map shown (List.filter customer_visible events))
                | None => None
                end
              else None |}
    end.

End TrackingController.

(** * Properties *)

(** ** How an Apply changes the row of a shipment *)

Section Rows.

Implicit Types (db : DB) (e : tracking_event) (s : shipment).

Lemma update_shipments_row id f db sid :
  (forall s, shipment_id (f s) = shipment_id s) ->
  row_of (update_shipments id f db) sid
  = (if String.eqb id sid then f else fun s => s) <$> row_of db sid.
Proof.
  intros Hid. unfold row_of, update_shipments; simpl.
  induction (shipments db) as [|s l IH]; simpl; [reflexivity|].
  destruct (String.eqb (shipment_id s) id) eqn:E1.
  - rewrite Hid. destruct (String.eqb (shipment_id s) sid) eqn:E2; simpl; [|exact IH].
    apply String.eqb_eq in E1, E2. subst id sid.
    now rewrite String.eqb_refl.
  - destruct (String.eqb (shipment_id s) sid) eqn:E2; simpl; [|exact IH].
    apply String.eqb_eq in E2. subst sid.
    rewrite String.eqb_sym, E1. reflexivity.
Qed.

Lemma updateShipmentStatus_row db e sid :
  row_of (TrackingEvent.updateShipmentStatus db e) sid
  = (if String.eqb (te_shipment_id e) sid && TrackingEvent.updates_shipment e
     then shipment_after e else fun s => s) <$> row_of db sid.
Proof.
  unfold TrackingEvent.updateShipmentStatus, shipment_after.
  destruct (TrackingEvent.updates_shipment e); rewrite ?andb_true_r, ?andb_false_r.
  - destruct (String.eqb (event_code e) "DELIVERED");
      rewrite ?update_shipments_row by reflexivity;
      destruct (String.eqb (te_shipment_id e) sid);
      destruct (row_of db sid); reflexivity.
  - destruct (row_of db sid); reflexivity.
Qed.

Lemma create_row en db e sid :
  row_of (TrackingEvent.create en db e) sid
  = (if String.eqb (te_shipment_id e) sid && TrackingEvent.updates_shipment e
     then shipment_after e else fun s => s) <$> row_of db sid.
Proof. unfold TrackingEvent.create. now rewrite updateShipmentStatus_row. Qed.

Lemma Apply_row db r sid :
  row_of (Apply db r).1 sid = replay (writes sid [(Apply db r).2]) <$> row_of db sid.
Proof.
  unfold Apply, TrackingService.createTrackingEvent.
  destruct (Shipment.findById db (r_shipment r)) as [sh|]; simpl;
    [|destruct (row_of db sid); reflexivity].
  destruct (TrackingEvent.checkDuplicate _ _ _ _ _); simpl;
    [destruct (row_of db sid); reflexivity|].
  match goal with
  | |- context [TrackingEvent.create ?en ?d ?ev] =>
    set (e := ev); pose proof (create_row en d e sid) as Hrow
  end.
  clearbody e.
  destruct (TrackingService.notifiable e); simpl.
  - change (row_of (TrackingService.sendTrackingNotifications ?d _ _) sid)
      with (row_of d sid).
    change (TrackingEvent.updates_shipment (mark_sent e))
      with (TrackingEvent.updates_shipment e).
    rewrite Hrow.
    destruct (String.eqb (te_shipment_id e) sid && TrackingEvent.updates_shipment e);
      destruct (row_of db sid); reflexivity.
  - rewrite Hrow.
    destruct (String.eqb (te_shipment_id e) sid && TrackingEvent.updates_shipment e);
      destruct (row_of db sid); reflexivity.
Qed.

Lemma writes_cons sid o outs :
  writes sid (o :: outs) = writes sid [o] ++ writes sid outs.
Proof. unfold writes; simpl. destruct o; try reflexivity. now case_match. Qed.

Lemma ApplyAll_row db reqs sid :
  row_of (ApplyAll db reqs).1 sid
  = replay (writes sid (ApplyAll db reqs).2) <$> row_of db sid.
Proof.
  revert db. induction reqs as [|r rest IH]; intros db.
  - simpl. destruct (row_of db sid); reflexivity.
  - pose proof (Apply_row db r sid) as Hstep. cbn [ApplyAll].
    destruct (Apply db r) as [db1 o]. specialize (IH db1).
    destruct (ApplyAll db1 rest) as [db2 os]. cbn [fst snd] in *.
    rewrite IH, Hstep, (writes_cons sid o os). unfold replay.
    destruct (row_of db sid); cbn [fmap option_fmap option_map]; [|reflexivity].
    now rewrite fold_left_app.
Qed.


Lemma replay_delivery_date es s :
  delivery_date (replay es s)
  = match last (List.filter is_delivered es) with
    | Some e => Some (event_datetime e)
    | None => delivery_date s
    end.
Proof.
  revert s. induction es as [|e es IH]; intros s; [reflexivity|].
  unfold replay in *; cbn [fold_left List.filter]. rewrite IH.
  unfold is_delivered at 2, shipment_after.
  destruct (String.eqb (event_code e) "DELIVERED"); [|reflexivity].
  destruct (List.filter is_delivered es) as [|e' es']; [reflexivity|].
  rewrite last_cons_cons.
  destruct (last (e' :: es')) eqn:E; [reflexivity|].
  apply last_None in E. discriminate.
Qed.

End Rows.

(** ** Status derivation (C1) *)



(** ** Delivery date (C9) *)

(** C9, as the code has it: [delivery_date] is the event time of the last
    created DELIVERED event, in the order of application, that is a
    milestone or a STATUS_UPDATE; it is never cleared, so without such an
    event it keeps its initial value. *)
Theorem delivery_date_is_last_delivered (db : DB) (reqs : list request) (sid : string) :
  delivery_date <$> row_of (ApplyAll db reqs).1 sid
  = match last (List.filter is_delivered (writes sid (ApplyAll db reqs).2)) with
    | Some e => (fun _ => Some (event_datetime e)) <$> row_of db sid
    | None => delivery_date <$> row_of db sid
    end.
Proof.
  rewrite ApplyAll_row.
  destruct (row_of db sid) as [s|]; simpl.
  - rewrite replay_delivery_date. now destruct (last _).
  - now destruct (last _).
Qed.

(** C9 fails as stated: after DELIVERED and a later IN_TRANSIT the winning
    event is IN_TRANSIT, yet [delivery_date] is still set. *)
Lemma delivery_date_survives_later_event :
  let later :=
    Seed.manual Seed.t_0807_1200
      (Seed.payload "IN_TRANSIT" STATUS_UPDATE false (Seed.t_0807_1200 + 3600000)
         "HKG" None) in
  let db := (ApplyAll Seed.db1 [Seed.delivered_hkg; later]).1 in
  spec_current_status db "S1" = Some IN_TRANSIT
  /\ spec_delivery_date db "S1" = None
  /\ current_status <$> row_of db "S1" = Some (Some IN_TRANSIT)
  /\ delivery_date <$> row_of db "S1" = Some (Some Seed.t_0807_1200).
Proof. vm_compute. auto. Qed.

(** ** Duplicates (C2, C3) *)

Lemma count_positive {A} (P : A -> bool) (l : list A) :
  (0 <? length (List.filter P l))%nat = true <-> exists x, In x l /\ P x = true.
Proof.
  rewrite Nat.ltb_lt. split.
  - destruct (List.filter P l) as [|x l'] eqn:E; simpl; [lia|]. intros _.
    exists x. apply filter_In. rewrite E. now left.
  - intros [x Hx]. apply filter_In in Hx.
    destruct (List.filter P l); simpl; [contradiction | lia].
Qed.

(** C3, as the code has it: a candidate is a duplicate exactly when some
    stored event has the same shipment and the same code, lies less than
    300 s away, and, when the candidate carries an external id, carries
    that same id.  A candidate without an external id is therefore a
    duplicate of such a stored event whether or not that one carries an
    id, and a candidate with an id never matches a stored event without. *)
Theorem checkDuplicate_iff (db : DB) (shipmentId eventCode : string)
    (eventDatetime : option Z) (externalEventId : option string) :
  TrackingEvent.checkDuplicate db shipmentId eventCode eventDatetime externalEventId = true
  <-> exists row t,
        In row (tracking_events db)
        /\ te_shipment_id row = shipmentId
        /\ event_code row = eventCode
        /\ eventDatetime = Some t
        /\ Z.abs (event_datetime row - t) < 300 * 1000
        /\ (truthy_str externalEventId = false
            \/ external_event_id row = externalEventId).
Proof.
  unfold TrackingEvent.checkDuplicate. rewrite count_positive.
  unfold TrackingEvent.duplicate_row. split.
  - intros (row & Hin & Hrow).
    rewrite !andb_true_iff, !String.eqb_eq in Hrow.
    destruct Hrow as (((Hs & Hc) & Ht) & Hx).
    destruct eventDatetime as [t|]; [|discriminate].
    exists row, t. rewrite Z.ltb_lt in Ht. repeat split; try assumption.
    destruct (truthy_str externalEventId); [right|now left].
    now apply bool_decide_eq_true in Hx.
  - intros (row & t & Hin & Hs & Hc & -> & Ht & Hx).
    exists row. split; [assumption|].
    rewrite !andb_true_iff, !String.eqb_eq, Z.ltb_lt. repeat split; try assumption.
    destruct Hx as [-> | Hx]; [reflexivity|].
    destruct (truthy_str externalEventId); [|reflexivity].
    now apply bool_decide_eq_true.
Qed.

(** C3 fails as stated: a candidate without an external id is reported as
    a duplicate of a stored event that carries one. *)
Lemma candidate_without_id_matches_stored_with_id :
  TrackingEvent.checkDuplicate db_with_external_id "S1" "CARGO_COLLECTED"
    (Some Seed.t_0805_1000) None = true
  /\ spec_duplicate db_with_external_id "S1" "CARGO_COLLECTED"
       Seed.t_0805_1000 None = false.
Proof. vm_compute. auto. Qed.

Lemma checkDuplicate_true (db : DB) (shipmentId eventCode : string) (t : Z)
    (externalEventId : option string) (row : tracking_event) :
  In row (tracking_events db) ->
  te_shipment_id row = shipmentId ->
  event_code row = eventCode ->
  Z.abs (event_datetime row - t) < 300 * 1000 ->
  truthy_str externalEventId = false \/ external_event_id row = externalEventId ->
  TrackingEvent.checkDuplicate db shipmentId eventCode (Some t) externalEventId = true.
Proof.
  intros Hin Hs Hc Ht Hx. unfold TrackingEvent.checkDuplicate.
  apply count_positive. exists row. split; [assumption|].
  unfold TrackingEvent.duplicate_row.
  rewrite !andb_true_iff, !String.eqb_eq, Z.ltb_lt. repeat split; try assumption.
  destruct Hx as [-> | Hx]; [reflexivity|].
  destruct (truthy_str externalEventId); [|reflexivity].
  now apply bool_decide_eq_true.
Qed.

(** C2: an Apply whose candidate duplicates a stored event (same shipment,
    same code, event times less than 300 s apart, and an external id that
    the candidate either lacks or shares with the stored event) returns the
    outcome [Duplicate] and hands back the store it was given, through
    [createTrackingEvent] as through [createFromExternal]; the events of
    the shipment and its row are therefore unchanged. *)
Theorem duplicate_apply_has_no_effect (en : env) (db : DB) (shipmentId : string)
    (d : event_data) (sourceId : option string) (sh : shipment)
    (row : tracking_event) (t : Z)
    (Hfound : Shipment.findById db shipmentId = Some sh)
    (Hstored : In row (tracking_events db))
    (Hshipment : te_shipment_id row = shipmentId)
    (Hcode : event_code row = d_event_code d)
    (Htime : d_event_datetime d = Some t)
    (Hnear : Z.abs (event_datetime row - t) < 300 * 1000)
    (Hext : truthy_str (d_external_event_id d) = false
            \/ external_event_id row = d_external_event_id d) :
  TrackingService.createTrackingEvent en db shipmentId d sourceId = (db, Duplicate)
  /\ TrackingEvent.createFromExternal en db d sourceId shipmentId = (db, Duplicate).
Proof.
  pose proof (checkDuplicate_true db shipmentId (d_event_code d) t
                (d_external_event_id d) row Hstored Hshipment Hcode Hnear Hext) as Hdup.
  rewrite <- Htime in Hdup.
  unfold TrackingService.createTrackingEvent, TrackingEvent.createFromExternal.
  now rewrite Hfound, Hdup.
Qed.

(** Scenario S2: CARGO_COLLECTED again, 4 min 59 s later, no external id. *)
Lemma duplicate_apply_has_no_effect_S2 :
  TrackingService.createTrackingEvent (Seed.en Seed.t_0805_1004_59) Seed.db1 "S1"
    (r_data Seed.collected_again) (Some "src-manual") = (Seed.db1, Duplicate)
  /\ TrackingEvent.createFromExternal (Seed.en Seed.t_0805_1004_59) Seed.db1
       (r_data Seed.collected_again) (Some "src-manual") "S1" = (Seed.db1, Duplicate).
Proof.
  eapply (duplicate_apply_has_no_effect _ Seed.db1 "S1" _ _ _ _ Seed.t_0805_1004_59).
  - cbv. reflexivity.
  - cbv. left. reflexivity.
  - reflexivity.
  - reflexivity.
  - reflexivity.
  - cbv. reflexivity.
  - left. reflexivity.
Defined.

(** ** Notification matching (C6) *)

(** The calls that [createTrackingEvent] makes to the notification
    service for a created event. *)
Lemma createTrackingEvent_sent (en : env) (db : DB) (shipmentId : string)
    (d : event_data) (sourceId : option string) :
  match TrackingService.createTrackingEvent en db shipmentId d sourceId with
  | (db', Created e) =>
    notifications db'
    = notifications db
      ++ (if TrackingService.notifiable e
          then List.map (fun sub => (sub, event_id e))
                 (List.filter
                    (TrackingService.subscription_selected shipmentId
                       (is_milestone e) (is_exception e))
                    (tracking_subscriptions db))
          else [])
  | (db', _) => notifications db' = notifications db
  end.
Proof.
  unfold TrackingService.createTrackingEvent.
  destruct (Shipment.findById db shipmentId) as [sh|] eqn:Hfound; [|reflexivity].
  destruct (TrackingEvent.checkDuplicate _ _ _ _ _); [reflexivity|].
  match goal with
  | |- context [TrackingEvent.create en db ?ev] => set (e := ev)
  end.
  assert (Hid : shipment_id sh = shipmentId).
  { unfold Shipment.findById in Hfound.
    destruct (List.filter _ (shipments db)) as [|row l] eqn:E; [discriminate|].
    injection Hfound as <-. simpl.
    assert (In row (List.filter (fun s => String.eqb (shipment_id s) shipmentId)
                      (shipments db))) as Hin by (rewrite E; now left).
    apply filter_In in Hin. now apply String.eqb_eq. }
  assert (Hn : notifications (TrackingEvent.create en db e) = notifications db
               /\ tracking_subscriptions (TrackingEvent.create en db e)
                  = tracking_subscriptions db).
  { unfold TrackingEvent.create, TrackingEvent.updateShipmentStatus.
    destruct (TrackingEvent.updates_shipment e); [|now split].
    now destruct (String.eqb (event_code e) "DELIVERED"). }
  destruct Hn as [Hn Hs].
  destruct (TrackingService.notifiable e) eqn:Hgate.
  - unfold TrackingService.sendTrackingNotifications.
    cbn [notifications TrackingEvent.markNotificationSent].
    change (TrackingService.notifiable (mark_sent e)) with (TrackingService.notifiable e).
    rewrite Hn, Hs, Hid, Hgate. reflexivity.
  - rewrite Hn, Hgate. now rewrite app_nil_r.
Qed.

(** C6, as the code has it: [createTrackingEvent] calls the notification
    service only for active subscriptions of the shipment and only for a
    created event that is a milestone, an exception or critical.  For such
    an event it calls it for every active subscription of the shipment
    with [all_events], or [milestone_notifications] on a milestone, or
    [exception_notifications] on an exception, and, leaving aside a
    subscription with [location_updates] on a LOCATION_UPDATE event, for no
    other. *)
Theorem notifications_dispatched (en : env) (db : DB) (shipmentId : string)
    (d : event_data) (sourceId : option string) :
  match TrackingService.createTrackingEvent en db shipmentId d sourceId with
  | (db', Created e) =>
    exists sent,
      notifications db' = notifications db ++ sent
      /\ forall sub,
           let wanted :=
             all_events sub = true
             \/ (milestone_notifications sub = true /\ is_milestone e = true)
             \/ (exception_notifications sub = true /\ is_exception e = true) in
           (In (sub, event_id e) sent ->
              In sub (tracking_subscriptions db)
              /\ ts_shipment_id sub = shipmentId
              /\ is_active sub = true
              /\ TrackingService.notifiable e = true)
           /\ (In sub (tracking_subscriptions db) ->
               ts_shipment_id sub = shipmentId ->
               is_active sub = true ->
               TrackingService.notifiable e = true ->
               wanted -> In (sub, event_id e) sent)
           /\ (In (sub, event_id e) sent ->
               location_updates sub
               && bool_decide (event_category e = LOCATION_UPDATE) = false ->
               wanted)
  | (db', _) => notifications db' = notifications db
  end.
Proof.
  pose proof (createTrackingEvent_sent en db shipmentId d sourceId) as Hsent.
  destruct (TrackingService.createTrackingEvent en db shipmentId d sourceId)
    as [db' [e| | |]]; try assumption.
  eexists. split; [exact Hsent|]. intros sub wanted. unfold wanted.
  assert (Hsel : TrackingService.subscription_selected shipmentId
                   (is_milestone e) (is_exception e) sub = true
                 <-> ts_shipment_id sub = shipmentId
                     /\ is_active sub = true
                     /\ (all_events sub = true
                         \/ (milestone_notifications sub = true /\ is_milestone e = true)
                         \/ (exception_notifications sub = true
                             /\ is_exception e = true))).
  { unfold TrackingService.subscription_selected.
    rewrite !andb_true_iff, !orb_true_iff, !andb_true_iff, String.eqb_eq. tauto. }
  destruct (TrackingService.notifiable e).
  - split; [|split].
    + intros Hin. apply in_map_iff in Hin. destruct Hin as (sub' & [= ->] & Hin).
      apply filter_In in Hin. destruct Hin as [Hin Hs]. apply Hsel in Hs. tauto.
    + intros Hin Hsid Hact _ Hw. apply in_map_iff. exists sub. split; [reflexivity|].
      apply filter_In. split; [assumption|]. apply Hsel. tauto.
    + intros Hin _. apply in_map_iff in Hin. destruct Hin as (sub' & [= ->] & Hin).
      apply filter_In in Hin. destruct Hin as [_ Hs]. apply Hsel in Hs. tauto.
  - split; [|split]; try contradiction. intros _ _ _ Hfalse. discriminate.
Qed.

(** C6 fails as stated: a LOCATION_UPDATE event that is neither milestone
    nor exception nor critical matches a subscription with only
    [location_updates] set and one with only [all_events] set, and no
    notification is dispatched. *)
Lemma location_update_is_not_dispatched :
  match Apply db_subscribed
          (Seed.manual Seed.t_0806_0800
             (Seed.payload "LOCATION_UPDATE" LOCATION_UPDATE false
                Seed.t_0806_0800 "HKG" None)) with
  | (db', Created e) =>
    spec_matches sub_location_only e = true
    /\ spec_matches sub_all_events e = true
    /\ notifications db' = []
  | _ => False
  end.
Proof. vm_compute. auto. Qed.

(** ** Poll scheduler (C8) *)

#[local] Instance tracked_le_transitive : Transitive TrackingService.tracked_le.
Proof.
  intros a b c. unfold TrackingService.tracked_le.
  destruct (last_tracked_at a), (last_tracked_at b), (last_tracked_at c);
    try tauto; lia.
Qed.

#[local] Instance tracked_le_total : Total TrackingService.tracked_le.
Proof.
  intros a b. unfold TrackingService.tracked_le.
  destruct (last_tracked_at a), (last_tracked_at b); try tauto; lia.
Qed.

Lemma due_iff (sysdate : Z) (s : shipment) :
  TrackingService.due sysdate s = true
  <-> tracking_enabled s = true
      /\ (exists st, current_status s = Some st /\ st <> DELIVERED /\ st <> CANCELLED)
      /\ (last_tracked_at s = None
          \/ exists t, last_tracked_at s = Some t
                      /\ tracking_frequency_minutes s * 60 * 1000 < sysdate - t).
Proof.
  unfold TrackingService.due. rewrite !andb_true_iff. split.
  - intros [[He Hst] Ht]. split; [assumption|]. split.
    + destruct (current_status s) as [st|]; [|discriminate].
      exists st. split; [reflexivity|]. destruct st; (discriminate || (split; discriminate)).
    + destruct (last_tracked_at s) as [t|]; [right|now left].
      exists t. split; [reflexivity|]. apply Z.ltb_lt in Ht. lia.
  - intros (He & (st & -> & Hd & Hc) & Ht). repeat split; [assumption| |].
    + destruct st; try reflexivity; contradiction.
    + destruct Ht as [-> | (t & -> & Ht)]; [reflexivity|]. apply Z.ltb_lt. lia.
Qed.

Lemma selected_is_due (db : DB) (sysdate : Z) (s : shipment) :
  In s (TrackingService.getShipmentsForUpdate db sysdate) ->
  In s (shipments db) /\ TrackingService.due sysdate s = true.
Proof.
  unfold TrackingService.getShipmentsForUpdate. intros Hs.
  apply filter_In. apply list_elem_of_In.
  rewrite <- (merge_sort_Permutation TrackingService.tracked_le).
  apply list_elem_of_In.
  rewrite <- (take_drop 100 (merge_sort _ _)). apply in_or_app. now left.
Qed.

(** C8, as the code has it: a tick selects, in ascending order of
    [last_tracked_at] with the never-tracked first, the first 100 of the
    shipments that are enabled, have a status other than DELIVERED and
    CANCELLED, and were never tracked or were tracked strictly more than
    [tracking_frequency_minutes] ago.  So every selected shipment is due,
    at most 100 are selected, all due shipments are selected when there
    are at most 100 of them, and a due shipment is left out only behind
    100 selected ones that sort before it. *)
Theorem getShipmentsForUpdate_selection (db : DB) (sysdate : Z) :
  let selected := TrackingService.getShipmentsForUpdate db sysdate in
  let is_due := TrackingService.due sysdate in
  (forall s, In s selected -> In s (shipments db) /\ is_due s = true)
  /\ (length selected <= 100)%nat
  /\ Sorted TrackingService.tracked_le selected
  /\ ((length (List.filter is_due (shipments db)) <= 100)%nat ->
      forall s, In s (shipments db) -> is_due s = true -> In s selected)
  /\ (forall s, In s (shipments db) -> is_due s = true -> ~ In s selected ->
      length selected = 100%nat
      /\ forall r, In r selected -> TrackingService.tracked_le r s)
  /\ (forall s,
       is_due s = true
       <-> tracking_enabled s = true
           /\ (exists st, current_status s = Some st
                         /\ st <> DELIVERED /\ st <> CANCELLED)
           /\ (last_tracked_at s = None
               \/ exists t, last_tracked_at s = Some t
                           /\ tracking_frequency_minutes s * 60 * 1000 < sysdate - t)).
Proof.
  intros selected is_due. unfold selected, TrackingService.getShipmentsForUpdate.
  fold is_due.
  set (L := merge_sort TrackingService.tracked_le (List.filter is_due (shipments db))).
  assert (HL : forall s, In s L <-> In s (shipments db) /\ is_due s = true).
  { intros s. rewrite <- filter_In, <- !list_elem_of_In. unfold L.
    now rewrite merge_sort_Permutation. }
  assert (Hlen : length L = length (List.filter is_due (shipments db))).
  { unfold L. now rewrite merge_sort_Permutation. }
  assert (Hsorted : StronglySorted TrackingService.tracked_le L).
  { apply StronglySorted_merge_sort; apply _. }
  assert (Hsplit : take 100 L ++ drop 100 L = L) by apply take_drop.
  split; [|split; [|split; [|split; [|split]]]].
  - intros s Hs. now apply selected_is_due in Hs.
  - rewrite length_take. lia.
  - apply StronglySorted_Sorted. rewrite <- Hsplit in Hsorted.
    now apply StronglySorted_app_1_l in Hsorted.
  - intros Hfew s Hin Hdue. rewrite take_ge by lia. now apply HL.
  - intros s Hin Hdue Hout. split.
    + rewrite length_take.
      destruct (decide (length L <= 100)%nat) as [Hle|Hgt]; [|lia].
      exfalso. apply Hout. rewrite take_ge by lia. now apply HL.
    + intros r Hr.
      assert (Hs : In s (drop 100 L)).
      { assert (In s L) as HinL by now apply HL.
        rewrite <- Hsplit in HinL. apply in_app_or in HinL. tauto. }
      rewrite <- Hsplit in Hsorted.
      apply (StronglySorted_app_1_elem_of _ _ _ _ _ Hsorted); now apply list_elem_of_In.
  - intros s. apply due_iff.
Qed.

(** C8 fails as stated: a shipment tracked exactly
    [tracking_frequency_minutes] ago is overdue by at least the frequency,
    and the tick does not select it. *)
Lemma tracked_exactly_frequency_ago_not_selected :
  let sysdate := Seed.t_0805_1000 + 30 * 60 * 1000 in
  Forall (fun s => spec_due sysdate s = true) (shipments db_tracked_at_1000)
  /\ shipments db_tracked_at_1000 <> []
  /\ TrackingService.getShipmentsForUpdate db_tracked_at_1000 sysdate = [].
Proof.
  split; [|split].
  - constructor; [vm_compute; reflexivity | constructor].
  - discriminate.
  - vm_compute. reflexivity.
Qed.

(** ** Serialization (C10) *)

Lemma truthy_num_true (o : option Z) :
  truthy_num o = true <-> exists n, o = Some n /\ n <> 0.
Proof.
  destruct o as [n|]; simpl.
  - rewrite negb_true_iff, Z.eqb_neq. split; [eauto|]. now intros (? & [= <-] & ?).
  - split; [discriminate|]. now intros (? & ? & _).
Qed.

Lemma truthy_num_false (o : option Z) :
  truthy_num o = false <-> o = None \/ o = Some 0.
Proof.
  destruct o as [n|]; simpl.
  - rewrite negb_false_iff, Z.eqb_eq. split.
    + intros ->. now right.
    + intros [|[= ->]]; [discriminate|reflexivity].
  - split; [now left|reflexivity].
Qed.

Lemma toJSON_has_coordinates (en : env) (e : tracking_event) :
  has_key "coordinates" (TrackingEvent.toJSON en e)
  = truthy_num (longitude e) && truthy_num (latitude e).
Proof.
  unfold TrackingEvent.toJSON.
  destruct (truthy_str (milestone_name e)), (truthy_str (source_name e)),
    (truthy_num (longitude e)), (truthy_num (latitude e)),
    (truthy_num (temperature_celsius e)), (truthy_num (humidity_percent e)),
    (truthy_str (additional_info e)); reflexivity.
Qed.

Lemma toJSON_has_environmental_data (en : env) (e : tracking_event) :
  has_key "environmental_data" (TrackingEvent.toJSON en e)
  = truthy_num (temperature_celsius e) || truthy_num (humidity_percent e).
Proof.
  unfold TrackingEvent.toJSON.
  destruct (truthy_str (milestone_name e)), (truthy_str (source_name e)),
    (truthy_num (longitude e)), (truthy_num (latitude e)),
    (truthy_num (temperature_celsius e)), (truthy_num (humidity_percent e)),
    (truthy_str (additional_info e)); reflexivity.
Qed.

(** C10: the serialization of an event has a [coordinates] member exactly
    when longitude and latitude are both present and both non-zero, so a
    zero longitude or latitude drops it; it has an [environmental_data]
    member exactly when the temperature or the humidity is present and
    non-zero, so a temperature of 0 with the humidity absent or 0 drops
    it. *)
Theorem toJSON_drops_zero_readings (en : env) (e : tracking_event) :
  let json := TrackingEvent.toJSON en e in
  (longitude e = Some 0 \/ latitude e = Some 0 -> has_key "coordinates" json = false)
  /\ (has_key "coordinates" json = true
      <-> exists lon lat, longitude e = Some lon /\ latitude e = Some lat
                          /\ lon <> 0 /\ lat <> 0)
  /\ (temperature_celsius e = Some 0 ->
      humidity_percent e = None \/ humidity_percent e = Some 0 ->
      has_key "environmental_data" json = false)
  /\ (has_key "environmental_data" json = true
      <-> (exists t, temperature_celsius e = Some t /\ t <> 0)
          \/ (exists h, humidity_percent e = Some h /\ h <> 0)).
Proof.
  intros json. unfold json.
  rewrite toJSON_has_coordinates, toJSON_has_environmental_data.
  rewrite andb_false_iff, andb_true_iff, orb_false_iff, orb_true_iff,
    !truthy_num_true, !truthy_num_false.
  split; [|split; [|split]].
  - intros [H|H]; [left|right]; now right.
  - split.
    + intros [(lon & Hlon & ?) (lat & Hlat & ?)]. now exists lon, lat.
    + intros (lon & lat & Hlon & Hlat & ? & ?). split; eauto.
  - intros Ht Hh. split; [now right | assumption].
  - reflexivity.
Qed.

(** ** Fan-out (C7) *)



(** ** Access to the shipment topic (C5) *)

(** A subscription by AWB that succeeds for a client bound to a customer
    is a subscription to a shipment of that customer. *)
Lemma subscription_by_awb_checks_owner (db : DB) (c : client_info)
    (shipmentId awbNumber actual : option string) :
  truthy_str awbNumber = true ->
  truthy_str shipmentId = false ->
  truthy_str (customerId c) = true ->
  RealTimeTrackingService.resolve_shipment db c shipmentId awbNumber = inl actual ->
  exists sh, Shipment.findByAwb db (template awbNumber) = Some sh
             /\ actual = Some (shipment_id sh)
             /\ Some (customer_id sh) = customerId c.
Proof.
  unfold RealTimeTrackingService.resolve_shipment. intros -> -> ->. simpl.
  destruct (Shipment.findByAwb db (template awbNumber)) as [sh|]; [|discriminate].
  case_bool_decide as Hown; simpl; [|discriminate].
  intros [= <-]. now exists sh.
Qed.

(** A subscription by shipment id succeeds for every authenticated client
    and joins it to the topic, whoever owns the shipment. *)
Lemma subscription_by_id_joins (en : env) (db : DB) (h : hub) (socket id : string)
    (c : client_info) (awbNumber : option string) :
  connectedClients h !! socket = Some c ->
  authenticated c = true ->
  truthy_str (Some id) = true ->
  exists h',
    RealTimeTrackingService.handleShipmentSubscription en db h socket (Some id) awbNumber
    = inl h'
    /\ socket ∈ RealTimeTrackingService.members h' ("shipment:" +:+ id).
Proof.
  intros Hc Hauth Hid. unfold RealTimeTrackingService.handleShipmentSubscription.
  rewrite Hc, Hauth. cbn [negb].
  unfold RealTimeTrackingService.resolve_shipment. rewrite Hid, andb_false_r.
  eexists. split; [reflexivity|].
  cbn [template].
  destruct (Some id ≫= _);
    unfold RealTimeTrackingService.members, RealTimeTrackingService.emit,
      RealTimeTrackingService.join; cbn [rooms];
    rewrite lookup_insert_eq; cbn [default]; set_solver.
Qed.

(** C5 at the failing input: a client signed in for customer c-2 asks for
    shipment S1 of customer c-1 by shipment id; it is joined to the topic
    of S1 and receives the next event of S1.  Asking by AWB is refused. *)
Theorem subscribe_by_id_joins_foreign_topic :
  customer_id <$> Shipment.findById Seed.db1 "S1" = Some "c-1"
  /\ customerId <$> (connectedClients Scene.hub_c2 !! "sock-X") = Some (Some "c-2")
  /\ bool_decide ("sock-X" ∈ RealTimeTrackingService.members Scene.hub_c2_by_id
                                "shipment:S1") = true
  /\ match Scene.arrived_event, Shipment.findById Scene.db_S4 "S1" with
     | Some e, Some sh =>
       m_event <$> of_type "tracking_event"
                     (inbox (RealTimeTrackingService.broadcastTrackingEvent
                               (Seed.en Seed.t_0806_0800) Scene.hub_c2_by_id e sh)
                            "sock-X")
       = ["tracking_event"]
     | _, _ => False
     end
  /\ bool_decide ("sock-X" ∈ RealTimeTrackingService.members Scene.hub_c2_by_awb
                                "shipment:S1") = false
  /\ m_event <$> inbox Scene.hub_c2_by_awb "sock-X"
     = ["connected"; "authenticated"; "subscription_error"].
Proof. vm_compute. auto 10. Qed.

(** ** Quiescence (C4) *)

(** The scheduler tick selects no shipment that is DELIVERED or
    CANCELLED. *)
Lemma tick_skips_terminal (db : DB) (sysdate : Z) (s : shipment) :
  current_status s = Some DELIVERED \/ current_status s = Some CANCELLED ->
  ~ In s (TrackingService.getShipmentsForUpdate db sysdate).
Proof.
  intros Hst Hs. apply selected_is_due in Hs. destruct Hs as [_ Hdue].
  apply due_iff in Hdue. destruct Hdue as (_ & (st & Heq & Hd & Hc) & _).
  destruct Hst as [Hst|Hst]; rewrite Hst in Heq; injection Heq as <-; contradiction.
Qed.

(** The periodic updater refreshes no shipment that is DELIVERED. *)
Lemma periodic_update_skips_delivered (db : DB) (h : hub) (id : string) (sh : shipment) :
  Shipment.findById db id = Some sh ->
  current_status sh = Some DELIVERED ->
  ~ In id (RealTimeTrackingService.refreshed db h).
Proof.
  intros Hfound Hst Hin. unfold RealTimeTrackingService.refreshed in Hin.
  apply filter_In in Hin. destruct Hin as [_ Hskip].
  rewrite Hfound in Hskip. unfold RealTimeTrackingService.skipped in Hskip.
  rewrite Hst, bool_decide_eq_true_2, orb_true_r in Hskip by reflexivity.
  discriminate.
Qed.

(** The periodic updater refreshes every watched shipment that is found,
    enabled and CANCELLED. *)
Lemma periodic_update_takes_cancelled (db : DB) (h : hub) (id : string) (sh : shipment) :
  In id (RealTimeTrackingService.activeShipments h) ->
  Shipment.findById db id = Some sh ->
  tracking_enabled sh = true ->
  current_status sh = Some CANCELLED ->
  In id (RealTimeTrackingService.refreshed db h).
Proof.
  intros Hactive Hfound Hen Hst. unfold RealTimeTrackingService.refreshed.
  apply filter_In. split; [assumption|].
  rewrite Hfound. unfold RealTimeTrackingService.skipped. rewrite Hen, Hst.
  reflexivity.
Qed.


(** * Further properties *)

(** ** The event table under ingestion *)

Section Ingestion.

Implicit Types (db : DB) (e : tracking_event) (d : event_data).

Lemma findById_row_of db sid :
  Shipment.findById db sid = Shipment.new <$> row_of db sid.
Proof. unfold Shipment.findById, row_of. now destruct (List.filter _ _). Qed.

Lemma updateShipmentStatus_events db e :
  tracking_events (TrackingEvent.updateShipmentStatus db e) = tracking_events db.
Proof.
  unfold TrackingEvent.updateShipmentStatus.
  destruct (TrackingEvent.updates_shipment e); [|reflexivity].
  now destruct (String.eqb (event_code e) "DELIVERED").
Qed.

Lemma create_events en db e :
  tracking_events (TrackingEvent.create en db e)
  = tracking_events db ++ [stored_row (now en) e].
Proof. unfold TrackingEvent.create. now rewrite updateShipmentStatus_events. Qed.

Lemma checkDuplicate_grows db db' more sid code dt ext :
  tracking_events db' = tracking_events db ++ more ->
  TrackingEvent.checkDuplicate db sid code dt ext = true ->
  TrackingEvent.checkDuplicate db' sid code dt ext = true.
Proof.
  intros He H. unfold TrackingEvent.checkDuplicate in *.
  apply count_positive in H. apply count_positive. rewrite He.
  destruct H as (x & Hin & Hx). exists x. split; [|assumption].
  apply in_or_app. now left.
Qed.

Lemma checkDuplicate_no_datetime db sid code ext :
  TrackingEvent.checkDuplicate db sid code None ext = false.
Proof.
  unfold TrackingEvent.checkDuplicate.
  induction (tracking_events db) as [|row l IH]; [reflexivity|].
  cbn [List.filter]. unfold TrackingEvent.duplicate_row at 1.
  now rewrite andb_false_r.
Qed.

(** The three ways [createFromExternal] ends. *)
Lemma createFromExternal_cases en db d src sid :
  (TrackingEvent.createFromExternal en db d src sid = (db, Duplicate)
   /\ TrackingEvent.checkDuplicate db sid (d_event_code d) (d_event_datetime d)
        (d_external_event_id d) = true)
  \/ (TrackingEvent.createFromExternal en db d src sid = (db, StoreError)
      /\ d_event_datetime d = None)
  \/ exists e t,
       TrackingEvent.createFromExternal en db d src sid
       = (TrackingEvent.create en db e, Created e)
       /\ d_event_datetime d = Some t
       /\ te_shipment_id e = sid
       /\ event_code e = d_event_code d
       /\ event_datetime e = t
       /\ external_event_id e = d_external_event_id d.
Proof.
  unfold TrackingEvent.createFromExternal.
  destruct (TrackingEvent.checkDuplicate _ _ _ _ _); [now left|].
  destruct (d_event_datetime d) as [t|]; [|right; now left].
  right. right. eexists. exists t. repeat split; reflexivity.
Qed.

(** What a run of the loop of [updateTrackingFromExternal] leaves behind:
    the created rows are appended, and every payload of the batch is from
    then on a duplicate, unless it has no [event_datetime]. *)
Lemma create_all_spec en src sid (l : list event_data) db :
  tracking_events (TrackingService.create_all en db src sid l).1
  = tracking_events db
    ++ List.map (stored_row (now en)) (TrackingService.create_all en db src sid l).2
  /\ Forall (fun d =>
              TrackingEvent.checkDuplicate (TrackingService.create_all en db src sid l).1
                sid (d_event_code d) (d_event_datetime d) (d_external_event_id d) = true
              \/ d_event_datetime d = None) l.
Proof.
  revert db. induction l as [|d l IH]; intros db.
  - simpl. split; [now rewrite app_nil_r | constructor].
  - cbn [TrackingService.create_all].
    destruct (createFromExternal_cases en db d (Some src) sid)
      as [[-> Hd] | [[-> Hn] | (e & t & -> & Ht & Hs & Hc & Hdt & Hx)]].
    + destruct (IH db) as [He Hall]. split; [exact He|].
      constructor; [|exact Hall]. left. eapply checkDuplicate_grows; eassumption.
    + destruct (IH db) as [He Hall]. split; [exact He|].
      constructor; [|exact Hall]. now right.
    + destruct (IH (TrackingEvent.create en db e)) as [He Hall].
      destruct (TrackingService.create_all en (TrackingEvent.create en db e) src sid l)
        as [db2 es]. cbn [fst snd] in *. split.
      * rewrite He, create_events, <- app_assoc. reflexivity.
      * constructor; [|exact Hall]. left.
        eapply checkDuplicate_grows; [exact He|]. rewrite Ht.
        apply (checkDuplicate_true _ _ _ _ _ (stored_row (now en) e)).
        -- rewrite create_events. apply in_or_app. right. now left.
        -- exact Hs.
        -- exact Hc.
        -- change (event_datetime (stored_row (now en) e)) with (event_datetime e).
           rewrite Hdt. lia.
        -- right. exact Hx.
Qed.

(** A batch of payloads that are all duplicates, or lack their
    [event_datetime], creates nothing and leaves the store alone. *)
Lemma create_all_settled en src sid (l : list event_data) db :
  Forall (fun d =>
            TrackingEvent.checkDuplicate db sid (d_event_code d) (d_event_datetime d)
              (d_external_event_id d) = true
            \/ d_event_datetime d = None) l ->
  TrackingService.create_all en db src sid l = (db, []).
Proof.
  induction 1 as [|d l Hd _ IH]; [reflexivity|].
  cbn [TrackingService.create_all]. unfold TrackingEvent.createFromExternal.
  destruct Hd as [-> | Hn]; [exact IH|].
  rewrite Hn, checkDuplicate_no_datetime. exact IH.
Qed.

Lemma create_all_nothing en src sid (l : list event_data) db db1 :
  TrackingService.create_all en db src sid l = (db1, []) -> db1 = db.
Proof.
  revert db. induction l as [|d l IH]; intros db; [now intros [= <-]|].
  cbn [TrackingService.create_all].
  destruct (createFromExternal_cases en db d (Some src) sid)
    as [[-> _] | [[-> _] | (e & t & -> & _)]]; try apply IH.
  destruct (TrackingService.create_all _ _ _ _ _). discriminate.
Qed.

End Ingestion.

(** ** Refreshing from the upstream feed *)

Section Refresh.

Implicit Types (db : DB) (e : tracking_event) (d : event_data).

Lemma findByAwb_row_by_awb db awb :
  Shipment.findByAwb db awb = Shipment.new <$> row_by_awb db awb.
Proof. unfold Shipment.findByAwb, row_by_awb. now destruct (List.filter _ _). Qed.

Lemma update_shipments_row_by_awb id f db awb :
  (forall s, awb_number (f s) = awb_number s) ->
  row_by_awb (update_shipments id f db) awb
  = (fun s => if String.eqb (shipment_id s) id then f s else s) <$> row_by_awb db awb.
Proof.
  intros Hawb. unfold row_by_awb, update_shipments; simpl.
  induction (shipments db) as [|s l IH]; simpl; [reflexivity|].
  destruct (String.eqb (shipment_id s) id) eqn:E; rewrite ?Hawb;
    destruct (String.eqb (awb_number s) awb); simpl; rewrite ?E; auto.
Qed.

Lemma keyed_compose (f1 f2 : shipment -> shipment) (o : option shipment) :
  (forall s, shipment_id (f1 s) = shipment_id s) ->
  (forall s, shipment_id (f2 s) = shipment_id s) ->
  exists g, (forall s, shipment_id (g s) = shipment_id s)
            /\ f2 <$> (f1 <$> o) = g <$> o.
Proof.
  intros H1 H2. exists (fun s => f2 (f1 s)).
  split; [intros s; now rewrite H2, H1 | now destruct o].
Qed.

(** Ingestion rewrites rows in place and keeps their keys. *)
Lemma create_row_by_awb en db e awb :
  exists g, (forall s, shipment_id (g s) = shipment_id s)
            /\ row_by_awb (TrackingEvent.create en db e) awb = g <$> row_by_awb db awb.
Proof.
  unfold TrackingEvent.create, TrackingEvent.updateShipmentStatus.
  destruct (TrackingEvent.updates_shipment e).
  - destruct (String.eqb (event_code e) "DELIVERED");
      rewrite !update_shipments_row_by_awb by reflexivity;
      change (row_by_awb (insert_event (now en) e db) awb) with (row_by_awb db awb).
    + apply keyed_compose; intros s;
        now destruct (String.eqb (shipment_id s) (te_shipment_id e)).
    + eexists. split; [|reflexivity]. intros s. cbn beta.
      now destruct (String.eqb (shipment_id s) (te_shipment_id e)).
  - exists (fun s => s). split; [reflexivity|].
    change (row_by_awb (insert_event (now en) e db) awb) with (row_by_awb db awb).
    now destruct (row_by_awb db awb).
Qed.

Lemma create_all_row_by_awb en src sid (l : list event_data) db awb :
  exists g, (forall s, shipment_id (g s) = shipment_id s)
            /\ row_by_awb (TrackingService.create_all en db src sid l).1 awb
               = g <$> row_by_awb db awb.
Proof.
  revert db. induction l as [|d l IH]; intros db.
  - exists (fun s => s). split; [reflexivity|]. simpl. now destruct (row_by_awb db awb).
  - cbn [TrackingService.create_all].
    destruct (createFromExternal_cases en db d (Some src) sid)
      as [[-> _] | [[-> _] | (e & t & -> & _)]]; try apply IH.
    destruct (IH (TrackingEvent.create en db e)) as (g & Hg & Hrow).
    destruct (create_row_by_awb en db e awb) as (g0 & Hg0 & Hrow0).
    destruct (TrackingService.create_all en (TrackingEvent.create en db e) src sid l)
      as [db2 es]. cbn [fst] in *.
    exists (fun s => g (g0 s)). split; [intros s; now rewrite Hg, Hg0|].
    rewrite Hrow, Hrow0. now destruct (row_by_awb db awb).
Qed.

(** X1: refreshing a shipment a second time, with the upstream feed giving
    the same answer, creates no event: every payload of the answer is then
    a duplicate of a stored event (or still lacks its event time). *)
Theorem refresh_twice_creates_nothing (up : upstream) (en en' : env) (db db1 : DB)
    (awbNumber : string) (sourceType : source_type) (created : list tracking_event)
    (Hfirst : TrackingService.updateTrackingFromExternal up en db awbNumber sourceType
              = (db1, Some created)) :
  exists db2,
    TrackingService.updateTrackingFromExternal up en' db1 awbNumber sourceType
    = (db2, Some [])
    /\ tracking_events db2 = tracking_events db1.
Proof.
  unfold TrackingService.updateTrackingFromExternal in *.
  rewrite findByAwb_row_by_awb in *.
  destruct (row_by_awb db awbNumber) as [r0|] eqn:Hr0; [|discriminate].
  cbn [fmap option_fmap option_map] in Hfirst.
  destruct (tracking_enabled (Shipment.new r0)) eqn:Hen; [|discriminate].
  cbn [negb] in Hfirst.
  match type of Hfirst with
  | match ?f with _ => _ end = _ => destruct f as [l|] eqn:Hfetch; [|discriminate]
  end.
  pose proof (create_all_spec en (TrackingService.getSourceId sourceType)
                (shipment_id (Shipment.new r0)) l db) as [_ Hall].
  destruct (create_all_row_by_awb en (TrackingService.getSourceId sourceType)
              (shipment_id (Shipment.new r0)) l db awbNumber) as (g & Hg & Hrow).
  destruct (TrackingService.create_all en db _ _ l) as [dbc es]. cbn [fst] in *.
  injection Hfirst as <- <-.
  unfold Shipment.updateTrackingConfig at 1 2.
  rewrite update_shipments_row_by_awb, Hrow, Hr0 by reflexivity.
  cbn [fmap option_fmap option_map].
  change (shipment_id (Shipment.new r0)) with (shipment_id r0) in *.
  rewrite Hg, String.eqb_refl.
  change (tracking_enabled (Shipment.new (set_tracking_config ?a ?b ?s))) with a.
  cbn [negb].
  change (shipment_id (Shipment.new (set_tracking_config ?a ?b ?s)))
    with (shipment_id s).
  rewrite Hg.
  rewrite (create_all_settled en' _ (shipment_id r0) l); [eexists; split; reflexivity|].
  exact Hall.
Qed.

(** After scenario S1 a first refresh stores the arrival that the feed
    reports; a second one stores nothing. *)
Lemma refresh_twice_creates_nothing_S1 :
  exists db2,
    TrackingService.updateTrackingFromExternal Scene.feed (Seed.en Seed.t_0807_1200)
      (TrackingService.updateTrackingFromExternal Scene.feed (Seed.en Seed.t_0806_0800)
         Seed.db1 "125-12345678" IATA_ONERECORD).1
      "125-12345678" IATA_ONERECORD
    = (db2, Some [])
    /\ tracking_events db2
       = tracking_events
           (TrackingService.updateTrackingFromExternal Scene.feed
              (Seed.en Seed.t_0806_0800) Seed.db1 "125-12345678" IATA_ONERECORD).1.
Proof.
  eapply (refresh_twice_creates_nothing Scene.feed (Seed.en Seed.t_0806_0800)
            (Seed.en Seed.t_0807_1200) Seed.db1).
  cbv. reflexivity.
Defined.

(** X2: a refresh appends one row per created event, in the order of
    creation, and changes no stored event; when it throws, the store is as
    it was. *)
Theorem refresh_appends_created (up : upstream) (en : env) (db : DB)
    (awbNumber : string) (sourceType : source_type) :
  match TrackingService.updateTrackingFromExternal up en db awbNumber sourceType with
  | (db', Some created) =>
    tracking_events db' = tracking_events db ++ List.map (stored_row (now en)) created
    /\ tracking_subscriptions db' = tracking_subscriptions db
    /\ notifications db' = notifications db
  | (db', None) => db' = db
  end.
Proof.
  unfold TrackingService.updateTrackingFromExternal.
  destruct (Shipment.findByAwb db awbNumber) as [sh|]; [|reflexivity].
  destruct (negb (tracking_enabled sh)); [reflexivity|].
  match goal with
  | |- context [match ?f with Some _ => _ | None => _ end] =>
    destruct f as [l|]; [|reflexivity]
  end.
  pose proof (create_all_spec en (TrackingService.getSourceId sourceType)
                (shipment_id sh) l db) as [He _].
  assert (Hrest : tracking_subscriptions
                    (TrackingService.create_all en db
                       (TrackingService.getSourceId sourceType) (shipment_id sh) l).1
                  = tracking_subscriptions db
                  /\ notifications
                       (TrackingService.create_all en db
                          (TrackingService.getSourceId sourceType) (shipment_id sh) l).1
                     = notifications db).
  { generalize (TrackingService.getSourceId sourceType) (shipment_id sh).
    intros src sid. clear He. revert db. induction l as [|d l IH]; intros db.
    - now split.
    - cbn [TrackingService.create_all].
      destruct (createFromExternal_cases en db d (Some src) sid)
        as [[-> _] | [[-> _] | (e & t & -> & _)]]; try apply IH.
      specialize (IH (TrackingEvent.create en db e)).
      destruct (TrackingService.create_all en (TrackingEvent.create en db e) src sid l).
      cbn [fst] in *. destruct IH as [-> ->].
      unfold TrackingEvent.create, TrackingEvent.updateShipmentStatus.
      destruct (TrackingEvent.updates_shipment e); [|now split].
      now destruct (String.eqb (event_code e) "DELIVERED"). }
  destruct (TrackingService.create_all en db _ _ l) as [db1 es]. cbn [fst snd] in *.
  destruct Hrest as [Hs Hn]. now rewrite <- He, <- Hs, <- Hn.
Qed.

Lemma updateTrackingConfig_same_tracking db sh en_ freq :
  same_tracking db (Shipment.updateTrackingConfig db sh en_ freq).
Proof.
  split; [reflexivity|]. intros sid. unfold Shipment.updateTrackingConfig.
  rewrite update_shipments_row by reflexivity.
  destruct (String.eqb (shipment_id sh) sid), (row_of db sid); repeat split.
Qed.

Lemma same_tracking_trans db1 db2 db3 :
  same_tracking db1 db2 -> same_tracking db2 db3 -> same_tracking db1 db3.
Proof.
  intros [He1 H1] [He2 H2]. split; [congruence|]. intros sid.
  destruct (H1 sid) as (A1 & B1 & C1 & D1), (H2 sid) as (A2 & B2 & C2 & D2).
  repeat split; congruence.
Qed.

Lemma refresh_without_events_same_tracking up en db awb st db1 r :
  TrackingService.updateTrackingFromExternal up en db awb st = (db1, r) ->
  r = None \/ r = Some [] ->
  same_tracking db db1.
Proof.
  unfold TrackingService.updateTrackingFromExternal. intros H Hr.
  assert (Hrefl : same_tracking db db) by (split; [reflexivity|]; intros; repeat split).
  destruct (Shipment.findByAwb db awb) as [sh|]; [|now injection H as <- _].
  destruct (negb (tracking_enabled sh)); [now injection H as <- _|].
  match type of H with
  | match ?f with _ => _ end = _ => destruct f as [l|]; [|now injection H as <- _]
  end.
  destruct (TrackingService.create_all en db _ _ l) as [dbc es] eqn:Hc.
  injection H as <- <-. destruct Hr as [Hr|Hr]; [discriminate|].
  injection Hr as ->. apply create_all_nothing in Hc. subst dbc.
  apply updateTrackingConfig_same_tracking.
Qed.

(** X3: a scheduler tick in which no event is created leaves the events
    and, for every shipment, the status, the location, the delivery date
    and [last_tracked_at] as they were: the tick itself does not stamp
    [last_tracked_at]. *)
Theorem quiet_tick_keeps_last_tracked_at (up : upstream) (en : env) (db : DB)
    (Hquiet : Forall (fun r => r.2 = None \/ r.2 = Some 0%nat)
                (TrackingService.processAutomaticUpdates up en db).2) :
  same_tracking db (TrackingService.processAutomaticUpdates up en db).1
  /\ length (TrackingService.processAutomaticUpdates up en db).2
     = length (TrackingService.getShipmentsForUpdate db (now en)).
Proof.
  unfold TrackingService.processAutomaticUpdates in *.
  generalize dependent (TrackingService.getShipmentsForUpdate db (now en)).
  intros rows. revert db. induction rows as [|row rows IH]; intros db Hquiet.
  - split; [|reflexivity]. split; [reflexivity|]. intros; repeat split.
  - cbn [TrackingService.update_each] in *.
    destruct (TrackingService.updateTrackingFromExternal up en db (awb_number row)
                IATA_ONERECORD) as [db1 r] eqn:Hstep.
    specialize (IH db1).
    destruct (TrackingService.update_each up en db1 rows) as [db2 rs].
    cbn [fst snd] in *. inversion Hquiet as [|? ? Hr Hrest]; subst.
    destruct (IH Hrest) as [Hsame Hlen]. split; [|simpl; now rewrite Hlen].
    eapply same_tracking_trans; [|exact Hsame].
    eapply refresh_without_events_same_tracking; [exact Hstep|].
    cbn [snd] in Hr. destruct r as [es|]; [|now left]. right.
    destruct Hr as [Hr|Hr]; [discriminate|]. destruct es; [reflexivity|discriminate].
Qed.

(** Scenario S1 two days later with the feed switched off: the shipment is
    selected, nothing is created, and it is never marked as tracked. *)
Lemma quiet_tick_keeps_last_tracked_at_S1 :
  same_tracking Seed.db1
    (TrackingService.processAutomaticUpdates feed_off (Seed.en Seed.t_0807_1200)
       Seed.db1).1
  /\ length (TrackingService.processAutomaticUpdates feed_off (Seed.en Seed.t_0807_1200)
               Seed.db1).2
     = length (TrackingService.getShipmentsForUpdate Seed.db1 Seed.t_0807_1200).
Proof.
  apply (quiet_tick_keeps_last_tracked_at feed_off (Seed.en Seed.t_0807_1200) Seed.db1).
  vm_compute. constructor; [now right | constructor].
Defined.

End Refresh.

(** ** Repeated manual entry *)

Lemma createTrackingEvent_created (en : env) (db db1 : DB) (sid : string)
    (d : event_data) (src : option string) (e : tracking_event) :
  TrackingService.createTrackingEvent en db sid d src = (db1, Created e) ->
  is_Some (row_of db sid)
  /\ length (tracking_events db1) = S (length (tracking_events db))
  /\ exists row,
       In row (tracking_events db1)
       /\ te_shipment_id row = sid
       /\ event_code row = d_event_code d
       /\ event_datetime row = default (now en) (d_event_datetime d)
       /\ external_event_id row = d_external_event_id d.
Proof.
  unfold TrackingService.createTrackingEvent. rewrite findById_row_of.
  destruct (row_of db sid) as [r0|]; [|discriminate].
  cbn [fmap option_fmap option_map].
  destruct (TrackingEvent.checkDuplicate _ _ _ _ _); [discriminate|].
  match goal with
  | |- context [TrackingEvent.create en db ?ev] => set (e0 := ev)
  end.
  intros H. split; [eauto|].
  assert (Hin : In (stored_row (now en) e0)
                  (tracking_events (TrackingEvent.create en db e0))).
  { rewrite create_events. apply in_or_app. right. now left. }
  assert (Hlen : length (tracking_events (TrackingEvent.create en db e0))
                 = S (length (tracking_events db))).
  { rewrite create_events, length_app. simpl. lia. }
  destruct (TrackingService.notifiable e0); injection H as <- _.
  - unfold TrackingService.sendTrackingNotifications.
    cbn [tracking_events TrackingEvent.markNotificationSent].
    rewrite length_map. split; [exact Hlen|].
    eexists. split; [apply in_map; exact Hin|].
    match goal with
    | |- context [if ?b then _ else _] => destruct b
    end; repeat split.
  - split; [exact Hlen|]. eexists. split; [exact Hin|]. repeat split.
Qed.

(** X4: entering the same event by hand a second time is reported as a
    duplicate and changes nothing, provided the payload carries its
    [event_datetime]; a payload without it is stamped with the clock and
    stored again on every entry. *)
Theorem manual_entry_twice (en en' : env) (db db1 : DB) (sid : string)
    (d : event_data) (src src' : option string) (e : tracking_event)
    (Hfirst : TrackingService.createTrackingEvent en db sid d src = (db1, Created e)) :
  match d_event_datetime d with
  | Some _ => TrackingService.createTrackingEvent en' db1 sid d src' = (db1, Duplicate)
  | None =>
    exists db2 e2,
      TrackingService.createTrackingEvent en' db1 sid d src' = (db2, Created e2)
      /\ event_datetime e2 = now en'
      /\ length (tracking_events db2) = S (length (tracking_events db1))
  end.
Proof.
  pose proof (createTrackingEvent_created _ _ _ _ _ _ _ Hfirst)
    as ([r0 Hr0] & _ & row & Hin & Hs & Hc & Ht & Hx).
  assert (Hfound : exists r1, row_of db1 sid = Some r1).
  { pose proof (Apply_row db (mkRequest en sid d src) sid) as Hrow.
    change (Apply db (mkRequest en sid d src))
      with (TrackingService.createTrackingEvent en db sid d src) in Hrow.
    rewrite Hfirst, Hr0 in Hrow. cbn [fst] in Hrow. eauto. }
  destruct Hfound as [r1 Hr1].
  destruct (d_event_datetime d) as [t|] eqn:Hdt.
  - unfold TrackingService.createTrackingEvent.
    rewrite findById_row_of, Hr1, Hdt. cbn [fmap option_fmap option_map].
    rewrite (checkDuplicate_true db1 sid (d_event_code d) t (d_external_event_id d) row);
      try assumption; [reflexivity | | now right].
    rewrite Ht. cbn [default]. rewrite Z.sub_diag. reflexivity.
  - destruct (TrackingService.createTrackingEvent en' db1 sid d src')
      as [db2 o] eqn:Hsecond.
    assert (Hcreated : exists e2, o = Created e2 /\ event_datetime e2 = now en').
    { unfold TrackingService.createTrackingEvent in Hsecond.
      rewrite findById_row_of, Hr1, Hdt, checkDuplicate_no_datetime in Hsecond.
      cbn [fmap option_fmap option_map default] in Hsecond.
      match type of Hsecond with
      | (if ?b then _ else _) = _ => destruct b
      end; injection Hsecond as _ <-; eexists; split; reflexivity. }
    destruct Hcreated as (e2 & -> & He2). exists db2, e2.
    split; [reflexivity|]. split; [exact He2|].
    now apply createTrackingEvent_created in Hsecond.
Qed.

(** Scenario S1 entered twice, with its event time. *)
Lemma manual_entry_twice_S1 :
  TrackingService.createTrackingEvent (Seed.en Seed.t_0805_1400) Seed.db1 "S1"
    (r_data Seed.collected) None = (Seed.db1, Duplicate).
Proof.
  eapply (manual_entry_twice (Seed.en Seed.t_0805_1000) _ Seed.db0 Seed.db1 "S1"
            (r_data Seed.collected) (Some "src-manual")).
  cbv. reflexivity.
Defined.

(** ** Reading the history *)

Section Queries.

#[local] Instance later_first_transitive : Transitive TrackingEvent.later_first.
Proof. intros a b c. unfold TrackingEvent.later_first. lia. Qed.

#[local] Instance later_first_total : Total TrackingEvent.later_first.
Proof. intros a b. unfold TrackingEvent.later_first. lia. Qed.

#[local] Instance newest_first_transitive : Transitive Shipment.newest_first.
Proof. intros a b c. unfold Shipment.newest_first. lia. Qed.

#[local] Instance newest_first_total : Total Shipment.newest_first.
Proof. intros a b. unfold Shipment.newest_first. lia. Qed.

Lemma head_take {A} (l : list A) (n : nat) : head (take (S n) l) = head l.
Proof. now destruct l. Qed.

Lemma sorted_head {A} (R : relation A) (l : list A) (x : A) :
  StronglySorted R l -> head l = Some x -> forall y, In y l -> y = x \/ R x y.
Proof.
  intros Hs Hh y Hy. destruct l as [|a l]; [discriminate|].
  injection Hh as ->. inversion Hs as [|? ? _ Hall]; subst.
  destruct Hy as [->|Hy]; [now left|right].
  rewrite Forall_forall in Hall. apply Hall. now apply list_elem_of_In.
Qed.

(** The first row of a query that filters the events, orders them by
    [event_datetime DESC] and fetches at least one row. *)
Lemma latest_of_filter (P : tracking_event -> bool) (l : list tracking_event) (n : nat) :
  match head (take (S n) (merge_sort TrackingEvent.later_first (List.filter P l))) with
  | Some e =>
    In e l /\ P e = true
    /\ forall e', In e' l -> P e' = true -> event_datetime e' <= event_datetime e
  | None => forall e', In e' l -> P e' = false
  end.
Proof.
  rewrite head_take.
  pose proof (merge_sort_Permutation TrackingEvent.later_first (List.filter P l)) as Hp.
  pose proof (StronglySorted_merge_sort TrackingEvent.later_first (List.filter P l)) as Hs.
  destruct (head _) as [e|] eqn:Hh.
  - assert (Hin : In e (List.filter P l)).
    { apply list_elem_of_In. rewrite <- Hp. apply list_elem_of_In.
      destruct (merge_sort _ _); [discriminate|]. injection Hh as ->. now left. }
    apply filter_In in Hin. destruct Hin as [Hin HP]. split; [exact Hin|].
    split; [exact HP|]. intros e' Hin' HP'.
    assert (Hm : In e' (merge_sort TrackingEvent.later_first (List.filter P l))).
    { apply list_elem_of_In. rewrite Hp. apply list_elem_of_In.
      apply filter_In. now split. }
    destruct (sorted_head _ _ _ Hs Hh e' Hm) as [->|H]; [lia|exact H].
  - intros e' Hin'. destruct (P e') eqn:HP; [|reflexivity].
    assert (Hm : In e' (merge_sort TrackingEvent.later_first (List.filter P l))).
    { apply list_elem_of_In. rewrite Hp. apply list_elem_of_In.
      apply filter_In. now split. }
    destruct (merge_sort _ _); [destruct Hm|discriminate].
Qed.


End Queries.

(** ** The notification sweep *)

Lemma In_take {A} (x : A) (n : nat) (l : list A) : In x (take n l) -> In x l.
Proof.
  revert l. induction n as [|n IH]; intros [|a l]; simpl; try tauto.
  intros [->|H]; [now left|right; now apply IH].
Qed.




(** ** The tracking information of a shipment *)


Lemma filter_nil_iff {A} (P : A -> bool) (l : list A) :
  List.filter P l = [] <-> forall x, In x l -> P x = false.
Proof.
  split.
  - intros H x Hx. destruct (P x) eqn:E; [|reflexivity].
    assert (In x (List.filter P l)) as Hin by (apply filter_In; now split).
    rewrite H in Hin. destruct Hin.
  - intros H. destruct (List.filter P l) as [|x l'] eqn:E; [reflexivity|].
    assert (In x (List.filter P l)) as Hin by (rewrite E; now left).
    apply filter_In in Hin. destruct Hin as [Hin HP].
    rewrite (H x Hin) in HP. discriminate.
Qed.

(** The latest event of a shipment, among the rows that its summary
    aggregates. *)
Lemma getLatestTrackingEvent_cases (db : DB) (this : shipment) :
  let rows :=
    List.filter
      (fun te => String.eqb (te_shipment_id te) (shipment_id this) && customer_visible te)
      (tracking_events db) in
  match Shipment.getLatestTrackingEvent db this with
  | Some e => In e rows /\ forall e', In e' rows -> event_datetime e' <= event_datetime e
  | None => rows = []
  end.
Proof.
  intros rows.
  assert (Heq : Shipment.getLatestTrackingEvent db this
                = head (take 1 (merge_sort TrackingEvent.later_first rows))).
  { unfold Shipment.getLatestTrackingEvent, Shipment.getTrackingHistory, rows.
    do 3 f_equal. apply filter_ext. intros e. unfold Shipment.in_history.
    cbn [orb]. now rewrite andb_true_r. }
  rewrite Heq. unfold rows.
  pose proof (latest_of_filter
                (fun te => String.eqb (te_shipment_id te) (shipment_id this)
                           && customer_visible te)
                (tracking_events db) 0) as H.
  cbv beta in H. destruct (head _) as [e|].
  - destruct H as (Hin & HP & Hmax). split; [apply filter_In; now split|].
    intros e' He'. apply filter_In in He'. destruct He' as [He' HP'].
    now apply Hmax.
  - now apply filter_nil_iff.
Qed.



(** ** The hub over its lifetime *)

Section Hub.

Import RealTimeTrackingService.

#[local] Set Warnings "-clear-no-such-hyp".

Lemma shipment_room_inj (a b : string) :
  "shipment:" +:+ a = "shipment:" +:+ b -> a = b.
Proof. intros H. injection H. auto. Qed.

Lemma customer_room_ne (a b : string) : "customer:" +:+ a <> "shipment:" +:+ b.
Proof. intros H. discriminate H. Qed.

(** *** The sets of a room after each step *)

Lemma members_rooms (h h' : hub) (r : string) :
  rooms h' = rooms h -> members h' r = members h r.
Proof. unfold members. now intros ->. Qed.

Lemma subscribers_roomSubscriptions (h h' : hub) (r : string) :
  roomSubscriptions h' = roomSubscriptions h -> subscribers h' r = subscribers h r.
Proof. unfold subscribers. now intros ->. Qed.

Lemma elem_of_members_join (h : hub) (socket roomName r x : string) :
  x ∈ members (join socket roomName h) r
  <-> (r = roomName /\ x = socket) \/ x ∈ members h r.
Proof.
  unfold members, join. cbn [rooms].
  destruct (decide (roomName = r)) as [->|Hne].
  - rewrite lookup_insert_eq. cbn [default]. set_solver.
  - rewrite lookup_insert_ne by exact Hne. naive_solver.
Qed.

Lemma elem_of_members_leave (h : hub) (socket roomName r x : string) :
  x ∈ members (leave socket roomName h) r
  <-> x ∈ members h r /\ ~ (r = roomName /\ x = socket).
Proof.
  unfold members, leave. cbn [rooms].
  destruct (decide (roomName = r)) as [->|Hne].
  - rewrite lookup_insert_eq. cbn [default]. set_solver.
  - rewrite lookup_insert_ne by exact Hne. naive_solver.
Qed.

Lemma elem_of_drop_subscription (socket roomName r x : string)
    (subs : gmap string (gset string)) :
  x ∈ default ∅ (drop_subscription socket roomName subs !! r)
  <-> x ∈ default ∅ (subs !! r) /\ ~ (r = roomName /\ x = socket).
Proof.
  unfold drop_subscription.
  destruct (subs !! roomName) as [clients|] eqn:E.
  - destruct (size (clients ∖ {[socket]}) =? 0)%nat eqn:Hs.
    + apply Nat.eqb_eq, size_empty_iff in Hs.
      destruct (decide (roomName = r)) as [<-|Hne].
      * rewrite lookup_delete_eq, E. cbn [default]. set_solver.
      * rewrite lookup_delete_ne by exact Hne. naive_solver.
    + destruct (decide (roomName = r)) as [<-|Hne].
      * rewrite lookup_insert_eq, E. cbn [default]. set_solver.
      * rewrite lookup_insert_ne by exact Hne. naive_solver.
  - destruct (decide (roomName = r)) as [<-|Hne].
    + rewrite E. cbn [default]. set_solver.
    + naive_solver.
Qed.

Lemma drop_subscription_non_empty (socket roomName : string)
    (subs : gmap string (gset string)) :
  (forall r clients, subs !! r = Some clients -> clients <> ∅) ->
  forall r clients,
    drop_subscription socket roomName subs !! r = Some clients -> clients <> ∅.
Proof.
  intros Hne r clients. unfold drop_subscription.
  destruct (subs !! roomName) as [cl|] eqn:E; [|apply Hne].
  destruct (size (cl ∖ {[socket]}) =? 0)%nat eqn:Hs.
  - destruct (decide (roomName = r)) as [<-|Hr].
    + now rewrite lookup_delete_eq.
    + rewrite lookup_delete_ne by exact Hr. apply Hne.
  - destruct (decide (roomName = r)) as [<-|Hr].
    + rewrite lookup_insert_eq. intros [= <-].
      apply Nat.eqb_neq in Hs. intros Heq. apply Hs.
      apply size_empty_iff. now rewrite Heq.
    + rewrite lookup_insert_ne by exact Hr. apply Hne.
Qed.

Lemma elem_of_drop_subscriptions (socket : string) (l : list (option string))
    (subs : gmap string (gset string)) (r x : string) :
  x ∈ default ∅
        (fold_left
           (fun subs shipmentId =>
              drop_subscription socket ("shipment:" +:+ template shipmentId) subs)
           l subs !! r)
  <-> x ∈ default ∅ (subs !! r)
      /\ ~ (x = socket /\ exists sid, sid ∈ l /\ r = "shipment:" +:+ template sid).
Proof.
  revert subs. induction l as [|sid l IH]; intros subs; cbn [fold_left].
  - set_solver.
  - rewrite IH, elem_of_drop_subscription. split.
    + intros [[Hx Hn1] Hn2]. split; [exact Hx|].
      intros [-> (sid' & Hin & ->)]. apply elem_of_cons in Hin.
      destruct Hin as [->|Hin]; [now apply Hn1|]. apply Hn2. eauto.
    + intros [Hx Hn]. split; [split; [exact Hx|]|].
      * intros [-> ->]. apply Hn. split; [reflexivity|]. exists sid. set_solver.
      * intros [-> (sid' & Hin & ->)]. apply Hn. split; [reflexivity|].
        exists sid'. set_solver.
Qed.

Lemma drop_subscriptions_non_empty (socket : string) (l : list (option string))
    (subs : gmap string (gset string)) :
  (forall r clients, subs !! r = Some clients -> clients <> ∅) ->
  forall r clients,
    fold_left
      (fun subs shipmentId =>
         drop_subscription socket ("shipment:" +:+ template shipmentId) subs)
      l subs !! r = Some clients ->
    clients <> ∅.
Proof.
  revert subs. induction l as [|sid l IH]; intros subs Hne; cbn [fold_left].
  - exact Hne.
  - apply IH. now apply drop_subscription_non_empty.
Qed.

(** *** Steps that only emit *)

Lemma same_maps_refl (h : hub) : same_maps h h.
Proof. now repeat split. Qed.

Lemma same_maps_trans (h1 h2 h3 : hub) :
  same_maps h1 h2 -> same_maps h2 h3 -> same_maps h1 h3.
Proof. unfold same_maps. intros (-> & -> & ->) (-> & -> & ->). auto. Qed.

Lemma same_maps_emit (e : emission) (h : hub) : same_maps h (emit e h).
Proof. now repeat split. Qed.

Lemma same_maps_broadcast (en : env) (h : hub) (e : tracking_event) (sh : shipment) :
  same_maps h (broadcastTrackingEvent en h e sh).
Proof.
  unfold broadcastTrackingEvent. destruct (flagged e); now repeat split.
Qed.

Lemma same_maps_broadcasts (en : env) (sh : shipment) (l : list tracking_event)
    (h : hub) :
  same_maps h (fold_left (fun h' e => broadcastTrackingEvent en h' e sh) l h).
Proof.
  revert h. induction l as [|e l IH]; intros h; cbn [fold_left].
  - apply same_maps_refl.
  - eapply same_maps_trans; [apply same_maps_broadcast | apply IH].
Qed.

Lemma same_maps_refresh_one (up : upstream) (en : env) (db : DB) (h : hub)
    (shipmentId : string) :
  same_maps h (refresh_one up en (db, h) shipmentId).2.
Proof.
  unfold refresh_one.
  destruct (skipped (Shipment.findById db shipmentId)); [apply same_maps_refl|].
  destruct (Shipment.findById db shipmentId) as [sh|]; [|apply same_maps_refl].
  destruct (TrackingService.updateTrackingFromExternal _ _ _ _ _) as [db1 [created|]];
    cbn [snd]; [apply same_maps_broadcasts | apply same_maps_refl].
Qed.

Lemma same_maps_tick (up : upstream) (en : env) (db : DB) (h : hub) :
  same_maps h (processPeriodicUpdates up en db h).2.
Proof.
  unfold processPeriodicUpdates.
  generalize (activeShipments h) at 1. intros l.
  assert (H : forall st, same_maps st.2 (fold_left (refresh_one up en) l st).2).
  { induction l as [|id l IH]; intros [db0 h0]; cbn [fold_left].
    - apply same_maps_refl.
    - eapply same_maps_trans; [apply same_maps_refresh_one | apply IH]. }
  apply (H (db, h)).
Qed.

Lemma hub_inv_same_maps (h h' : hub) : same_maps h h' -> hub_inv h -> hub_inv h'.
Proof.
  intros (Hc & Hs & Hr). unfold hub_inv, subscribers, members.
  now rewrite Hc, Hs, Hr.
Qed.

(** *** Steps that change the maps *)

Lemma hub_inv_connection (en : env) (h : hub) (socket : string) :
  connectedClients h !! socket = None ->
  hub_inv h -> hub_inv (connection en h socket).
Proof.
  intros Hfresh (H1 & H2 & H3 & H4). split; [exact H1|]. split; [|split; [exact H3|]].
  - intros r x Hx. destruct (H2 r x Hx) as (c & sid & Hc & Hr).
    exists c, sid. split; [|exact Hr]. unfold connection, emit.
    cbn [connectedClients]. rewrite lookup_insert_ne; [exact Hc|].
    intros ->. congruence.
  - intros r x Hx. destruct (H4 r x Hx) as (c & Hc & Ha).
    exists c. split; [|exact Ha]. unfold connection, emit.
    cbn [connectedClients]. rewrite lookup_insert_ne; [exact Hc|].
    intros ->. congruence.
Qed.

Lemma hub_inv_authenticate (en : env) (h : hub) (socket : string)
    (userId_ customerId_ : option string) :
  hub_inv h -> hub_inv (handleAuthentication en h socket userId_ customerId_).
Proof.
  intros (H1 & H2 & H3 & H4). split; [exact H1|]. split; [|split; [exact H3|]].
  - intros r x Hx. destruct (H2 r x Hx) as (c & sid & Hc & Hr).
    unfold handleAuthentication, emit. cbn [connectedClients].
    destruct (connectedClients h !! socket) as [c0|] eqn:E; [|eauto].
    destruct (decide (socket = x)) as [->|Hne].
    + rewrite lookup_insert_eq. eexists _, sid. split; [reflexivity|].
      cbn [subscriptions]. congruence.
    + rewrite lookup_insert_ne by exact Hne. eauto.
  - intros r x Hx. destruct (H4 r x Hx) as (c & Hc & Ha).
    unfold handleAuthentication, emit. cbn [connectedClients].
    destruct (connectedClients h !! socket) as [c0|] eqn:E; [|eauto].
    destruct (decide (socket = x)) as [->|Hne].
    + rewrite lookup_insert_eq. eexists. split; reflexivity.
    + rewrite lookup_insert_ne by exact Hne. eauto.
Qed.

(** What a successful [handleShipmentSubscription] writes. *)
Lemma handleShipmentSubscription_maps (en : env) (db : DB) (h h' : hub)
    (socket : string) (shipmentId awbNumber : option string) :
  handleShipmentSubscription en db h socket shipmentId awbNumber = inl h' ->
  exists c actual,
    connectedClients h !! socket = Some c
    /\ authenticated c = true
    /\ resolve_shipment db c shipmentId awbNumber = inl actual
    /\ connectedClients h'
       = <[socket := {| subscriptions := {[actual]} ∪ subscriptions c;
                       userId := userId c; customerId := customerId c;
                       authenticated := authenticated c |}]> (connectedClients h)
    /\ roomSubscriptions h'
       = <["shipment:" +:+ template actual :=
             {[socket]} ∪ subscribers h ("shipment:" +:+ template actual)]>
           (roomSubscriptions h)
    /\ rooms h'
       = <["shipment:" +:+ template actual :=
             {[socket]} ∪ members h ("shipment:" +:+ template actual)]> (rooms h).
Proof.
  unfold handleShipmentSubscription.
  destruct (connectedClients h !! socket) as [c|] eqn:Hc; [|discriminate].
  destruct (authenticated c) eqn:Ha; [|discriminate]. cbn [negb].
  destruct (resolve_shipment db c shipmentId awbNumber) as [actual|] eqn:Hres;
    [|discriminate].
  intros [= <-]. exists c, actual. rewrite Ha.
  split; [first [assumption|reflexivity]|]. split; [reflexivity|].
  split; [first [assumption|reflexivity]|].
  destruct (actual ≫= _); repeat split; reflexivity.
Qed.

Lemma hub_inv_subscribe_shipment (en : env) (db : DB) (h : hub) (socket : string)
    (shipmentId awbNumber : option string) :
  hub_inv h -> hub_inv (on_subscribe_shipment en db h socket shipmentId awbNumber).
Proof.
  intros Hinv. unfold on_subscribe_shipment, on_error.
  destruct (handleShipmentSubscription _ _ _ _ _ _) as [h'|err] eqn:E;
    [|eapply hub_inv_same_maps; [apply same_maps_emit | exact Hinv]].
  apply handleShipmentSubscription_maps in E.
  destruct E as (c & actual & Hc & Ha & _ & Ec & Es & Er).
  destruct Hinv as (H1 & H2 & H3 & H4).
  set (room := "shipment:" +:+ template actual) in *.
  assert (Hsub : forall r x, x ∈ subscribers h' r
                             <-> (r = room /\ x = socket) \/ x ∈ subscribers h r).
  { intros r x. unfold subscribers. rewrite Es.
    destruct (decide (room = r)) as [<-|Hne].
    - rewrite lookup_insert_eq. cbn [default]. unfold subscribers. set_solver.
    - rewrite lookup_insert_ne by exact Hne. naive_solver. }
  assert (Hmem : forall r x, x ∈ members h' r
                             <-> (r = room /\ x = socket) \/ x ∈ members h r).
  { intros r x. unfold members. rewrite Er.
    destruct (decide (room = r)) as [<-|Hne].
    - rewrite lookup_insert_eq. cbn [default]. unfold members. set_solver.
    - rewrite lookup_insert_ne by exact Hne. naive_solver. }
  split; [|split; [|split]].
  - intros r cl. rewrite Es. destruct (decide (room = r)) as [<-|Hne].
    + rewrite lookup_insert_eq. intros [= <-]. set_solver.
    + rewrite lookup_insert_ne by exact Hne. apply H1.
  - intros r x Hx. rewrite Ec. apply Hsub in Hx.
    destruct (decide (socket = x)) as [<-|Hne].
    + rewrite lookup_insert_eq. destruct Hx as [[-> _]|Hx].
      * eexists _, actual. split; [reflexivity|]. cbn [subscriptions].
        split; [set_solver|reflexivity].
      * destruct (H2 r socket Hx) as (c' & sid & Hc' & Hsid & Hr).
        eexists _, sid. split; [reflexivity|]. cbn [subscriptions].
        split; [|exact Hr]. rewrite Hc in Hc'. injection Hc' as <-. set_solver.
    + rewrite lookup_insert_ne by exact Hne.
      destruct Hx as [[_ ->]|Hx]; [contradiction|]. apply (H2 r x Hx).
  - intros x s. rewrite Hsub, Hmem. specialize (H3 x s). tauto.
  - intros r x Hx. rewrite Ec. apply Hmem in Hx.
    destruct (decide (socket = x)) as [<-|Hne].
    + rewrite lookup_insert_eq. eexists. split; [reflexivity|exact Ha].
    + rewrite lookup_insert_ne by exact Hne.
      destruct Hx as [[_ ->]|Hx]; [contradiction|]. apply (H4 r x Hx).
Qed.

Lemma hub_inv_subscribe_customer (en : env) (h : hub) (socket : string)
    (customerId_ : option string) :
  hub_inv h -> hub_inv (on_subscribe_customer en h socket customerId_).
Proof.
  intros Hinv. unfold on_subscribe_customer, on_error, handleCustomerSubscription.
  destruct (connectedClients h !! socket) as [c|] eqn:Hc;
    [|eapply hub_inv_same_maps; [apply same_maps_emit | exact Hinv]].
  destruct (authenticated c) eqn:Ha; cbn [negb];
    [|eapply hub_inv_same_maps; [apply same_maps_emit | exact Hinv]].
  destruct (bool_decide (customerId c = customerId_)); cbn [negb];
    [|eapply hub_inv_same_maps; [apply same_maps_emit | exact Hinv]].
  destruct Hinv as (H1 & H2 & H3 & H4).
  split; [exact H1|]. split; [exact H2|]. split.
  - intros x s. specialize (H3 x s).
    change (members (emit ?e ?g) ?r) with (members g r).
    rewrite elem_of_members_join.
    change (subscribers (emit ?e (join ?a ?b ?g)) ?r) with (subscribers g r).
    split.
    + intros [[Heq _]|Hx]; [|now apply H3]. symmetry in Heq.
      now apply customer_room_ne in Heq.
    + intros Hx. right. now apply H3.
  - intros r x.
    change (members (emit ?e ?g) ?r) with (members g r).
    rewrite elem_of_members_join. intros [[_ ->]|Hx]; [eauto|].
    apply (H4 r x Hx).
Qed.

Lemma hub_inv_unsubscribe (en : env) (h : hub) (socket : string)
    (shipmentId : option string) :
  hub_inv h -> hub_inv (handleShipmentUnsubscription en h socket shipmentId).
Proof.
  intros Hinv. unfold handleShipmentUnsubscription.
  destruct (connectedClients h !! socket) as [c|] eqn:Hc; [|exact Hinv].
  destruct Hinv as (H1 & H2 & H3 & H4).
  set (room := "shipment:" +:+ template shipmentId).
  split; [|split; [|split]].
  - apply drop_subscription_non_empty. exact H1.
  - intros r x. unfold subscribers, emit. cbn [roomSubscriptions connectedClients leave].
    rewrite elem_of_drop_subscription. intros [Hx Hn].
    destruct (H2 r x Hx) as (c' & sid & Hc' & Hsid & Hr).
    destruct (decide (socket = x)) as [<-|Hne].
    + rewrite lookup_insert_eq. eexists _, sid. split; [reflexivity|].
      cbn [subscriptions]. split; [|exact Hr].
      rewrite Hc in Hc'. injection Hc' as <-.
      apply elem_of_difference. split; [exact Hsid|].
      intros Heq. apply elem_of_singleton in Heq. subst sid. now apply Hn.
    + rewrite lookup_insert_ne by exact Hne. eauto.
  - intros x s.
    rewrite (members_rooms (leave socket room h)) by reflexivity.
    rewrite elem_of_members_leave. unfold subscribers, emit.
    cbn [roomSubscriptions leave]. rewrite elem_of_drop_subscription.
    fold (subscribers h ("shipment:" +:+ x)). specialize (H3 x s). tauto.
  - intros r x.
    rewrite (members_rooms (leave socket room h)) by reflexivity.
    rewrite elem_of_members_leave. intros [Hx _].
    destruct (H4 r x Hx) as (c' & Hc' & Ha).
    unfold emit. cbn [connectedClients leave].
    destruct (decide (socket = x)) as [<-|Hne].
    + rewrite lookup_insert_eq. eexists. split; [reflexivity|].
      cbn [authenticated]. congruence.
    + rewrite lookup_insert_ne by exact Hne. eauto.
Qed.

Lemma hub_inv_disconnect (h : hub) (socket : string) :
  hub_inv h -> hub_inv (on_disconnect h socket).
Proof.
  intros (H1 & H2 & H3 & H4).
  assert (Hmem : forall r x,
            x ∈ members {| connectedClients := connectedClients h;
                           roomSubscriptions := roomSubscriptions h;
                           rooms := (fun clients => clients ∖ {[socket]}) <$> rooms h;
                           emitted := emitted h |} r
            <-> x ∈ members h r /\ x <> socket).
  { intros r x. unfold members. cbn [rooms]. rewrite lookup_fmap.
    destruct (rooms h !! r); cbn [fmap option_fmap option_map default]; set_solver. }
  unfold on_disconnect, handleDisconnection. cbn [connectedClients].
  destruct (connectedClients h !! socket) as [c|] eqn:Hc.
  - assert (Hgone : forall r x,
              x ∈ default ∅
                    (fold_left
                       (fun subs shipmentId =>
                          drop_subscription socket
                            ("shipment:" +:+ template shipmentId) subs)
                       (elements (subscriptions c)) (roomSubscriptions h) !! r)
              <-> x ∈ subscribers h r /\ x <> socket).
    { intros r x. rewrite elem_of_drop_subscriptions. fold (subscribers h r).
      split; intros [Hx Hn]; (split; [exact Hx|]).
      - intros ->. apply Hn. split; [reflexivity|].
        destruct (H2 r socket Hx) as (c' & sid & Hc' & Hsid & Hr).
        exists sid. split; [|exact Hr]. apply elem_of_elements. congruence.
      - intros [-> _]. now apply Hn. }
    split; [|split; [|split]].
    + cbn [roomSubscriptions]. apply drop_subscriptions_non_empty. exact H1.
    + intros r x. unfold subscribers. cbn [roomSubscriptions connectedClients].
      rewrite Hgone. intros [Hx Hne].
      destruct (H2 r x Hx) as (c' & sid & Hc' & Hr).
      exists c', sid. split; [|exact Hr].
      rewrite lookup_delete_ne; [exact Hc'|congruence].
    + intros x s. unfold subscribers at 1. cbn [roomSubscriptions].
      rewrite Hgone.
      change (members {| connectedClients := ?a; roomSubscriptions := ?b;
                        rooms := ?m; emitted := ?d |} ?r)
        with (members {| connectedClients := connectedClients h;
                         roomSubscriptions := roomSubscriptions h;
                         rooms := m; emitted := emitted h |} r).
      now rewrite Hmem, H3.
    + intros r x. cbn [connectedClients].
      change (members {| connectedClients := ?a; roomSubscriptions := ?b;
                        rooms := ?m; emitted := ?d |} ?r)
        with (members {| connectedClients := connectedClients h;
                         roomSubscriptions := roomSubscriptions h;
                         rooms := m; emitted := emitted h |} r).
      rewrite Hmem. intros [Hx Hne]. destruct (H4 r x Hx) as (c' & Hc' & Ha).
      exists c'. split; [|exact Ha].
      rewrite lookup_delete_ne; [exact Hc'|congruence].
  - split; [exact H1|]. split; [exact H2|]. split.
    + intros x s. rewrite Hmem. fold (subscribers h ("shipment:" +:+ x)).
      change (subscribers {| connectedClients := ?a; roomSubscriptions := ?b;
                            rooms := ?m; emitted := ?d |} ?r)
        with (subscribers h r).
      rewrite H3. split; [tauto|]. intros Hx. split; [exact Hx|].
      intros ->. destruct (H2 _ _ Hx) as (c' & sid & Hc' & _). congruence.
    + intros r x. rewrite Hmem. intros [Hx _]. apply (H4 r x Hx).
Qed.

(** Every reachable hub satisfies [hub_inv]. *)
Lemma reachable_hub_inv (h : hub) : reachable h -> hub_inv h.
Proof.
  induction 1.
  - unfold hub_inv, subscribers, members, Scene.empty_hub.
    cbn [roomSubscriptions rooms connectedClients].
    repeat split; intros *; rewrite ?lookup_empty; cbn [default];
      try discriminate; set_solver.
  - now apply hub_inv_connection.
  - now apply hub_inv_authenticate.
  - now apply hub_inv_subscribe_shipment.
  - now apply hub_inv_unsubscribe.
  - now apply hub_inv_subscribe_customer.
  - eapply hub_inv_same_maps; [apply same_maps_emit | assumption].
  - now apply hub_inv_disconnect.
  - eapply hub_inv_same_maps; [apply same_maps_broadcast | assumption].
  - eapply hub_inv_same_maps; [apply same_maps_tick | assumption].
Qed.

End Hub.
Section HubProperties.

Import RealTimeTrackingService.

#[local] Set Warnings "-clear-no-such-hyp".

Lemma substring_all (s : string) : String.substring 0 (String.length s) s = s.
Proof. induction s as [|a s IH]; [reflexivity|]. cbn. now rewrite IH. Qed.

Lemma shipment_room_id (x : string) :
  String.substring 9 (String.length ("shipment:" +:+ x) - 9) ("shipment:" +:+ x) = x.
Proof.
  change (String.substring 0 (String.length x - 0) x = x).
  rewrite Nat.sub_0_r. apply substring_all.
Qed.

Lemma shipment_room_prefix (x : string) :
  String.prefix "shipment:" ("shipment:" +:+ x) = true.
Proof. now destruct x. Qed.

(** The shipments that a tick polls, in a hub that satisfies
    [hub_inv]. *)
Lemma activeShipments_subscribers (h : hub) (id : string) :
  hub_inv h ->
  In id (activeShipments h) <-> exists socket, socket ∈ subscribers h ("shipment:" +:+ id).
Proof.
  intros (H1 & H2 & _). unfold activeShipments.
  rewrite <- list_elem_of_In, list_elem_of_omap. split.
  - intros ([room cl] & Hin & Hf). apply elem_of_map_to_list in Hin.
    destruct (String.prefix "shipment:" room && (0 <? size cl)%nat) eqn:E;
      [|discriminate].
    injection Hf as <-. apply andb_true_iff in E. destruct E as [_ E].
    apply Nat.ltb_lt, size_pos_elem_of in E. destruct E as [socket Hs].
    assert (Hsub : socket ∈ subscribers h room).
    { unfold subscribers. now rewrite Hin. }
    destruct (H2 room socket Hsub) as (c & sid & _ & _ & ->).
    rewrite shipment_room_id. now exists socket.
  - intros [socket Hs]. unfold subscribers in Hs.
    destruct (roomSubscriptions h !! ("shipment:" +:+ id)) as [cl|] eqn:E;
      [|cbn [default] in Hs; set_solver].
    cbn [default] in Hs. exists ("shipment:" +:+ id, cl).
    split; [now apply elem_of_map_to_list|].
    rewrite shipment_room_prefix, shipment_room_id.
    assert (0 < size cl)%nat as Hpos.
    { destruct (size cl) eqn:Hz; [|lia]. apply size_empty_iff in Hz. set_solver. }
    apply Nat.ltb_lt in Hpos. now rewrite Hpos.
Qed.

(** X8: in every state that the hub reaches, the shipments that a tick of
    [processPeriodicUpdates] polls are exactly those whose room has a
    socket in it, and each of them is among the subscriptions of a client
    that is connected and has authenticated; a shipment whose last watcher
    has unsubscribed or disconnected is polled no more. *)
Theorem polled_shipments_are_watched (h : hub) (id : string) :
  reachable h ->
  (In id (activeShipments h)
   <-> exists socket, socket ∈ members h ("shipment:" +:+ id))
  /\ (In id (activeShipments h) ->
      exists socket c sid,
        connectedClients h !! socket = Some c
        /\ authenticated c = true
        /\ sid ∈ subscriptions c
        /\ template sid = id).
Proof.
  intros Hr. apply reachable_hub_inv in Hr.
  pose proof (activeShipments_subscribers h id Hr) as Ha.
  destruct Hr as (H1 & H2 & H3 & H4). split.
  - rewrite Ha. split; intros [socket Hs]; exists socket; now apply H3.
  - intros Hin. apply Ha in Hin. destruct Hin as [socket Hs].
    destruct (H2 _ _ Hs) as (c & sid & Hc & Hsid & Hroom).
    apply H3, H4 in Hs. destruct Hs as (c' & Hc' & Hauth).
    exists socket, c, sid. split; [exact Hc|]. split; [congruence|].
    split; [exact Hsid|]. symmetry. now apply shipment_room_inj.
Qed.

(** The hub of scenario S4 is reachable, and S1, which client A watches,
    is polled. *)
Lemma polled_shipments_are_watched_S4 :
  (In "S1" (activeShipments Scene.hub_S4)
   <-> exists socket, socket ∈ members Scene.hub_S4 ("shipment:" +:+ "S1"))
  /\ (In "S1" (activeShipments Scene.hub_S4) ->
      exists socket c sid,
        connectedClients Scene.hub_S4 !! socket = Some c
        /\ authenticated c = true
        /\ sid ∈ subscriptions c
        /\ template sid = "S1").
Proof.
  apply (polled_shipments_are_watched Scene.hub_S4 "S1").
  unfold Scene.hub_S4, Scene.signed_in. cbv zeta.
  apply reach_subscribe_customer, reach_subscribe_shipment, reach_authenticate,
    reach_connection; [|vm_compute; reflexivity].
  apply reach_authenticate, reach_connection; [|vm_compute; reflexivity].
  apply reach_start.
Defined.

(** X9: in every state that the hub reaches, a broadcast of a tracking
    event delivers something only to sockets that are connected and have
    authenticated. *)
Theorem broadcast_reaches_only_authenticated (en : env) (h : hub)
    (e : tracking_event) (sh : shipment) (socket : string) :
  reachable h ->
  inbox (broadcastTrackingEvent en h e sh) socket <> inbox h socket ->
  exists c, connectedClients h !! socket = Some c /\ authenticated c = true.
Proof.
  intros Hr Hneq. apply reachable_hub_inv in Hr. destruct Hr as (_ & _ & _ & H4).
  destruct (decide (socket ∈ members h ("shipment:" +:+ te_shipment_id e)))
    as [Hs|Hs]; [now apply (H4 _ _ Hs)|].
  destruct (decide (socket ∈ members h ("customer:" +:+ customer_id sh)))
    as [Hc|Hc]; [now apply (H4 _ _ Hc)|].
  exfalso. apply Hneq. unfold broadcastTrackingEvent, inbox.
  destruct (flagged e); cbn [emit emitted]; rewrite !omap_app;
    cbn [omap list_omap delivered];
    rewrite !bool_decide_eq_false_2 by assumption;
    now rewrite !app_nil_r.
Qed.

(** Client A of scenario S4 receives the arrival at HKG. *)
Lemma broadcast_reaches_only_authenticated_S4 :
  exists c, connectedClients Scene.hub_S4 !! "sock-A" = Some c /\ authenticated c = true.
Proof.
  apply (broadcast_reaches_only_authenticated (Seed.en Seed.t_0806_0800) Scene.hub_S4
           (stored_row Seed.t_0806_0800
              (mkEvent "evt-1" "S1" "FLIGHT_ARRIVED" "FLIGHT_ARRIVED" MILESTONE
                 (Some "HKG") None None None Seed.t_0806_0800 "UTC" None true false
                 false "INFO" (Some "src-manual") None None None None None None None
                 false false true None None None None))
           Seed.S1 "sock-A").
  - unfold Scene.hub_S4, Scene.signed_in. cbv zeta.
    apply reach_subscribe_customer, reach_subscribe_shipment, reach_authenticate,
      reach_connection; [|vm_compute; reflexivity].
    apply reach_authenticate, reach_connection; [|vm_compute; reflexivity].
    apply reach_start.
  - intros H. apply (f_equal length) in H. vm_compute in H. discriminate H.
Defined.

(** X10: once a connected socket has unsubscribed from a shipment, a
    broadcast of an event of that shipment hands it neither a
    [tracking_event] nor a [critical_update]. *)
Theorem unsubscribed_socket_is_left_out (en en' : env) (h : hub) (socket : string)
    (shipmentId : option string) (e : tracking_event) (sh : shipment) :
  is_Some (connectedClients h !! socket) ->
  te_shipment_id e = template shipmentId ->
  let h1 := handleShipmentUnsubscription en h socket shipmentId in
  exists new,
    inbox (broadcastTrackingEvent en' h1 e sh) socket = inbox h1 socket ++ new
    /\ of_type "tracking_event" new = []
    /\ of_type "critical_update" new = [].
Proof.
  intros [c Hc] Hid h1.
  assert (Hout : socket ∉ members h1 ("shipment:" +:+ te_shipment_id e)).
  { unfold h1, handleShipmentUnsubscription. rewrite Hc, Hid.
    rewrite (members_rooms (leave socket ("shipment:" +:+ template shipmentId) h))
      by reflexivity.
    rewrite elem_of_members_leave. tauto. }
  unfold broadcastTrackingEvent, inbox.
  destruct (flagged e); cbn [emit emitted]; rewrite !omap_app;
    cbn [omap list_omap delivered];
    rewrite !(bool_decide_eq_false_2 _ Hout);
    rewrite <- ?app_assoc; eexists; (split; [reflexivity|]);
    destruct (bool_decide _); split; reflexivity.
Qed.

(** Client A of scenario S4 unsubscribes from S1 and is left out of the
    broadcast of the arrival. *)
Lemma unsubscribed_socket_is_left_out_S4 :
  let h1 := handleShipmentUnsubscription (Seed.en Seed.t_0805_1400) Scene.hub_S4
              "sock-A" (Some "S1") in
  exists new,
    inbox (broadcastTrackingEvent (Seed.en Seed.t_0806_0800) h1
             (stored_row Seed.t_0806_0800
                (mkEvent "evt-1" "S1" "FLIGHT_ARRIVED" "FLIGHT_ARRIVED" MILESTONE
                   (Some "HKG") None None None Seed.t_0806_0800 "UTC" None true false
                   false "INFO" (Some "src-manual") None None None None None None None
                   false false true None None None None))
             Seed.S1) "sock-A"
    = inbox h1 "sock-A" ++ new
    /\ of_type "tracking_event" new = []
    /\ of_type "critical_update" new = [].
Proof.
  apply (unsubscribed_socket_is_left_out (Seed.en Seed.t_0805_1400)
           (Seed.en Seed.t_0806_0800) Scene.hub_S4 "sock-A" (Some "S1")).
  - vm_compute. eexists. reflexivity.
  - reflexivity.
Defined.

End HubProperties.
Section HubRoundTrip.

Import RealTimeTrackingService.

#[local] Set Warnings "-clear-no-such-hyp".

(** X11: in a state that the hub reaches, a socket that subscribes to a
    shipment it was not subscribed to, and then unsubscribes from the
    shipment that the answer names, leaves the clients, the bookkeeping of
    the rooms and the members of every room as they were. *)
Theorem subscribe_then_unsubscribe (en en' : env) (db : DB) (h h1 : hub)
    (socket : string) (shipmentId awbNumber actual : option string)
    (c : client_info) :
  reachable h ->
  connectedClients h !! socket = Some c ->
  resolve_shipment db c shipmentId awbNumber = inl actual ->
  actual ∉ subscriptions c ->
  socket ∉ members h ("shipment:" +:+ template actual) ->
  handleShipmentSubscription en db h socket shipmentId awbNumber = inl h1 ->
  let h2 := handleShipmentUnsubscription en' h1 socket actual in
  connectedClients h2 = connectedClients h
  /\ roomSubscriptions h2 = roomSubscriptions h
  /\ forall roomName, members h2 roomName = members h roomName.
Proof.
  intros Hr Hc Hres Hnew Hout Hsub h2.
  apply reachable_hub_inv in Hr. destruct Hr as (H1 & _ & H3 & _).
  apply handleShipmentSubscription_maps in Hsub.
  destruct Hsub as (c0 & a0 & Hc0 & Ha & Hres0 & Ec & Es & Er).
  rewrite Hc in Hc0. injection Hc0 as <-.
  rewrite Hres in Hres0. injection Hres0 as <-.
  set (room := "shipment:" +:+ template actual) in *.
  assert (Hout' : socket ∉ subscribers h room).
  { intros Hx. apply Hout. now apply H3. }
  unfold h2, handleShipmentUnsubscription.
  rewrite Ec, lookup_insert_eq. fold room.
  unfold emit. cbn [connectedClients roomSubscriptions leave subscriptions
                    userId customerId authenticated].
  split; [|split].
  - rewrite Ec, insert_insert_eq. apply insert_id. rewrite Hc. f_equal.
    destruct c as [subs u cu a]. cbn [subscriptions userId customerId authenticated] in *.
    f_equal. set_solver.
  - rewrite Es. unfold drop_subscription. rewrite lookup_insert_eq.
    assert (Hs : ({[socket]} ∪ subscribers h room) ∖ {[socket]} = subscribers h room)
      by set_solver.
    rewrite Hs. unfold subscribers in *.
    destruct (roomSubscriptions h !! room) as [cl|] eqn:E; cbn [default] in *.
    + unfold id in *. assert ((size cl =? 0)%nat = false) as ->.
      { apply Nat.eqb_neq. intros Hz. apply size_empty_iff in Hz.
        apply (H1 _ _ E). set_solver. }
      rewrite insert_insert_eq. now apply insert_id.
    + rewrite size_empty. cbn [Nat.eqb]. now apply delete_insert_id.
  - intros r.
    rewrite (members_rooms (leave socket room h1)) by reflexivity.
    apply set_eq. intros x. rewrite elem_of_members_leave.
    assert (Hm : x ∈ members h1 r <-> (r = room /\ x = socket) \/ x ∈ members h r).
    { unfold members. rewrite Er. destruct (decide (room = r)) as [<-|Hne].
      - rewrite lookup_insert_eq. cbn [default]. unfold members. set_solver.
      - rewrite lookup_insert_ne by exact Hne. naive_solver. }
    rewrite Hm. split; [|intros Hx; split; [now right|]].
    + intros [[Hx|Hx] Hn]; [contradiction|exact Hx].
    + intros [-> ->]. contradiction.
Qed.

(** Client B of scenario S4 subscribes to S1 and unsubscribes again. *)
Lemma subscribe_then_unsubscribe_S4 :
  exists h1,
    handleShipmentSubscription (Seed.en Seed.t_0805_1400) Seed.db1 Scene.hub_S4
      "sock-B" (Some "S1") None = inl h1
    /\ let h2 := handleShipmentUnsubscription (Seed.en Seed.t_0806_0800) h1 "sock-B"
                   (Some "S1") in
       connectedClients h2 = connectedClients Scene.hub_S4
       /\ roomSubscriptions h2 = roomSubscriptions Scene.hub_S4
       /\ forall roomName, members h2 roomName = members Scene.hub_S4 roomName.
Proof.
  eexists. split; [reflexivity|].
  eapply (subscribe_then_unsubscribe (Seed.en Seed.t_0805_1400)
            (Seed.en Seed.t_0806_0800) Seed.db1 Scene.hub_S4 _ "sock-B"
            (Some "S1") None (Some "S1")).
  - unfold Scene.hub_S4, Scene.signed_in. cbv zeta.
    apply reach_subscribe_customer, reach_subscribe_shipment, reach_authenticate,
      reach_connection; [|vm_compute; reflexivity].
    apply reach_authenticate, reach_connection; [|vm_compute; reflexivity].
    apply reach_start.
  - vm_compute. reflexivity.
  - reflexivity.
  - vm_compute. set_solver.
  - vm_compute. set_solver.
  - reflexivity.
Defined.

End HubRoundTrip.

(** ** Events from the OneRecord adapter *)

Lemma own_In (key : string) (table : list (string * string)) (v : string) :
  IATAOneRecordService.own key table = Some v -> In (key, v) table.
Proof.
  induction table as [|[k w] rest IH]; [discriminate|].
  cbn [IATAOneRecordService.own]. destruct (String.eqb k key) eqn:E.
  - intros [= <-]. apply String.eqb_eq in E. subst k. now left.
  - intros H. right. now apply IH.
Qed.

(** The codes of the adapter whose category the store admits. *)
Lemma admitted_codes (ty code : string) (c : Category) :
  IATAOneRecordService.own ty IATAOneRecordService.eventMapping = Some code ->
  IATAOneRecordService.admitted_category (IATAOneRecordService.mapEventCategory code)
  = Some c ->
  IATAOneRecordService.isMilestoneEvent code = false
  /\ TrackingEvent.lookup_status code TrackingEvent.statusMapping = None
  /\ (c = STATUS_UPDATE \/ c = EXCEPTION_EVENT).
Proof.
  intros H. apply own_In in H. cbn [IATAOneRecordService.eventMapping In] in H.
  repeat (destruct H as [H|H]; [injection H as _ <-; intros Hc; vm_compute in Hc;
                                 try discriminate Hc; injection Hc as <-;
                                 vm_compute; auto|]).
  destruct H.
Qed.

(** An event whose code maps to no status and that is no milestone leaves
    the status of a shipment alone or erases it. *)
Lemma createFromExternal_unmapped (en : env) (db : DB) (d : event_data)
    (src : option string) (sid : string) :
  d_is_milestone d = false ->
  TrackingEvent.lookup_status (d_event_code d) TrackingEvent.statusMapping = None ->
  match TrackingEvent.createFromExternal en db d src sid with
  | (db', Created e) =>
    forall id st,
      current_status <$> row_of db' id = Some (Some st) ->
      current_status <$> row_of db id = Some (Some st)
  | (db', _) => db' = db
  end.
Proof.
  intros Hm Hcode. unfold TrackingEvent.createFromExternal.
  destruct (TrackingEvent.checkDuplicate _ _ _ _ _); [reflexivity|].
  destruct (d_event_datetime d) as [t|]; [|reflexivity].
  intros id st. rewrite create_row.
  match goal with
  | |- context [shipment_after ?ev] => set (e := ev)
  end.
  destruct (String.eqb (te_shipment_id e) id && TrackingEvent.updates_shipment e);
    [|now destruct (row_of db id)].
  destruct (row_of db id) as [s|]; [|discriminate].
  cbn [fmap option_fmap option_map]. unfold shipment_after.
  assert (Hnew : TrackingEvent.newStatus e = None).
  { unfold TrackingEvent.newStatus. subst e. cbn [event_code]. now rewrite Hcode. }
  rewrite Hnew. now destruct (String.eqb (event_code e) "DELIVERED").
Qed.

(** X12: an event that the OneRecord adapter maps and the store admits is
    never flagged as a milestone and never has a code with a status of its
    own: the categories that the adapter gives to its milestones are not
    among those of the CHECK constraint on [event_category].  Storing such
    an event therefore never moves a shipment to a status; the status of
    every shipment stays as it was or is erased. *)
Theorem adapter_events_never_advance_status
    (ev : IATAOneRecordService.one_record_event)
    (x : IATAOneRecordService.mapped_event) (d : event_data) :
  IATAOneRecordService.mapOneRecordEventToTracking ev = Some x ->
  IATAOneRecordService.externalData x = Some d ->
  d_is_milestone d = false
  /\ TrackingEvent.lookup_status (d_event_code d) TrackingEvent.statusMapping = None
  /\ (d_event_category d = Some STATUS_UPDATE
      \/ d_event_category d = Some EXCEPTION_EVENT)
  /\ forall en db src sid,
       match TrackingEvent.createFromExternal en db d src sid with
       | (db', Created e) =>
         forall id st,
           current_status <$> row_of db' id = Some (Some st) ->
           current_status <$> row_of db id = Some (Some st)
       | (db', _) => db' = db
       end.
Proof.
  unfold IATAOneRecordService.mapOneRecordEventToTracking,
    IATAOneRecordService.mapEventTypeToCode.
  destruct (if truthy_str (IATAOneRecordService.eventType ev)
            then IATAOneRecordService.eventType ev
            else IATAOneRecordService.or_type ev) as [ty|]; [|discriminate].
  destruct (IATAOneRecordService.own ty IATAOneRecordService.eventMapping)
    as [code|] eqn:Hcode; [|discriminate].
  destruct (negb (truthy_str (Some code))); [discriminate|].
  destruct (IATAOneRecordService.or_dateTime ev) as [t|]; [|discriminate].
  intros [= <-]. unfold IATAOneRecordService.externalData.
  cbn [IATAOneRecordService.x_event_category].
  destruct (IATAOneRecordService.admitted_category _) as [c|] eqn:Hc; [|discriminate].
  intros [= <-].
  destruct (admitted_codes ty code c Hcode Hc) as (Hm & Hs & Hcat).
  cbn [d_is_milestone d_event_code d_event_category
       IATAOneRecordService.x_is_milestone IATAOneRecordService.x_event_code].
  split; [exact Hm|]. split; [exact Hs|].
  split; [destruct Hcat as [->| ->]; auto|].
  intros en db src sid. now apply createFromExternal_unmapped.
Qed.

(** A Storage event is admitted, with the code ARRIVED_WAREHOUSE. *)
Lemma adapter_events_never_advance_status_storage :
  exists d,
    IATAOneRecordService.externalData
    <$> IATAOneRecordService.mapOneRecordEventToTracking
          (one_record "Storage" Seed.t_0806_0800)
    = Some (Some d)
    /\ d_event_code d = "ARRIVED_WAREHOUSE"
    /\ d_is_milestone d = false
    /\ TrackingEvent.lookup_status (d_event_code d) TrackingEvent.statusMapping = None.
Proof.
  eexists. split; [reflexivity|]. split; [reflexivity|].
  match goal with
  | |- d_is_milestone ?d = _ /\ _ =>
    destruct (adapter_events_never_advance_status
                (one_record "Storage" Seed.t_0806_0800) _ d eq_refl eq_refl)
      as (Hm & Hs & _)
  end.
  split; assumption.
Defined.

(** ** A new shipment *)

Lemma row_of_app_new (db : DB) (l : list shipment) (sid : string) :
  row_of {| shipments := shipments db ++ l;
            tracking_events := tracking_events db;
            tracking_subscriptions := tracking_subscriptions db;
            notifications := notifications db |} sid
  = match row_of db sid with
    | Some r => Some r
    | None => head (List.filter (fun s => String.eqb (shipment_id s) sid) l)
    end.
Proof.
  unfold row_of. cbn [shipments]. rewrite List.filter_app.
  now destruct (List.filter _ (shipments db)).
Qed.

Lemma existsb_false_row_of (db : DB) (this : shipment) :
  existsb (fun s => String.eqb (shipment_id s) (shipment_id this)
                    || String.eqb (awb_number s) (awb_number this))
    (shipments db) = false ->
  row_of db (shipment_id this) = None.
Proof.
  intros H. unfold row_of.
  destruct (List.filter _ (shipments db)) as [|r l] eqn:E; [reflexivity|].
  assert (Hin : In r (List.filter
                        (fun s => String.eqb (shipment_id s) (shipment_id this))
                        (shipments db))) by (rewrite E; now left).
  apply filter_In in Hin. destruct Hin as [Hin Hid].
  assert (Hex : existsb (fun s => String.eqb (shipment_id s) (shipment_id this)
                                  || String.eqb (awb_number s) (awb_number this))
                  (shipments db) = true).
  { apply existsb_exists. exists r. split; [exact Hin|]. now rewrite Hid. }
  congruence.
Qed.

(** X13: when [create()] of a shipment succeeds, the shipment is stored
    with status CREATED and its origin airport as location, whatever
    status and location it was given, and with the time of creation as
    [last_tracked_at]; one SHIPMENT_CREATED milestone is stored for it,
    the rows of the other shipments stay as they were, and the shipment is
    due for an automatic update exactly when tracking is enabled and more
    than its tracking frequency has passed since the creation. *)
Theorem created_shipment_starts_as_created (en : env) (db db' : DB) (this : shipment) :
  NewShipment.create en db this = Some db' ->
  (exists row,
     row_of db' (shipment_id this) = Some row
     /\ awb_number row = awb_number this
     /\ customer_id row = customer_id this
     /\ current_status row = Some CREATED
     /\ current_location row = Some (origin_airport this)
     /\ last_tracked_at row = Some (now en)
     /\ delivery_date row = delivery_date this
     /\ forall sysdate,
          TrackingService.due sysdate row
          = tracking_enabled this
            && (now en + tracking_frequency_minutes this * 60 * 1000 <? sysdate))
  /\ (forall sid, sid <> shipment_id this -> row_of db' sid = row_of db sid)
  /\ exists e,
       tracking_events db' = tracking_events db ++ [e]
       /\ te_shipment_id e = shipment_id this
       /\ event_code e = "SHIPMENT_CREATED"
       /\ is_milestone e = true
       /\ customer_visible e = true
       /\ event_datetime e = now en.
Proof.
  unfold NewShipment.create.
  destruct (existsb _ (shipments db)) eqn:Hfree; [discriminate|].
  intros [= <-]. apply existsb_false_row_of in Hfree.
  unfold NewShipment.createInitialTrackingEvent. cbn [fst].
  split; [|split].
  - rewrite create_row, row_of_app_new, Hfree.
    cbn [List.filter NewShipment.inserted_row shipment_id head te_shipment_id].
    rewrite String.eqb_refl. cbn [head fmap option_fmap option_map andb].
    match goal with
    | |- exists row, Some ?r = Some row /\ _ => exists r
    end.
    split; [reflexivity|].
    cbn. repeat (split; [reflexivity|]). intros sysdate.
    unfold TrackingService.due.
    cbn [tracking_enabled current_status last_tracked_at tracking_frequency_minutes
         set_status_location_tracked NewShipment.inserted_row
         TrackingService.status_not_terminal].
    destruct (tracking_enabled this); cbn [andb]; [|reflexivity].
    destruct (Z.ltb_spec (now en) (sysdate - tracking_frequency_minutes this * 60 * 1000));
      destruct (Z.ltb_spec (now en + tracking_frequency_minutes this * 60 * 1000) sysdate);
      (reflexivity || lia).
  - intros sid Hne. rewrite create_row, row_of_app_new.
    cbn [te_shipment_id List.filter NewShipment.inserted_row shipment_id].
    assert (String.eqb (shipment_id this) sid = false) as ->
      by (apply String.eqb_neq; congruence).
    cbn [andb head]. now destruct (row_of db sid).
  - eexists. rewrite create_events. cbn [tracking_events].
    split; [reflexivity|]. repeat split; reflexivity.
Qed.

(** Shipment S2, given as booked at Kowloon, is created beside S1. *)
Lemma created_shipment_starts_as_created_S2 :
  exists db',
    NewShipment.create (Seed.en Seed.t_0806_0800) Seed.db1 S2 = Some db'
    /\ exists row,
         row_of db' "S2" = Some row
         /\ current_status row = Some CREATED
         /\ current_location row = Some "HKG".
Proof.
  eexists. split; [reflexivity|].
  destruct (created_shipment_starts_as_created (Seed.en Seed.t_0806_0800) Seed.db1 _ S2
              eq_refl) as ((row & Hrow & _ & _ & Hst & Hloc & _) & _).
  exists row. repeat split; assumption.
Defined.

(** ** Who is notified *)

Section Owners.

Lemma row_of_id (db : DB) (sid : string) (row : shipment) :
  row_of db sid = Some row -> shipment_id row = sid.
Proof.
  unfold row_of. intros H.
  destruct (List.filter _ (shipments db)) as [|r l] eqn:E; [discriminate|].
  injection H as ->.
  assert (Hin : In row (List.filter (fun s => String.eqb (shipment_id s) sid)
                          (shipments db))) by (rewrite E; now left).
  apply filter_In in Hin. now apply String.eqb_eq.
Qed.

Lemma events_kept_refl (db : DB) : events_kept db db.
Proof. intros e He. now exists e. Qed.

Lemma events_kept_app (db db' : DB) (more : list tracking_event) :
  tracking_events db' = tracking_events db ++ more -> events_kept db db'.
Proof.
  intros H e He. exists e. rewrite H. split; [|split; reflexivity].
  apply in_or_app. now left.
Qed.

Lemma events_kept_eq (db db' : DB) :
  tracking_events db' = tracking_events db -> events_kept db db'.
Proof. intros H e He. exists e. rewrite H. auto. Qed.

Lemma grows_refl (db : DB) : grows db db.
Proof.
  split; [now intros sid c|]. split; [apply events_kept_refl|].
  split; [auto|]. split; auto.
Qed.

Lemma grows_trans (db1 db2 db3 : DB) : grows db1 db2 -> grows db2 db3 -> grows db1 db3.
Proof.
  intros (O1 & E1 & S1 & N1 & C1) (O2 & E2 & S2 & N2 & C2).
  split; [|split; [|split; [|split]]].
  - intros sid c H. now apply O2, O1.
  - intros e He. destruct (E1 e He) as (e1 & He1 & Hid1 & Hs1).
    destruct (E2 e1 He1) as (e2 & He2 & Hid2 & Hs2).
    exists e2. split; [exact He2|]. split; congruence.
  - intros sub H. now apply S2, S1.
  - intros sub H. destruct (N2 sub H) as [H2|H2]; [|now right].
    destruct (N1 sub H2) as [H1|H1]; [now left|right].
    unfold owned in *. now apply O2.
  - intros sub eid H. destruct (C2 sub eid H) as [H2|H2]; [|now right].
    destruct (C1 sub eid H2) as [H1|[Hs (e & He & Hid & Hsh)]]; [now left|right].
    split; [now apply S2|].
    destruct (E2 e He) as (e2 & He2 & Hid2 & Hs2).
    exists e2. split; [exact He2|]. split; congruence.
Qed.

(** A step that leaves the subscriptions and the log alone. *)
Lemma grows_quiet (db db' : DB) :
  owner_kept db db' ->
  events_kept db db' ->
  tracking_subscriptions db' = tracking_subscriptions db ->
  notifications db' = notifications db ->
  grows db db'.
Proof.
  intros Ho He Hs Hn. split; [exact Ho|]. split; [exact He|].
  rewrite Hs, Hn. split; [auto|]. split; auto.
Qed.

Lemma owner_kept_update_shipments (id : string) (f : shipment -> shipment) (db : DB) :
  (forall s, shipment_id (f s) = shipment_id s) ->
  (forall s, customer_id (f s) = customer_id s) ->
  owner_kept db (update_shipments id f db).
Proof.
  intros Hid Hc sid c. rewrite update_shipments_row by exact Hid.
  destruct (row_of db sid) as [s|]; [|discriminate].
  cbn [fmap option_fmap option_map].
  destruct (String.eqb id sid); [now rewrite Hc|auto].
Qed.

Lemma grows_update_shipments (id : string) (f : shipment -> shipment) (db : DB) :
  (forall s, shipment_id (f s) = shipment_id s) ->
  (forall s, customer_id (f s) = customer_id s) ->
  grows db (update_shipments id f db).
Proof.
  intros Hid Hc. apply grows_quiet; try reflexivity.
  - now apply owner_kept_update_shipments.
  - now apply events_kept_eq.
Qed.

Lemma owner_kept_create (en : env) (db : DB) (e : tracking_event) :
  owner_kept db (TrackingEvent.create en db e).
Proof.
  intros sid c. rewrite create_row.
  destruct (row_of db sid) as [s|]; [|discriminate].
  cbn [fmap option_fmap option_map].
  destruct (String.eqb (te_shipment_id e) sid && TrackingEvent.updates_shipment e);
    [|auto].
  unfold shipment_after. now destruct (String.eqb (event_code e) "DELIVERED").
Qed.

Lemma create_rest (en : env) (db : DB) (e : tracking_event) :
  tracking_subscriptions (TrackingEvent.create en db e) = tracking_subscriptions db
  /\ notifications (TrackingEvent.create en db e) = notifications db.
Proof.
  unfold TrackingEvent.create, TrackingEvent.updateShipmentStatus.
  destruct (TrackingEvent.updates_shipment e); [|now split].
  destruct (String.eqb (event_code e) "DELIVERED"); now split.
Qed.

Lemma grows_create (en : env) (db : DB) (e : tracking_event) :
  grows db (TrackingEvent.create en db e).
Proof.
  destruct (create_rest en db e) as [Hs Hn].
  apply grows_quiet; [apply owner_kept_create | | exact Hs | exact Hn].
  eapply events_kept_app. apply create_events.
Qed.

Lemma grows_createFromExternal (en : env) (db : DB) (d : event_data)
    (src : option string) (sid : string) :
  grows db (TrackingEvent.createFromExternal en db d src sid).1.
Proof.
  destruct (createFromExternal_cases en db d src sid)
    as [[-> _] | [[-> _] | (e & t & -> & _)]];
    [apply grows_refl | apply grows_refl | apply grows_create].
Qed.

Lemma grows_create_all (en : env) (src sid : string) (l : list event_data) (db : DB) :
  grows db (TrackingService.create_all en db src sid l).1.
Proof.
  revert db. induction l as [|d l IH]; intros db; [apply grows_refl|].
  cbn [TrackingService.create_all].
  pose proof (grows_createFromExternal en db d (Some src) sid) as Hg.
  destruct (TrackingEvent.createFromExternal en db d (Some src) sid) as [db1 o].
  cbn [fst] in Hg. specialize (IH db1).
  destruct o; destruct (TrackingService.create_all en db1 src sid l) as [db2 es];
    cbn [fst] in *; eapply grows_trans; eassumption.
Qed.

Lemma grows_refresh (up : upstream) (en : env) (db : DB) (awbNumber : string)
    (sourceType : source_type) :
  grows db (TrackingService.updateTrackingFromExternal up en db awbNumber sourceType).1.
Proof.
  unfold TrackingService.updateTrackingFromExternal.
  destruct (Shipment.findByAwb db awbNumber) as [sh|]; [|apply grows_refl].
  destruct (negb (tracking_enabled sh)); [apply grows_refl|].
  match goal with
  | |- context [match ?f with Some _ => _ | None => _ end] =>
    destruct f as [l|]; [|apply grows_refl]
  end.
  pose proof (grows_create_all en (TrackingService.getSourceId sourceType)
                (shipment_id sh) l db) as Hg.
  destruct (TrackingService.create_all en db _ _ l) as [db1 es]. cbn [fst] in *.
  eapply grows_trans; [exact Hg|]. now apply grows_update_shipments.
Qed.

Lemma grows_tick (up : upstream) (en : env) (db : DB) :
  grows db (TrackingService.processAutomaticUpdates up en db).1.
Proof.
  unfold TrackingService.processAutomaticUpdates.
  generalize (TrackingService.getShipmentsForUpdate db (now en)). intros rows.
  revert db. induction rows as [|r rows IH]; intros db; [apply grows_refl|].
  cbn [TrackingService.update_each].
  pose proof (grows_refresh up en db (awb_number r) IATA_ONERECORD) as Hg.
  destruct (TrackingService.updateTrackingFromExternal up en db (awb_number r)
              IATA_ONERECORD) as [db1 res].
  cbn [fst] in Hg. specialize (IH db1).
  destruct (TrackingService.update_each up en db1 rows) as [db2 out].
  cbn [fst] in *. eapply grows_trans; eassumption.
Qed.

Lemma grows_create_shipment (en : env) (db db' : DB) (this : shipment) :
  NewShipment.create en db this = Some db' -> grows db db'.
Proof.
  unfold NewShipment.create.
  destruct (existsb _ (shipments db)) eqn:Hfree; [discriminate|].
  intros [= <-]. apply existsb_false_row_of in Hfree.
  unfold NewShipment.createInitialTrackingEvent. cbn [fst].
  match goal with
  | |- grows _ (TrackingEvent.create en ?d ?ev) =>
    set (db1 := d); set (e := ev);
      destruct (create_rest en db1 e) as [Hs Hn];
      pose proof (create_events en db1 e) as He
  end.
  apply grows_quiet; [| eapply events_kept_app; exact He | exact Hs | exact Hn].
  intros sid c Hc. apply owner_kept_create. unfold db1.
  rewrite row_of_app_new. now destruct (row_of db sid).
Qed.

Lemma grows_subscribe (db : DB) (shipmentId customerId : string)
    (settings : TrackingService.notification_settings) (subscriptionId : string) :
  grows db (TrackingService.subscribeToTracking db shipmentId customerId settings
              subscriptionId).1.
Proof.
  unfold TrackingService.subscribeToTracking. rewrite findById_row_of.
  destruct (row_of db shipmentId) as [row|] eqn:Hrow; [|apply grows_refl].
  cbn [fmap option_fmap option_map].
  destruct (negb (String.eqb (customer_id (Shipment.new row)) customerId)) eqn:Hown;
    [apply grows_refl|].
  destruct (_ || _); [apply grows_refl|]. cbn [fst].
  apply negb_false_iff, String.eqb_eq in Hown.
  split; [now intros sid c|]. split; [now apply events_kept_eq|].
  cbn [tracking_subscriptions notifications].
  split; [|split].
  - intros sub H. apply in_or_app. now left.
  - intros sub H. apply in_app_or in H. destruct H as [H|[<-|[]]]; [now left|right].
    unfold owned. cbn [ts_shipment_id ts_customer_id].
    change (row_of {| shipments := shipments db; tracking_events := ?a;
                      tracking_subscriptions := ?b; notifications := ?c |} ?s)
      with (row_of db s).
    rewrite Hrow. cbn [fmap option_fmap option_map]. f_equal. exact Hown.
  - auto.
Qed.

Lemma grows_createTrackingEvent (en : env) (db : DB) (shipmentId : string)
    (d : event_data) (sourceId : option string) :
  grows db (TrackingService.createTrackingEvent en db shipmentId d sourceId).1.
Proof.
  unfold TrackingService.createTrackingEvent. rewrite findById_row_of.
  destruct (row_of db shipmentId) as [row|] eqn:Hrow; [|apply grows_refl].
  cbn [fmap option_fmap option_map].
  destruct (TrackingEvent.checkDuplicate _ _ _ _ _); [apply grows_refl|].
  match goal with
  | |- context [TrackingEvent.create en db ?ev] => set (e := ev)
  end.
  destruct (TrackingService.notifiable e); cbn [fst]; [|apply grows_create].
  destruct (create_rest en db e) as [Hs Hn].
  pose proof (create_events en db e) as He.
  unfold TrackingService.sendTrackingNotifications, TrackingEvent.markNotificationSent.
  cbn [shipments tracking_events tracking_subscriptions notifications].
  assert (Hmark : forall x,
            In x (tracking_events (TrackingEvent.create en db e)) ->
            exists x',
              In x' (List.map
                       (fun e0 => if String.eqb (event_id e0) (event_id e)
                                  then mark_sent e0 else e0)
                       (tracking_events (TrackingEvent.create en db e)))
              /\ event_id x' = event_id x /\ te_shipment_id x' = te_shipment_id x).
  { intros x Hx. eexists. split; [apply in_map; exact Hx|].
    destruct (String.eqb (event_id x) (event_id e)); split; reflexivity. }
  split; [|split; [|split; [|split]]].
  - intros sid c Hc. apply (owner_kept_create en db e) in Hc. exact Hc.
  - intros x Hx. apply Hmark. rewrite He. apply in_or_app. now left.
  - intros sub H. now rewrite Hs.
  - intros sub H. left. now rewrite Hs in H.
  - intros sub eid H. rewrite Hn in H. apply in_app_or in H.
    destruct H as [H|H]; [now left|right].
    apply in_map_iff in H. destruct H as (sub' & [= -> <-] & Hsel).
    apply filter_In in Hsel. destruct Hsel as [Hin Hsel].
    rewrite Hs in Hin. split; [now rewrite Hs|].
    unfold TrackingService.subscription_selected in Hsel.
    apply andb_true_iff in Hsel. destruct Hsel as [Hsel _].
    apply andb_true_iff in Hsel. destruct Hsel as [Hsel _].
    apply String.eqb_eq in Hsel.
    destruct (Hmark (stored_row (now en) e)) as (x' & Hx' & Hid & Hsh).
    { rewrite He. apply in_or_app. right. now left. }
    exists x'. split; [exact Hx'|]. split; [exact Hid|].
    rewrite Hsh, Hsel. cbn [stored_row te_shipment_id Shipment.new shipment_id].
    symmetry. now apply (row_of_id db).
Qed.

(** X14: in every store that the services build, each subscription is
    held by the customer of the shipment it names, and each call of the
    notification service was for such a subscription and about an event of
    the shipment it names: nobody is notified about a shipment of another
    customer. *)
Theorem notified_subscribers_own_the_shipment (db : DB) :
  store_reachable db ->
  (forall sub, In sub (tracking_subscriptions db) -> owned db sub)
  /\ (forall sub eventId,
        In (sub, eventId) (notifications db) ->
        owned db sub /\ about db sub eventId).
Proof.
  assert (Hstep : forall db0 db1,
            grows db0 db1 ->
            ((forall sub, In sub (tracking_subscriptions db0) -> owned db0 sub)
             /\ (forall sub eventId,
                   In (sub, eventId) (notifications db0) ->
                   owned db0 sub /\ about db0 sub eventId)) ->
            (forall sub, In sub (tracking_subscriptions db1) -> owned db1 sub)
            /\ (forall sub eventId,
                  In (sub, eventId) (notifications db1) ->
                  owned db1 sub /\ about db1 sub eventId)).
  { intros db0 db1 (Ho & He & Hs & Hn & Hc) [I1 I2].
    assert (J1 : forall sub, In sub (tracking_subscriptions db1) -> owned db1 sub).
    { intros sub H. destruct (Hn sub H) as [H0|H0]; [|exact H0].
      unfold owned. apply Ho. now apply I1. }
    split; [exact J1|]. intros sub eid H.
    destruct (Hc sub eid H) as [H0|[H0 H1]]; [|split; [now apply J1|exact H1]].
    destruct (I2 sub eid H0) as [Hown (e & Hin & Hid & Hsh)].
    split; [unfold owned; now apply Ho|].
    destruct (He e Hin) as (e' & Hin' & Hid' & Hsh').
    exists e'. split; [exact Hin'|]. split; congruence. }
  induction 1.
  - split; [intros sub []|intros sub eid []].
  - eapply Hstep; [eapply grows_create_shipment; eassumption | assumption].
  - eapply Hstep; [|eassumption]. now apply grows_update_shipments.
  - eapply Hstep; [|eassumption]. now apply grows_update_shipments.
  - eapply Hstep; [|eassumption]. now apply grows_update_shipments.
  - eapply Hstep; [apply grows_subscribe | assumption].
  - eapply Hstep; [apply grows_createTrackingEvent | assumption].
  - eapply Hstep; [apply grows_refresh | assumption].
  - eapply Hstep; [apply grows_tick | assumption].
Qed.

End Owners.

(** The store [db_built] is reachable; its one notification went to the
    subscription of c-1, the customer of S1. *)
Lemma notified_subscribers_own_the_shipment_built :
  (forall sub, In sub (tracking_subscriptions db_built) -> owned db_built sub)
  /\ (forall sub eventId,
        In (sub, eventId) (notifications db_built) ->
        owned db_built sub /\ about db_built sub eventId).
Proof.
  apply (notified_subscribers_own_the_shipment db_built).
  unfold db_built. apply store_createTrackingEvent, store_subscribe.
  apply (store_create_shipment (Seed.en Seed.t_0805_1000) empty_store Seed.S1);
    [apply store_empty | reflexivity].
Defined.

(** ** The public endpoint *)

(** X15: whatever its query parameters say, the public endpoint answers
    only for an AWB of the form XXX-XXXXXXXX, and what it shows of the
    history and as the latest event comes from customer-visible events of
    the shipment with that AWB: asking for internal events shows none. *)
Theorem public_endpoint_shows_visible_events (db : DB) (awbNumber : string)
    (include_history include_internal : option string)
    (info : TrackingController.public_tracking_info) :
  TrackingController.getTrackingByAwb db awbNumber include_history include_internal
  = TrackingController.Ok info ->
  awbPattern awbNumber = true
  /\ TrackingController.p_awb_number info = awbNumber
  /\ exists sh,
       row_by_awb db awbNumber = Some sh
       /\ (forall evs pe,
             TrackingController.p_tracking_events info = Some evs ->
             In pe evs ->
             exists e,
               In e (tracking_events db)
               /\ te_shipment_id e = shipment_id sh
               /\ customer_visible e = true
               /\ pe = TrackingController.shown e)
       /\ (forall pe,
             TrackingController.p_latest_event info = Some pe ->
             exists e,
               In e (tracking_events db)
               /\ te_shipment_id e = shipment_id sh
               /\ customer_visible e = true
               /\ pe = TrackingController.shown_latest e).
Proof.
  unfold TrackingController.getTrackingByAwb.
  destruct (negb (truthy_str (Some awbNumber)) || negb (awbPattern awbNumber)) eqn:Hbad;
    [discriminate|].
  apply orb_false_iff in Hbad. destruct Hbad as [_ Hpat].
  apply negb_false_iff in Hpat.
  unfold TrackingService.getTrackingByAwb. rewrite findByAwb_row_by_awb.
  destruct (row_by_awb db awbNumber) as [row|] eqn:Hrow; [|discriminate].
  cbn [fmap option_fmap option_map truthy_str andb].
  intros [= <-].
  cbn [TrackingController.p_awb_number TrackingController.p_tracking_events
       TrackingController.p_latest_event TrackingService.ti_shipment
       TrackingService.ti_history].
  split; [exact Hpat|]. split.
  { unfold row_by_awb in Hrow.
    destruct (List.filter _ (shipments db)) as [|r l] eqn:E; [discriminate|].
    injection Hrow as ->.
    assert (Hin : In row (List.filter (fun s => String.eqb (awb_number s) awbNumber)
                            (shipments db))) by (rewrite E; now left).
    apply filter_In in Hin. destruct Hin as [_ Hin]. now apply String.eqb_eq. }
  exists row. split; [reflexivity|]. split.
  - intros evs pe.
    destruct (String.eqb (default "true" include_history) "true"); [|discriminate].
    intros [= <-] Hin. apply in_map_iff in Hin. destruct Hin as (e & <- & Hin).
    apply filter_In in Hin. destruct Hin as [Hin Hvis].
    unfold Shipment.getTrackingHistory in Hin.
    apply In_take, list_elem_of_In in Hin. rewrite merge_sort_Permutation in Hin.
    apply list_elem_of_In, filter_In in Hin. destruct Hin as [Hin Hh].
    unfold Shipment.in_history in Hh.
    apply andb_true_iff in Hh. destruct Hh as [Hh _].
    apply andb_true_iff in Hh. destruct Hh as [Hh _].
    apply String.eqb_eq in Hh. exists e. auto.
  - intros pe.
    destruct (String.eqb (default "true" include_history) "true"); [|discriminate].
    pose proof (getLatestTrackingEvent_cases db (Shipment.new row)) as Hl.
    cbv zeta in Hl.
    destruct (Shipment.getLatestTrackingEvent db (Shipment.new row)) as [e|];
      [|discriminate].
    intros [= <-]. destruct Hl as [Hin _]. apply filter_In in Hin.
    destruct Hin as [Hin Hp]. apply andb_true_iff in Hp. destruct Hp as [Hid Hvis].
    apply String.eqb_eq in Hid. exists e. auto.
Qed.

(** The public answer for S1 after scenario S1, with internal events
    asked for. *)
Lemma public_endpoint_shows_visible_events_S1 :
  exists info,
    TrackingController.getTrackingByAwb Seed.db1 "125-12345678" None (Some "true")
    = TrackingController.Ok info
    /\ awbPattern "125-12345678" = true
    /\ TrackingController.p_awb_number info = "125-12345678".
Proof.
  eexists. split; [reflexivity|].
  match goal with
  | |- _ /\ TrackingController.p_awb_number ?i = _ =>
    destruct (public_endpoint_shows_visible_events Seed.db1 "125-12345678" None
                (Some "true") i eq_refl) as (Hp & Ha & _)
  end.
  split; assumption.
Defined.

(** ** Typing an AWB *)

Section Awb.

Lemma filter_digits_all (l : list Ascii.ascii) :
  forallb is_digit l = true -> List.filter is_digit l = l.
Proof.
  induction l as [|a l IH]; [reflexivity|]. cbn [forallb List.filter].
  intros H. apply andb_true_iff in H. destruct H as [Ha Hl].
  rewrite Ha. f_equal. now apply IH.
Qed.

Lemma forallb_filter_digits (l : list Ascii.ascii) :
  forallb is_digit (List.filter is_digit l) = true.
Proof.
  induction l as [|a l IH]; [reflexivity|]. cbn [List.filter].
  destruct (is_digit a) eqn:E; [|exact IH]. cbn [forallb]. now rewrite E.
Qed.

Lemma forallb_take (n : nat) (l : list Ascii.ascii) :
  forallb is_digit l = true -> forallb is_digit (take n l) = true.
Proof.
  revert l. induction n as [|n IH]; intros [|a l]; try reflexivity.
  cbn [forallb take]. intros H. apply andb_true_iff in H. destruct H as [-> Hl].
  now apply IH.
Qed.

Lemma forallb_drop (n : nat) (l : list Ascii.ascii) :
  forallb is_digit l = true -> forallb is_digit (drop n l) = true.
Proof.
  revert l. induction n as [|n IH]; intros [|a l]; try reflexivity; [auto|].
  cbn [forallb drop]. intros H. apply andb_true_iff in H. destruct H as [_ Hl].
  now apply IH.
Qed.

Lemma awbPattern_list (l : list Ascii.ascii) :
  awbPattern (String.string_of_list_ascii l) = true
  <-> length l = 12%nat
      /\ forallb is_digit (take 3 l) = true
      /\ l !! 3%nat = Some dash
      /\ forallb is_digit (drop 4 l) = true.
Proof.
  unfold awbPattern. rewrite String.list_ascii_of_string_of_list_ascii.
  rewrite !andb_true_iff, Nat.eqb_eq, bool_decide_eq_true. tauto.
Qed.

Lemma around_dash (A B : list Ascii.ascii) (x : Ascii.ascii) :
  length A = 3%nat ->
  take 3 (A ++ x :: B) = A
  /\ (A ++ x :: B) !! 3%nat = Some x
  /\ drop 4 (A ++ x :: B) = B.
Proof.
  destruct A as [|a [|b [|c [|d A]]]]; try discriminate. intros _. now repeat split.
Qed.

Lemma around_three (A B : list Ascii.ascii) :
  length A = 3%nat -> take 3 (A ++ B) = A /\ drop 3 (A ++ B) = B.
Proof.
  destruct A as [|a [|b [|c [|d A]]]]; try discriminate. intros _. now split.
Qed.

(** The characters of a formatted input, from its digits. *)
Lemma digits_formatted (D : list Ascii.ascii) :
  forallb is_digit D = true ->
  List.filter is_digit (take 3 D ++ dash :: take 8 (drop 3 D))
  = take 3 D ++ take 8 (drop 3 D).
Proof.
  intros HD. rewrite List.filter_app. cbn [List.filter].
  change (is_digit dash) with false.
  rewrite !filter_digits_all; [reflexivity | |].
  - now apply forallb_take, forallb_drop.
  - now apply forallb_take.
Qed.

(** X16: [formatAwbInput] gives what [validateAwbFormat] accepts exactly
    when its input holds at least eleven digits; formatting a second time
    changes nothing; and an AWB that [validateAwbFormat] accepts is
    formatted to itself. *)
Theorem formatAwbInput_validates (value : string) :
  (TrackingSearch.validateAwbFormat (TrackingSearch.formatAwbInput value) = true
   <-> (11 <= length (TrackingSearch.digits value))%nat)
  /\ TrackingSearch.formatAwbInput (TrackingSearch.formatAwbInput value)
     = TrackingSearch.formatAwbInput value
  /\ (TrackingSearch.validateAwbFormat value = true ->
      TrackingSearch.formatAwbInput value = value).
Proof.
  unfold TrackingSearch.validateAwbFormat.
  assert (HD : forallb is_digit (TrackingSearch.digits value) = true)
    by apply forallb_filter_digits.
  split; [|split].
  - unfold TrackingSearch.formatAwbInput.
    set (D := TrackingSearch.digits value) in *.
    destruct (Nat.leb_spec (length D) 3) as [Hle|Hgt]; rewrite awbPattern_list.
    + split; [intros (Hlen & _); lia | lia].
    + assert (Hlen : length (take 3 D ++ dash :: take 8 (drop 3 D))
                     = (4 + Nat.min 8 (length D - 3))%nat).
      { rewrite length_app. cbn [length]. rewrite !length_take, length_drop. lia. }
      split; [intros (Hl & _); lia|]. intros H11.
      destruct (around_dash (take 3 D) (take 8 (drop 3 D)) dash)
        as (E1 & E2 & E3); [rewrite length_take; lia|].
      rewrite E1, E2, E3. split; [lia|]. split; [now apply forallb_take|].
      split; [reflexivity|]. now apply forallb_take, forallb_drop.
  - unfold TrackingSearch.formatAwbInput at 2 3.
    set (D := TrackingSearch.digits value) in *.
    unfold TrackingSearch.formatAwbInput, TrackingSearch.digits.
    destruct (Nat.leb_spec (length D) 3) as [Hle|Hgt];
      rewrite String.list_ascii_of_string_of_list_ascii.
    + rewrite filter_digits_all by exact HD.
      destruct (Nat.leb_spec (length D) 3); [reflexivity|lia].
    + rewrite digits_formatted by exact HD.
      assert (Hlen : (3 < length (take 3 D ++ take 8 (drop 3 D)))%nat).
      { rewrite length_app, !length_take, length_drop. lia. }
      destruct (Nat.leb_spec (length (take 3 D ++ take 8 (drop 3 D))) 3); [lia|].
      destruct (around_three (take 3 D) (take 8 (drop 3 D))) as (E1 & E2);
        [rewrite length_take; lia|].
      rewrite E1, E2, take_take. reflexivity.
  - intros Hv. rewrite <- (String.string_of_list_ascii_of_string value) in Hv.
    apply awbPattern_list in Hv. destruct Hv as (Hlen & H3 & Hdash & H8).
    unfold TrackingSearch.formatAwbInput, TrackingSearch.digits.
    set (l := String.list_ascii_of_string value) in *.
    assert (Hl : l = take 3 l ++ dash :: drop 4 l).
    { rewrite <- (take_drop 3 l) at 1. f_equal.
      rewrite (drop_S l dash 3 Hdash). reflexivity. }
    assert (HDl : List.filter is_digit l = take 3 l ++ drop 4 l).
    { rewrite Hl at 1. rewrite List.filter_app. cbn [List.filter].
      change (is_digit dash) with false. now rewrite !filter_digits_all. }
    rewrite HDl.
    assert (Hlen' : length (take 3 l ++ drop 4 l) = 11%nat).
    { rewrite length_app, length_take, length_drop. lia. }
    destruct (Nat.leb_spec (length (take 3 l ++ drop 4 l)) 3); [lia|].
    destruct (around_three (take 3 l) (drop 4 l)) as (E1 & E2);
      [rewrite length_take; lia|].
    rewrite E1, E2. rewrite (take_ge (drop 4 l) 8) by (rewrite length_drop; lia).
    rewrite <- Hl. apply String.string_of_list_ascii_of_string.
Qed.

End Awb.

(** ** Bulk refresh *)

Lemma updateTrackingFromExternal_events (up : upstream) (en : env) (db : DB)
    (awbNumber : string) (sourceType : source_type) :
  match TrackingService.updateTrackingFromExternal up en db awbNumber sourceType with
  | (db', Some created) =>
    tracking_events db' = tracking_events db ++ List.map (stored_row (now en)) created
  | (db', None) => db' = db
  end.
Proof.
  unfold TrackingService.updateTrackingFromExternal.
  destruct (Shipment.findByAwb db awbNumber) as [sh|]; [|reflexivity].
  destruct (negb (tracking_enabled sh)); [reflexivity|].
  match goal with
  | |- context [match ?f with Some _ => _ | None => _ end] =>
    destruct f as [l|]; [|reflexivity]
  end.
  pose proof (create_all_spec en (TrackingService.getSourceId sourceType)
                (shipment_id sh) l db) as [He _].
  destruct (TrackingService.create_all en db _ _ l) as [db1 es]. exact He.
Qed.

Lemma updateTrackingFromExternal_unsupported (up : upstream) (en : env) (db : DB)
    (awbNumber name : string) :
  TrackingService.updateTrackingFromExternal up en db awbNumber (OTHER_SOURCE name)
  = (db, None).
Proof.
  unfold TrackingService.updateTrackingFromExternal.
  destruct (Shipment.findByAwb db awbNumber) as [sh|]; [|reflexivity].
  now destruct (negb (tracking_enabled sh)).
Qed.

(** X17: [bulkUpdateTracking] accounts for every shipment id it is given,
    as a success or as a failure; the events it reports as created are
    the events it appends to the store, in that order; and with a source
    type other than IATA_ONERECORD, AIRLINE and CUSTOMS (MANUAL, which the
    route admits, is one) every shipment fails and the store stays as it
    was. *)
Theorem bulkUpdateTracking_accounts (up : upstream) (en : env) (db : DB)
    (shipmentIds : list string) (sourceType : source_type) :
  let out := TrackingService.bulkUpdateTracking up en db shipmentIds sourceType in
  (TrackingService.successful out.2 + TrackingService.failed out.2
   = length shipmentIds)%nat
  /\ tracking_events out.1
     = tracking_events db
       ++ List.map (stored_row (now en)) (concat (TrackingService.results out.2))
  /\ match sourceType with
     | OTHER_SOURCE _ =>
       out.1 = db
       /\ TrackingService.successful out.2 = 0%nat
       /\ TrackingService.errors out.2 = shipmentIds
     | _ => True
     end.
Proof.
  unfold TrackingService.bulkUpdateTracking.
  assert (H : forall db0,
            let r := TrackingService.bulk_each up en db0 sourceType shipmentIds in
            (length r.1.2 + length r.2 = length shipmentIds)%nat
            /\ tracking_events r.1.1
               = tracking_events db0 ++ List.map (stored_row (now en)) (concat r.1.2)
            /\ match sourceType with
               | OTHER_SOURCE _ => r.1.1 = db0 /\ r.1.2 = [] /\ r.2 = shipmentIds
               | _ => True
               end).
  { induction shipmentIds as [|id ids IH]; intros db0.
    - cbn. rewrite app_nil_r. repeat split. now destruct sourceType.
    - cbn [TrackingService.bulk_each].
      destruct (Shipment.findById db0 id) as [sh|].
      + pose proof (updateTrackingFromExternal_events up en db0 (awb_number sh)
                      sourceType) as He.
        destruct (TrackingService.updateTrackingFromExternal up en db0 (awb_number sh)
                    sourceType) as [db1 [created|]] eqn:Hupd.
        * specialize (IH db1). cbv zeta in IH.
          destruct (TrackingService.bulk_each up en db1 sourceType ids)
            as [[db2 rs] es]. cbn [fst snd length concat] in *.
          destruct IH as (Hl & Hev & Hsrc). split; [lia|]. split.
          -- rewrite Hev, He, map_app, app_assoc. reflexivity.
          -- destruct sourceType; try exact I.
             rewrite updateTrackingFromExternal_unsupported in Hupd. discriminate.
        * subst db1. specialize (IH db0). cbv zeta in IH.
          destruct (TrackingService.bulk_each up en db0 sourceType ids)
            as [[db2 rs] es]. cbn [fst snd length concat] in *.
          destruct IH as (Hl & Hev & Hsrc). split; [lia|]. split; [exact Hev|].
          destruct sourceType; try exact I.
          destruct Hsrc as (-> & -> & ->). auto.
      + specialize (IH db0). cbv zeta in IH.
        destruct (TrackingService.bulk_each up en db0 sourceType ids)
          as [[db2 rs] es]. cbn [fst snd length concat] in *.
        destruct IH as (Hl & Hev & Hsrc). split; [lia|]. split; [exact Hev|].
        destruct sourceType; try exact I.
        destruct Hsrc as (-> & -> & ->). auto. }
  specialize (H db). cbv zeta in H.
  destruct (TrackingService.bulk_each up en db sourceType shipmentIds)
    as [[db' rs] es]. cbn [fst snd] in *.
  cbn [TrackingService.successful TrackingService.failed TrackingService.results
       TrackingService.errors].
  destruct H as (Hl & Hev & Hsrc). split; [exact Hl|]. split; [exact Hev|].
  destruct sourceType; try exact I. destruct Hsrc as (-> & -> & ->). auto.
Qed.

(** ** A deleted shipment *)

